(** * My-Wallet-V3: the wallet session core ([wallet.js]) and the
      [Address] entity ([address.js]), embedded as executable definitions.

    The JavaScript is callback driven.  Synchronous code is written in a
    state-and-exception monad over the session; every asynchronous
    continuation (a network response handler, a timer, a promise
    [then]/[catch] pair) is a constructor of [Task] that stays in the
    session's [pending] list until the environment delivers its response.

    The collaborators that are not part of these two files come in as
    parameters ([Helpers], [Collaborators]) or, for the flags and fields
    of wallet-store.js, as plain readers and writers.  Requests to the
    transport return at once and are answered later; encryption and
    decryption answer before they return; callbacks of the caller return
    normally.  Strings are ASCII, numbers are integers. *)

From Stdlib Require Import String Ascii List Bool ZArith Lia.
Import ListNotations.
Open Scope string_scope.
Open Scope Z_scope.

(** ** JavaScript values held by the persisted fields *)

Inductive JsVal : Type :=
| JUndefined
| JNull
| JBool (b : bool)
| JNum (n : Z)
| JStr (s : string).

(** ToBoolean. *)
Definition truthy (v : JsVal) : bool :=
  match v with
  | JUndefined | JNull => false
  | JBool b => b
  | JNum n => negb (n =? 0)
  | JStr s => negb (s =? "")%string
  end.

(** [a || b]. *)
Definition js_or (a b : JsVal) : JsVal := if truthy a then a else b.

(** [v == null]: true of [null] and [undefined] only. *)
Definition eq_null (v : JsVal) : bool :=
  match v with JUndefined | JNull => true | _ => false end.

(** [a === b] on primitives. *)
Definition strict_eq (a b : JsVal) : bool :=
  match a, b with
  | JUndefined, JUndefined | JNull, JNull => true
  | JBool x, JBool y => Bool.eqb x y
  | JNum x, JNum y => x =? y
  | JStr x, JStr y => (x =? y)%string
  | _, _ => false
  end.

(** A plain object: its own properties in insertion order. *)
Definition JsObject : Type := list (string * JsVal).

(** [o.k]; a property that is not there reads as [undefined]. *)
Fixpoint get_prop (o : JsObject) (k : string) : JsVal :=
  match o with
  | [] => JUndefined
  | (k', v) :: o' => if (k' =? k)%string then v else get_prop o' k
  end.

Definition is_undefined (v : JsVal) : bool :=
  match v with JUndefined => true | _ => false end.

(** [JSON.parse(JSON.stringify(o))] on a flat object of primitives:
    [stringify] leaves out the properties whose value is [undefined] and
    keeps the others in order; [parse] reads them back. *)
Definition JSON_roundtrip (o : JsObject) : JsObject :=
  filter (fun kv => negb (is_undefined (snd kv))) o.

(** What a thrown value can be. *)
Inductive Exn : Type :=
| ExnStr (msg : string)            (* throw 'msg' *)
| ReferenceError (ident : string)  (* an identifier bound nowhere *)
| TypeError (msg : string)
| AssertionError (msg : string)
| ExnExternal (msg : string).      (* raised inside a collaborator *)

Definition exn_message (e : Exn) : string :=
  match e with
  | ExnStr m => m
  | ReferenceError x => "ReferenceError: " ++ x ++ " is not defined"
  | TypeError m => "TypeError: " ++ m
  | AssertionError m => "AssertionError: " ++ m
  | ExnExternal m => m
  end.

(** ** address.js *)

Module AddressJS.

Record Address : Type := mkAddress {
  _addr : JsVal;
  _priv : JsVal;
  _label : JsVal;
  _tag : JsVal;
  _created_time : JsVal;
  _created_device_name : JsVal;
  _created_device_version : JsVal;
  (* non saved properties *)
  _balance : JsVal;
  _totalSent : JsVal;
  _totalReceived : JsVal;
  _temporal_priv : option JsVal    (* [None]: the property does not exist *)
}.

(** The argument of [new Address(object)]. *)
Inductive CtorArg : Type :=
| ArgObject (o : JsObject)
| ArgPrim (v : JsVal).

(** [object || {}], then property reads.  A primitive that survives the
    [||] has none of the seven properties. *)
Definition arg_object (object : CtorArg) : JsObject :=
  match object with
  | ArgObject o => o
  | ArgPrim _ => []
  end.

(** [function Address (object)]. *)
Definition new_Address (object : CtorArg) : Address :=
  let obj := arg_object object in
  {| _addr := get_prop obj "addr";
     _priv := get_prop obj "priv";
     _label := get_prop obj "label";
     _tag := js_or (get_prop obj "tag") (JNum 0);
     _created_time := get_prop obj "created_time";
     _created_device_name := get_prop obj "created_device_name";
     _created_device_version := get_prop obj "created_device_version";
     _balance := JNull;
     _totalSent := JNull;
     _totalReceived := JNull;
     _temporal_priv := None |}.

(** Getters of [Object.defineProperties(Address.prototype, ...)]. *)
Definition address (a : Address) : JsVal := _addr a.
Definition priv (a : Address) : JsVal := _priv a.
Definition tag (a : Address) : JsVal := _tag a.
Definition label (a : Address) : JsVal := _label a.
Definition created_time (a : Address) : JsVal := _created_time a.
Definition created_device_name (a : Address) : JsVal := _created_device_name a.
Definition created_device_version (a : Address) : JsVal := _created_device_version a.
Definition isWatchOnly (a : Address) : bool := eq_null (_priv a).
Definition archived (a : Address) : bool := strict_eq (_tag a) (JNum 2).
Definition active (a : Address) : bool := negb (archived a).

(** Field updates. *)
Definition with_label (v : JsVal) (a : Address) : Address :=
  mkAddress (_addr a) (_priv a) v (_tag a) (_created_time a)
    (_created_device_name a) (_created_device_version a)
    (_balance a) (_totalSent a) (_totalReceived a) (_temporal_priv a).
Definition with_tag (v : JsVal) (a : Address) : Address :=
  mkAddress (_addr a) (_priv a) (_label a) v (_created_time a)
    (_created_device_name a) (_created_device_version a)
    (_balance a) (_totalSent a) (_totalReceived a) (_temporal_priv a).
Definition with_priv (v : JsVal) (a : Address) : Address :=
  mkAddress (_addr a) v (_label a) (_tag a) (_created_time a)
    (_created_device_name a) (_created_device_version a)
    (_balance a) (_totalSent a) (_totalReceived a) (_temporal_priv a).
Definition with_balance (v : JsVal) (a : Address) : Address :=
  mkAddress (_addr a) (_priv a) (_label a) (_tag a) (_created_time a)
    (_created_device_name a) (_created_device_version a)
    v (_totalSent a) (_totalReceived a) (_temporal_priv a).
Definition with_totalSent (v : JsVal) (a : Address) : Address :=
  mkAddress (_addr a) (_priv a) (_label a) (_tag a) (_created_time a)
    (_created_device_name a) (_created_device_version a)
    (_balance a) v (_totalReceived a) (_temporal_priv a).
Definition with_totalReceived (v : JsVal) (a : Address) : Address :=
  mkAddress (_addr a) (_priv a) (_label a) (_tag a) (_created_time a)
    (_created_device_name a) (_created_device_version a)
    (_balance a) (_totalSent a) v (_temporal_priv a).
Definition with_temporal_priv (v : option JsVal) (a : Address) : Address :=
  mkAddress (_addr a) (_priv a) (_label a) (_tag a) (_created_time a)
    (_created_device_name a) (_created_device_version a)
    (_balance a) (_totalSent a) (_totalReceived a) v.

(** What [helpers.js], [shared.js], [bs58] and [bitcoinjs-lib] supply to
    this file. *)
Inductive KeyInput : Type :=
| KeyString (s : string)
| KeyPair (addr priv58 : string).   (* getAddress(), Base58.encode(d.toBuffer(32)) *)

Record Helpers : Type := {
  isValidLabel : JsVal -> bool;
  isPositiveNumber : JsVal -> bool;
  isBitcoinAddress : string -> bool;
  isBitcoinPrivateKey : string -> bool;
  fromWIF : string -> string * string;   (* address and base58 key of the pair *)
  now : Z;                               (* Date.now() *)
  APP_NAME : JsVal;
  APP_VERSION : JsVal
}.

(** Calls an Address makes into the wallet session. *)
Inductive SessionCall : Type := CallSyncWallet | CallGetHistory.

Section WithHelpers.
Variable H : Helpers.

(** Setter of [label]. *)
Definition set_label (str : JsVal) (a : Address)
  : Exn + (Address * list SessionCall) :=
  if isValidLabel H str || eq_null str then
    inr (with_label (if strict_eq str (JStr "") then JUndefined else str) a,
         [CallSyncWallet])
  else inl (ExnStr "Error: address.label must be an alphanumeric string").

(** What an assignment that calls into the wallet session leaves behind:
    the Address as it is afterwards, the calls that were made, and the
    exception if the setter threw. *)
Record Assigned : Type := mkAssigned {
  after : Address;
  calls_made : list SessionCall;
  thrown : option Exn
}.

(** Setter of [archived]; [value] is whatever the caller assigns, and
    [wallet_loaded] says whether [MyWallet.wallet] is defined.  When
    unarchiving, the tag is written before [MyWallet.wallet.getHistory()]
    is reached: without a wallet that call throws, the Address keeps the
    tag 0 and [MyWallet.syncWallet()] is not reached. *)
Definition set_archived (wallet_loaded : bool) (value : JsVal) (a : Address)
  : Assigned :=
  match value with
  | JBool true => mkAssigned (with_tag (JNum 2) a) [CallSyncWallet] None
  | JBool false =>
      if wallet_loaded then
        mkAssigned (with_tag (JNum 0) a) [CallGetHistory; CallSyncWallet] None
      else
        mkAssigned (with_tag (JNum 0) a) []
          (Some (TypeError "Cannot read property 'getHistory' of undefined"))
  | _ =>
      mkAssigned a []
        (Some (ExnStr "Error: address.archived must be a boolean"))
  end.

(** Setter of [active]: [this.archived = !value]. *)
Definition set_active (wallet_loaded : bool) (value : JsVal) (a : Address)
  : Assigned :=
  set_archived wallet_loaded (JBool (negb (truthy value))) a.

Definition set_balance (num : JsVal) (a : Address) : Exn + Address :=
  if isPositiveNumber H num then inr (with_balance num a)
  else inl (ExnStr "Error: address.balance must be a positive number").

Definition set_totalSent (num : JsVal) (a : Address) : Exn + Address :=
  if isPositiveNumber H num then inr (with_totalSent num a)
  else inl (ExnStr "Error: address.totalSent must be a positive number").

Definition set_totalReceived (num : JsVal) (a : Address) : Exn + Address :=
  if isPositiveNumber H num then inr (with_totalReceived num a)
  else inl (ExnStr "Error: address.totalReceived must be a positive number").

(** [Address.import]: the [switch (true)] tries a public address string,
    an in-memory key pair ([Helpers.isKey]), then a WIF string.  A key
    pair is an object, not an address string, so the first case passes
    it on. *)
Definition import (key : KeyInput) (lbl : JsVal) : Exn + Address :=
  let object0 : JsObject :=
    [("created_time", JNum (now H));
     ("created_device_name", APP_NAME H);
     ("created_device_version", APP_VERSION H)] in
  let finish (addr priv : JsVal) : Exn + Address :=
    let address := new_Address
      (ArgObject (("addr", addr) :: ("priv", priv) :: object0)) in
    inr (with_tag (JNum 0) (with_label lbl address)) in
  match key with
  | KeyString s =>
      if isBitcoinAddress H s then finish (JStr s) JNull
      else if isBitcoinPrivateKey H s then
        let '(addr, p) := fromWIF H s in finish (JStr addr) (JStr p)
      else inl (ExnStr "Error: address import format not supported")
  | KeyPair addr p => finish (JStr addr) (JStr p)
  end.

End WithHelpers.

(** [Address.prototype.encrypt] and [decrypt] stage the transformed key;
    [cipher] is optional. *)
Definition encrypt (cipher : option (JsVal -> JsVal)) (a : Address)
  : Exn + Address :=
  if negb (truthy (_priv a)) then inr a
  else
    let priv := match cipher with Some c => c (_priv a) | None => _priv a end in
    if negb (truthy priv) then inl (ExnStr "Error Encoding key")
    else inr (with_temporal_priv (Some priv) a).

Definition decrypt (cipher : option (JsVal -> JsVal)) (a : Address)
  : Exn + Address :=
  if negb (truthy (_priv a)) then inr a
  else
    let priv := match cipher with Some c => c (_priv a) | None => _priv a end in
    if negb (truthy priv) then inl (ExnStr "Error Decoding key")
    else inr (with_temporal_priv (Some priv) a).

(** [Address.prototype.persist]. *)
Definition persist (a : Address) : Address :=
  match _temporal_priv a with
  | None => a
  | Some t =>
      if negb (truthy t) then a
      else with_temporal_priv None (with_priv t a)
  end.

(** [Address.prototype.toJSON]: the object literal it returns. *)
Definition toJSON (a : Address) : JsObject :=
  [("addr", address a);
   ("priv", priv a);
   ("tag", tag a);
   ("label", label a);
   ("created_time", created_time a);
   ("created_device_name", created_device_name a);
   ("created_device_version", created_device_version a)].

(** [Address.reviver]: [JSON.parse] hands it every key with its value and
    the root under the key ['']. *)
Inductive Revived : Type :=
| RevAddress (a : Address)
| RevSame (v : CtorArg).

Definition reviver (k : string) (v : CtorArg) : Revived :=
  if (k =? "")%string then RevAddress (new_Address v) else RevSame v.

(** [JSON.parse(JSON.stringify(a), Address.reviver)] for an Address [a]:
    [stringify] calls [toJSON]; the properties come back through the
    reviver unchanged and the root becomes an Address. *)
Definition fromJSON_text (a : Address) : Revived :=
  reviver "" (ArgObject (JSON_roundtrip (toJSON a))).

(** The seven persisted fields, in the order [toJSON] lists them. *)
Definition persisted (a : Address) : list JsVal :=
  [_addr a; _priv a; _tag a; _label a; _created_time a;
   _created_device_name a; _created_device_version a].

Definition persisted_names : list string :=
  ["addr"; "priv"; "tag"; "label"; "created_time";
   "created_device_name"; "created_device_version"].

(** The Addresses this file can produce: the constructor, [import], and
    every setter and method that writes a field. *)
Inductive constructed (H : Helpers) : Address -> Prop :=
| made_new object : constructed H (new_Address object)
| made_import key lbl a :
    import H key lbl = inr a -> constructed H a
| made_label str a a' calls :
    constructed H a -> set_label H str a = inr (a', calls) -> constructed H a'
| made_archived wallet_loaded v a :
    constructed H a -> constructed H (after (set_archived wallet_loaded v a))
| made_balance n a a' :
    constructed H a -> set_balance H n a = inr a' -> constructed H a'
| made_totalSent n a a' :
    constructed H a -> set_totalSent H n a = inr a' -> constructed H a'
| made_totalReceived n a a' :
    constructed H a -> set_totalReceived H n a = inr a' -> constructed H a'
| made_encrypt c a a' :
    constructed H a -> encrypt c a = inr a' -> constructed H a'
| made_decrypt c a a' :
    constructed H a -> decrypt c a = inr a' -> constructed H a'
| made_persist a :
    constructed H a -> constructed H (persist a).

(** The tag is never a falsy value other than [0]. *)
Definition tag_settled (a : Address) : Prop := js_or (_tag a) (JNum 0) = _tag a.

End AddressJS.

(** *** address.js: parsing a key or address, signing *)

Module AddressOpsJS.
Import AddressJS.

(** How [ImportExport.parseBIP38toECPair] answers: with the key pair, by
    its wrong-password callback, by its error callback, or not at all. *)
Inductive Bip38Outcome : Type :=
| Bip38Key (addr priv58 : string)
| Bip38WrongPassword
| Bip38Error
| Bip38Silent.

(** An ECPair as this file uses it: [getAddress()], the base58 text of
    [d.toBuffer(32)], and the [compressed] flag. *)
Record ECPair : Type := mkECPair {
  getAddress : string;
  d58 : string;
  compressed : bool
}.

(** What helpers.js, import-export.js, wallet-crypto.js and bitcoinjs-lib
    supply to [fromString] and [signMessage]. *)
Record KeyHelpers : Type := {
  isString : JsVal -> bool;
  isBase64 : JsVal -> bool;
  isBase58Key : JsVal -> bool;
  detectPrivateKeyFormat : string -> option string;
  (* privateKeyStringToKey(key, format): the pair, or what it throws *)
  privateKeyStringToKey : JsVal -> string -> Exn + ECPair;
  parseBIP38toECPair : string -> string -> Bip38Outcome;
  (* decryptSecretWithSecondPassword(priv, password, sharedKey, iterations) *)
  decryptSecretWithSecondPassword : JsVal -> JsVal -> JsVal -> JsVal -> Exn + JsVal;
  (* Bitcoin.message.sign(keyPair, message).toString('base64') *)
  sign : ECPair -> JsVal -> string
}.

(** The promise [Address.fromString] returns, once settled. *)
Inductive Promise : Type :=
| Resolved (a : Address)
| Rejected (reason : string)
| RejectedWith (e : Exn)      (* the executor threw *)
| Unsettled.

Section WithKeyHelpers.
Variable H : Helpers.
Variable K : KeyHelpers.

Definition okFormats : list string :=
  ["base58"; "base64"; "hex"; "mini"; "sipa"; "compsipa"].

(** [resolve(Address.import(key, label))] inside the executor. *)
Definition resolve_import (key : KeyInput) (lbl : JsVal) : Promise :=
  match import H key lbl with
  | inr a => Resolved a
  | inl e => RejectedWith e
  end.

(** [Address.fromString]; [bipPass] is [None] when [undefined] or
    [null]. *)
Definition fromString (keyOrAddr : string) (lbl : JsVal) (bipPass : option string)
  : Promise :=
  if isBitcoinAddress H keyOrAddr then
    resolve_import (KeyString keyOrAddr) lbl
  else
    let format := detectPrivateKeyFormat K keyOrAddr in
    if match format with Some fmt => (fmt =? "bip38")%string | None => false end
    then
      match bipPass with
      | None => Rejected "needsBip38"
      | Some pass =>
          if (pass =? "")%string then Rejected "needsBip38"
          else
            match parseBIP38toECPair K keyOrAddr pass with
            | Bip38Key addr p => resolve_import (KeyPair addr p) lbl
            | Bip38WrongPassword => Rejected "wrongBipPass"
            | Bip38Error => Rejected "importError"
            | Bip38Silent => Unsettled
            end
      end
    else if match format with
            | Some fmt => existsb (String.eqb fmt) okFormats
            | None => false
            end
    then
      match privateKeyStringToKey K (JStr keyOrAddr)
              (match format with Some fmt => fmt | None => "" end) with
      | inr k => resolve_import (KeyPair (getAddress k) (d58 k)) lbl
      | inl e => RejectedWith e
      end
    else Rejected "unknown key format".

(** Getter of [isEncrypted]. *)
Definition isEncrypted (a : Address) : bool :=
  isBase64 K (_priv a) && negb (isBase58Key K (_priv a)).

(** Getter of [isUnEncrypted]. *)
Definition isUnEncrypted (a : Address) : bool := isBase58Key K (_priv a).

(** [Address.prototype.signMessage]; [session_wallet] is [MyWallet.wallet]
    seen through its [sharedKey] and [pbkdf2_iterations], read when the
    decryption is bound, whether it is used or not. *)
Definition signMessage (session_wallet : option (JsVal * JsVal))
    (message secondPassword : JsVal) (a : Address) : Exn + string :=
  if negb (isString K message) then
    inl (ExnStr "Expected message to be a string")
  else if isWatchOnly a then
    inl (ExnStr "Private key needed for message signing")
  else if isEncrypted a && eq_null secondPassword then
    inl (ExnStr "Second password needed to decrypt key")
  else
    match session_wallet with
    | None => inl (TypeError "Cannot read property 'sharedKey' of undefined")
    | Some (sharedKey, pbkdf2_iterations) =>
        let decrypted :=
          if isEncrypted a then
            decryptSecretWithSecondPassword K (priv a) secondPassword
              sharedKey pbkdf2_iterations
          else inr (priv a) in
        match decrypted with
        | inl e => inl e
        | inr p =>
            match privateKeyStringToKey K p "base58" with
            | inl e => inl e
            | inr keyPair =>
                let keyPair' :=
                  if negb (strict_eq (JStr (getAddress keyPair)) (address a))
                  then mkECPair (getAddress keyPair) (d58 keyPair) false
                  else keyPair in
                inr (sign K keyPair' message)
            end
        end
    end.

End WithKeyHelpers.

End AddressOpsJS.

(** ** wallet.js *)

Module WalletJS.

(** A callback the caller supplies, by name.  Invoking it is recorded in
    the trace; it returns normally and does not call back into the
    session.  The push is embedded a second time, further down, for
    callbacks that throw. *)
Definition Cb : Type := string.

(** The fields of the [Wallet] object (blockchain-wallet.js) this file
    reads. *)
Record Wallet : Type := mkWallet {
  w_guid : string;
  sharedKey : JsVal;
  isEncryptionConsistent : JsVal;
  isUpgradedToHD : JsVal;
  activeAddresses : list string;
  (* hdwallet.accounts[i].labeledReceivingAddresses, when both exist *)
  hdLabeledReceiving : option (list (list string));
  activeXpubs : option (list string);   (* hdwallet.activeXpubs, when hdwallet exists *)
  latestBlock : option string
}.

(** The callbacks object of [MyWallet.login]. *)
Record Callbacks : Type := mkCallbacks {
  cb_success : option Cb;
  cb_otherError : option Cb;
  cb_needsTwoFactorCode : option Cb;
  cb_wrongTwoFactorCode : option Cb;
  cb_authorizationRequired : option Cb;
  cb_didFetch : option Cb;
  cb_didDecrypt : option Cb;
  cb_didBuildHD : option Cb
}.

(** What the closures inside one [login] call capture. *)
Record LoginCtx : Type := mkLoginCtx {
  l_guid : string;
  l_password : string;
  l_sharedKey : option string;      (* credentials.sharedKey *)
  l_callbacks : Callbacks
}.

(** [successCallback] of [pollForSessionGUID]: the closure [login] builds
    (fetch the wallet again) or a callback of the caller. *)
Inductive PollCont : Type :=
| PollRetryFetch (ctx : LoginCtx)
| PollCallback (cb : Cb).

(** Requests handed to the transport collaborators. *)
Inductive Request : Type :=
| ReqWalletFetch (checksum : option string)
    (* securePostCallbacks 'wallet' {method: 'wallet.aes.json'} *)
| ReqWalletUpdate (payload : string) (len : Z) (checksum : option string)
    (old_checksum : option string) (active : option string)
    (language : option string)
    (* securePostCallbacks 'wallet' {method: 'update'} *)
| ReqCheckChecksum (checksum : option string)
    (* WalletNetwork.checkWalletChecksum *)
| ReqWalletJSON (guid : string) (sharedKey : option string)
    (* GET wallet/<guid> *)
| ReqTwoFactor (guid : string) (payload : string) (len : Z)
    (* POST wallet {method: 'get-wallet'} *)
| ReqPollSessionGuid          (* GET wallet/poll-for-session-guid *)
| ReqLogout                   (* GET wallet/logout *)
| ReqHistory.                 (* MyWallet.wallet.getHistory() *)

(** An argument passed to a callback of the caller. *)
Inductive Arg : Type :=
| ArgStr (s : string)
| ArgExn (e : Exn)
| ArgNum (n : Z)
| ArgContinue (ctx : LoginCtx).   (* the closure given to authorizationRequired *)

(** Everything observable from outside the session. *)
Inductive Effect : Type :=
| E_log (msg : string)                       (* console.log *)
| E_event (name : string) (message : option string)   (* WalletStore.sendEvent *)
| E_request (r : Request)
| E_callback (cb : Cb) (args : list Arg)
| E_navigate (how : string)                  (* window.location.replace / reload *)
| E_stringify                                (* JSON.stringify(MyWallet.wallet) *)
| E_encrypt (data : string)                  (* WalletCrypto.encryptWallet *)
| E_decrypt (ciphertext password : string)   (* WalletCrypto.decryptWallet *)
| E_setTimeout (delay : Z)
| E_clearTimeout
| E_wsConnect
| E_wsSend (guid : string)
| E_uncaught (e : Exn).                      (* left a handler uncaught *)

(** Continuations waiting for the environment. *)
Inductive Task : Type :=
| T_getWallet (success error : option Cb)
| T_walletJSON (ctx : LoginCtx)
| T_authorization (ctx : LoginCtx)
| T_twoFactor (ctx : LoginCtx)
| T_poll (k : PollCont)
| T_pollTimer (k : PollCont)
| T_syncPost (new_checksum : option string) (successcallback errorcallback : option Cb)
| T_checkChecksum (successcallback errorcallback : option Cb)
| T_logout
| T_history (event : string).

(** Modelled from the spec: the state held by wallet-store.js, which is
    not among the sources.  The SyncState flags, the polling counter, the
    EncryptedPayload (ciphertext and its checksum) and the AuthSession
    fields of the data model. *)
Record WalletStore : Type := mkStore {
  isRestoringWallet : bool;
  isPolling : bool;
  getCounter : Z;
  isLogoutDisabled : bool;
  isSynchronizedWithServer : bool;
  getEncryptedWalletData : option string;
  getPayloadChecksum : option string;
  getPassword : string;
  getPbkdf2Iterations : Z;
  getLanguage : option string;
  getGuid : option string;
  getRealAuthType : Z;
  isSyncPubKeys : bool
}.

(** The module-level variables of wallet.js, the store, and what has been
    observed and is still awaited. *)
Record Session : Type := mkSession {
  store : WalletStore;
  isInitialized : bool;
  wallet : option Wallet;             (* MyWallet.wallet *)
  last_on_change : option string;     (* of the socketConnect closure *)
  trace : list Effect;                (* oldest first *)
  pending : list Task
}.

Definition with_store (f : WalletStore -> WalletStore) (s : Session) : Session :=
  mkSession (f (store s)) (isInitialized s) (wallet s) (last_on_change s)
    (trace s) (pending s).
Definition with_isInitialized (b : bool) (s : Session) : Session :=
  mkSession (store s) b (wallet s) (last_on_change s) (trace s) (pending s).
Definition with_wallet (w : option Wallet) (s : Session) : Session :=
  mkSession (store s) (isInitialized s) w (last_on_change s) (trace s) (pending s).
Definition with_last_on_change (c : option string) (s : Session) : Session :=
  mkSession (store s) (isInitialized s) (wallet s) c (trace s) (pending s).
Definition with_trace (t : list Effect) (s : Session) : Session :=
  mkSession (store s) (isInitialized s) (wallet s) (last_on_change s) t (pending s).
Definition with_pending (p : list Task) (s : Session) : Session :=
  mkSession (store s) (isInitialized s) (wallet s) (last_on_change s) (trace s) p.

(** *** The monad of synchronous code: state that survives a throw. *)

Inductive Res (A : Type) : Type :=
| Ok (a : A)
| Throw (e : Exn).
Arguments Ok {A} a.
Arguments Throw {A} e.

Definition M (A : Type) : Type := Session -> Res A * Session.

Definition ret {A} (a : A) : M A := fun s => (Ok a, s).
Definition throw {A} (e : Exn) : M A := fun s => (Throw e, s).
Definition bind {A B} (m : M A) (k : A -> M B) : M B :=
  fun s => match m s with
           | (Ok a, s') => k a s'
           | (Throw e, s') => (Throw e, s')
           end.
(** [try { m } catch (e) { h e }]. *)
Definition try_catch {A} (m : M A) (h : Exn -> M A) : M A :=
  fun s => match m s with
           | (Ok a, s') => (Ok a, s')
           | (Throw e, s') => h e s'
           end.
Definition get : M Session := fun s => (Ok s, s).
Definition modify (f : Session -> Session) : M unit := fun s => (Ok tt, f s).

Declare Scope js_scope.
Delimit Scope js_scope with js.
Notation "x <- c ;; k" := (bind c (fun x => k))
  (at level 61, c at next level, right associativity) : js_scope.
Notation "c ;; k" := (bind c (fun _ => k))
  (at level 61, right associativity) : js_scope.
Open Scope js_scope.

Definition when (b : bool) (m : M unit) : M unit := if b then m else ret tt.

Definition emit (e : Effect) : M unit :=
  modify (fun s => with_trace (trace s ++ [e]) s).
Definition spawn (t : Task) : M unit :=
  modify (fun s => with_pending (pending s ++ [t]) s).
Definition update_store (f : WalletStore -> WalletStore) : M unit :=
  modify (with_store f).
Definition read {A} (f : WalletStore -> A) : M A :=
  fun s => (Ok (f (store s)), s).

(** [assert(value, message)]. *)
Definition assert {A} (v : option A) (msg : string) : M unit :=
  match v with Some _ => ret tt | None => throw (AssertionError msg) end.

(** [cb(args)] for a callback that must be a function. *)
Definition call (cb : option Cb) (args : list Arg) : M unit :=
  match cb with
  | Some f => emit (E_callback f args)
  | None => throw (TypeError "undefined is not a function")
  end.
(** [cb && cb(args)] and [if (cb) cb(args)]. *)
Definition call_if (cb : option Cb) (args : list Arg) : M unit :=
  match cb with
  | Some f => emit (E_callback f args)
  | None => ret tt
  end.

(** A string is truthy unless empty; an absent one is falsy. *)
Definition nonempty (o : option string) : bool :=
  match o with Some s => negb (s =? "")%string | None => false end.

Definition console_log (msg : string) : M unit := emit (E_log msg).
Definition sendEvent (name : string) (message : option string) : M unit :=
  emit (E_event name message).

(** [s.length]. *)
Definition strlen (s : string) : Z := Z.of_nat (String.length s).

(** [a != b] where either side may be [null] and the other is a string. *)
Definition differs (a b : option string) : bool :=
  match a, b with
  | Some x, Some y => negb (x =? y)%string
  | None, None => false
  | _, _ => true
  end.

(** The collaborators of wallet.js that decide outcomes synchronously:
    wallet-crypto.js, [JSON.stringify] of the wallet, helpers.js, and the
    built-in [String.prototype.toUpperCase]. *)
Record Collaborators : Type := {
  (* the checksum: a hash of the ciphertext *)
  sha256hex : string -> string;
  (* JSON.stringify(MyWallet.wallet, null, 2); a toJSON may throw *)
  stringify : Wallet -> Exn + string;
  (* WalletCrypto.encryptWallet(data, password, iterations, version) *)
  encryptWallet : string -> string -> Z -> Z -> Exn + string;
  (* WalletCrypto.decryptWallet(data, password, success, error): the
     message given to [error], or the Wallet built from the object given
     to [success] with rootContainer.pbkdf2_iterations when there is a
     root container *)
  decryptWallet : string -> string -> string + (Wallet * option Z);
  isHex : option string -> bool;
  isPositiveInteger : Z -> bool;
  (* String.prototype.toUpperCase: the result need not have the length
     of the text it is given *)
  toUpperCase : string -> string
}.

(** Modelled from the spec: the accessors of wallet-store.js, which is not
    among the sources; each flag of SyncState has a reader (the record
    projection) and a writer. *)
Definition setRestoringWallet (b : bool) (st : WalletStore) : WalletStore :=
  mkStore b (isPolling st) (getCounter st) (isLogoutDisabled st)
    (isSynchronizedWithServer st) (getEncryptedWalletData st)
    (getPayloadChecksum st) (getPassword st) (getPbkdf2Iterations st)
    (getLanguage st) (getGuid st) (getRealAuthType st) (isSyncPubKeys st).
(** Modelled from the spec: wallet-store.js [setIsPolling], the boolean
    guard of the device-authorization poll. *)
Definition setIsPolling (b : bool) (st : WalletStore) : WalletStore :=
  mkStore (isRestoringWallet st) b (getCounter st) (isLogoutDisabled st)
    (isSynchronizedWithServer st) (getEncryptedWalletData st)
    (getPayloadChecksum st) (getPassword st) (getPbkdf2Iterations st)
    (getLanguage st) (getGuid st) (getRealAuthType st) (isSyncPubKeys st).
(** Modelled from the spec: wallet-store.js [incrementCounter], the
    polling counter going up by one. *)
Definition incrementCounter (st : WalletStore) : WalletStore :=
  mkStore (isRestoringWallet st) (isPolling st) (getCounter st + 1)
    (isLogoutDisabled st)
    (isSynchronizedWithServer st) (getEncryptedWalletData st)
    (getPayloadChecksum st) (getPassword st) (getPbkdf2Iterations st)
    (getLanguage st) (getGuid st) (getRealAuthType st) (isSyncPubKeys st).
(** Modelled from the spec: wallet-store.js [disableLogout] and
    [enableLogout] write [isLogoutDisabled], held while a push is in
    flight. *)
Definition setLogoutDisabled (b : bool) (st : WalletStore) : WalletStore :=
  mkStore (isRestoringWallet st) (isPolling st) (getCounter st) b
    (isSynchronizedWithServer st) (getEncryptedWalletData st)
    (getPayloadChecksum st) (getPassword st) (getPbkdf2Iterations st)
    (getLanguage st) (getGuid st) (getRealAuthType st) (isSyncPubKeys st).
(** Modelled from the spec: wallet-store.js [disableLogout]. *)
Definition disableLogout : WalletStore -> WalletStore := setLogoutDisabled true.
(** Modelled from the spec: wallet-store.js [enableLogout]. *)
Definition enableLogout : WalletStore -> WalletStore := setLogoutDisabled false.
(** Modelled from the spec: wallet-store.js [setIsSynchronizedWithServer]. *)
Definition setIsSynchronizedWithServer (b : bool) (st : WalletStore) : WalletStore :=
  mkStore (isRestoringWallet st) (isPolling st) (getCounter st)
    (isLogoutDisabled st) b (getEncryptedWalletData st)
    (getPayloadChecksum st) (getPassword st) (getPbkdf2Iterations st)
    (getLanguage st) (getGuid st) (getRealAuthType st) (isSyncPubKeys st).
(** Modelled from the spec: wallet-store.js [setPayloadChecksum]. *)
Definition setPayloadChecksum (c : option string) (st : WalletStore) : WalletStore :=
  mkStore (isRestoringWallet st) (isPolling st) (getCounter st)
    (isLogoutDisabled st) (isSynchronizedWithServer st)
    (getEncryptedWalletData st) c (getPassword st) (getPbkdf2Iterations st)
    (getLanguage st) (getGuid st) (getRealAuthType st) (isSyncPubKeys st).
(** Modelled from the spec: wallet-store.js [unsafeSetPassword]; the
    password is held in memory only. *)
Definition unsafeSetPassword (pw : string) (st : WalletStore) : WalletStore :=
  mkStore (isRestoringWallet st) (isPolling st) (getCounter st)
    (isLogoutDisabled st) (isSynchronizedWithServer st)
    (getEncryptedWalletData st) (getPayloadChecksum st) pw
    (getPbkdf2Iterations st)
    (getLanguage st) (getGuid st) (getRealAuthType st) (isSyncPubKeys st).
(** Modelled from the spec: wallet-store.js [setPbkdf2Iterations]. *)
Definition setPbkdf2Iterations (n : Z) (st : WalletStore) : WalletStore :=
  mkStore (isRestoringWallet st) (isPolling st) (getCounter st)
    (isLogoutDisabled st) (isSynchronizedWithServer st)
    (getEncryptedWalletData st) (getPayloadChecksum st) (getPassword st) n
    (getLanguage st) (getGuid st) (getRealAuthType st) (isSyncPubKeys st).
(** Modelled from the spec: wallet-store.js [setLanguage], [setGuid],
    [setRealAuthType], [setSyncPubKeys]: the AuthSession fields. *)
Definition setLanguage (l : option string) (st : WalletStore) : WalletStore :=
  mkStore (isRestoringWallet st) (isPolling st) (getCounter st)
    (isLogoutDisabled st) (isSynchronizedWithServer st)
    (getEncryptedWalletData st) (getPayloadChecksum st) (getPassword st)
    (getPbkdf2Iterations st) l (getGuid st) (getRealAuthType st)
    (isSyncPubKeys st).
Definition setGuid (g : option string) (st : WalletStore) : WalletStore :=
  mkStore (isRestoringWallet st) (isPolling st) (getCounter st)
    (isLogoutDisabled st) (isSynchronizedWithServer st)
    (getEncryptedWalletData st) (getPayloadChecksum st) (getPassword st)
    (getPbkdf2Iterations st) (getLanguage st) g (getRealAuthType st)
    (isSyncPubKeys st).
Definition setRealAuthType (n : Z) (st : WalletStore) : WalletStore :=
  mkStore (isRestoringWallet st) (isPolling st) (getCounter st)
    (isLogoutDisabled st) (isSynchronizedWithServer st)
    (getEncryptedWalletData st) (getPayloadChecksum st) (getPassword st)
    (getPbkdf2Iterations st) (getLanguage st) (getGuid st) n
    (isSyncPubKeys st).
Definition setSyncPubKeys (b : bool) (st : WalletStore) : WalletStore :=
  mkStore (isRestoringWallet st) (isPolling st) (getCounter st)
    (isLogoutDisabled st) (isSynchronizedWithServer st)
    (getEncryptedWalletData st) (getPayloadChecksum st) (getPassword st)
    (getPbkdf2Iterations st) (getLanguage st) (getGuid st)
    (getRealAuthType st) b.

Section Session.
Variable X : Collaborators.

(** Modelled from the spec: wallet-store.js [setEncryptedWalletData]
    keeps the ciphertext together with its checksum, the hash of the
    ciphertext (the EncryptedPayload of the data model). *)
Definition setEncryptedWalletData (data : string) (st : WalletStore) : WalletStore :=
  mkStore (isRestoringWallet st) (isPolling st) (getCounter st)
    (isLogoutDisabled st) (isSynchronizedWithServer st)
    (Some data) (Some (sha256hex X data)) (getPassword st)
    (getPbkdf2Iterations st) (getLanguage st) (getGuid st)
    (getRealAuthType st) (isSyncPubKeys st).

(** Modelled from the spec: wallet-store.js [generatePayloadChecksum],
    the checksum computed locally over the stored ciphertext. *)
Definition generatePayloadChecksum (st : WalletStore) : string :=
  sha256hex X (match getEncryptedWalletData st with Some d => d | None => "" end).

(** A collaborator's synchronous result, raised if it threw. *)
Definition lift {A} (r : Exn + A) : M A :=
  match r with inr a => ret a | inl e => throw e end.

(** [MyWallet.wallet.getHistory()]: a request to the history service. *)
Definition getHistory : M unit :=
  s <- get ;;
  match wallet s with
  | None => throw (TypeError "Cannot read property 'getHistory' of undefined")
  | Some _ => emit (E_request ReqHistory)
  end.

(** [MyWallet.logout]. *)
Definition logout (force : JsVal) : M unit :=
  disabled <- read isLogoutDisabled ;;
  if negb (truthy force) && disabled then ret tt
  else
    sendEvent "logging_out" None ;;
    emit (E_request ReqLogout) ;;
    spawn T_logout.

(** [reload] in [logout]: both the [then] and the [catch] of the request;
    an exception of [window.location.reload] is logged. *)
Definition logout_reload : M unit := emit (E_navigate "reload").

(** [MyWallet.getWallet]: the synchronous part, up to the request. *)
Definition getWallet (success error : option Cb) : M unit :=
  c <- read getPayloadChecksum ;;
  emit (E_request (ReqWalletFetch (if nonempty c then c else None))) ;;
  spawn (T_getWallet success error).

(** [socketConnect]: connects and starts a closure with a fresh
    [last_on_change]. *)
Definition socketConnect : M unit :=
  emit E_wsConnect ;;
  modify (with_last_on_change None).

(** [setIsInitialized]. *)
Definition setIsInitialized : M unit :=
  s <- get ;;
  if isInitialized s then ret tt
  else socketConnect ;; modify (with_isInitialized true).

(** [didDecryptWallet]. *)
Definition didDecryptWallet (success : option Cb) : M unit :=
  getWallet None None ;;
  call success [].

(** The closures handed to [decryptAndInitializeWallet] as [success] and
    [error]: by [getWallet]'s response handler and by
    [initializeWallet]. *)
Inductive DecryptSuccess : Type :=
| InGetWallet_success (success : option Cb)
| InInitializeWallet_success (success : option Cb).
Inductive DecryptError : Type :=
| InGetWallet_error (error : option Cb)
| InInitializeWallet_error (other_error : option Cb).

Definition apply_success (k : DecryptSuccess) : M unit :=
  match k with
  | InGetWallet_success success =>
      getHistory ;;
      call_if success []
  | InInitializeWallet_success success =>
      update_store (setRestoringWallet false) ;;
      didDecryptWallet success
  end.

Definition apply_error (k : DecryptError) (e : string) : M unit :=
  match k with
  | InGetWallet_error error =>
      (* When re-fetching the wallet after a remote update, if we can't
         decrypt it, logout for safety. *)
      logout (JBool true) ;;
      call_if error []
  | InInitializeWallet_error other_error =>          (* _error *)
      update_store (setRestoringWallet false) ;;
      sendEvent "msg" (Some e) ;;
      sendEvent "error_restoring_wallet" None ;;
      call other_error [ArgStr e]
  end.

(** [decryptAndInitializeWallet]; its two asserts hold of the closures
    above.  [WalletCrypto.decryptWallet] calls one of its two callbacks
    before it returns (decryption is synchronous). *)
Definition decryptAndInitializeWallet (success : DecryptSuccess)
    (error : DecryptError) (decrypt_success build_hd_success : option Cb)
  : M unit :=
  encryptedWalletData <- read getEncryptedWalletData ;;
  if negb (nonempty encryptedWalletData) then
    apply_error error "No Wallet Data To Decrypt"
  else
    let data := match encryptedWalletData with Some d => d | None => "" end in
    pw <- read getPassword ;;
    emit (E_decrypt data pw) ;;
    match decryptWallet X data pw with
    | inr (w, rootContainer) =>
        call_if decrypt_success [] ;;
        modify (with_wallet (Some w)) ;;
        match rootContainer with
        | Some iterations => update_store (setPbkdf2Iterations iterations)
        | None => ret tt
        end ;;
        c <- read getPayloadChecksum ;;
        when (negb (nonempty c))
          (g <- read generatePayloadChecksum ;;
           update_store (setPayloadChecksum (Some g))) ;;
        when (strict_eq (isUpgradedToHD w) (JBool false))
          (sendEvent "hd_wallets_does_not_exist" None) ;;
        setIsInitialized ;;
        apply_success success
    | inl e => apply_error error e
    end.

(** [MyWallet.initializeWallet]. *)
Definition initializeWallet (pw : string)
    (success other_error decrypt_success build_hd_success : option Cb)
  : M unit :=
  assert success "Success callback required" ;;
  assert other_error "Error callback required" ;;
  s <- get ;;
  if isInitialized s || isRestoringWallet (store s) then ret tt
  else
    update_store (setRestoringWallet true) ;;
    update_store (unsafeSetPassword pw) ;;
    decryptAndInitializeWallet
      (InInitializeWallet_success success)
      (InInitializeWallet_error other_error)
      decrypt_success build_hd_success.

(** The response handler of [getWallet]. *)
Definition getWallet_response (success error : option Cb)
    (payload : option string) : M unit :=
  if negb (nonempty payload) || negb (differs payload (Some "Not modified"))
  then call_if success []
  else
    let data := match payload with Some d => d | None => "" end in
    update_store (setEncryptedWalletData data) ;;
    decryptAndInitializeWallet
      (InGetWallet_success success) (InGetWallet_error error) None None.

Definition getWallet_failed (error : option Cb) : M unit :=
  call_if error [].

(** *** Login *)

(** [credentials.twoFactor] when it is not [null]; a [code] that is not a
    string is [None]. *)
Record TwoFactor : Type := mkTwoFactor {
  tf_type : Z;
  tf_code : option string
}.

(** The object a successful [GET wallet/<guid>] resolves to. *)
Record WalletJSON : Type := mkWalletJSON {
  j_guid : option string;
  j_real_auth_type : Z;
  j_sync_pubkeys : bool;
  j_payload : option string;
  j_auth_type : Z;
  j_language : option string
}.

(** What the [catch] of that request receives: an object, or text that
    [JSON.parse] reads into one, with the two fields the handler looks
    at; or text that [JSON.parse] rejects. *)
Inductive FetchError : Type :=
| FetchErrorObject (shown : string) (initial_error : option string)
    (authorization_required : bool)
| FetchErrorText (raw : string).

(** An exception of the [then] handler arriving in the [catch] handler:
    Error objects have neither field; a thrown string is not JSON. *)
Definition fetch_error_of_exn (e : Exn) : FetchError :=
  match e with
  | ExnStr m => FetchErrorText m
  | _ => FetchErrorObject (exn_message e) None false
  end.

(** [promise.then(success).catch(error)]: an exception of [success]
    rejects the chain and reaches [error]. *)
Definition then_catch (success : M unit) (error : Exn -> M unit) : M unit :=
  try_catch success error.

(** [tryToFetchWalletJSON], up to the request. *)
Definition tryToFetchWalletJSON (ctx : LoginCtx) : M unit :=
  emit (E_request (ReqWalletJSON (l_guid ctx) (l_sharedKey ctx))) ;;
  spawn (T_walletJSON ctx).

(** [MyWallet.pollForSessionGUID], up to the first request. *)
Definition pollForSessionGUID (successCallback : PollCont) : M unit :=
  polling <- read isPolling ;;
  if polling then ret tt
  else
    update_store (setIsPolling true) ;;
    emit (E_request ReqPollSessionGuid) ;;
    spawn (T_poll successCallback).

Definition run_PollCont (k : PollCont) : M unit :=
  match k with
  | PollRetryFetch ctx => tryToFetchWalletJSON ctx
  | PollCallback cb => emit (E_callback cb [])
  end.

(** [success] and [error] inside [pollForSessionGUID]. *)
Definition poll_success (k : PollCont) (guid : option string) : M unit :=
  if nonempty guid then
    update_store (setIsPolling false) ;;
    sendEvent "msg" (Some "Authorization Successful") ;;
    run_PollCont k
  else
    c <- read getCounter ;;
    if c <? 600 then
      update_store incrementCounter ;;
      emit (E_setTimeout 2000) ;;
      spawn (T_pollTimer k)
    else update_store (setIsPolling false).

Definition poll_error : M unit := update_store (setIsPolling false).

(** The function given to [setTimeout]. *)
Definition poll_timer (k : PollCont) : M unit :=
  emit (E_request ReqPollSessionGuid) ;;
  spawn (T_poll k).

(** [didFetchWalletJSON]; after the 2FA request [obj] is the plain text,
    which has neither [payload] nor [language]. *)
Definition didFetchWalletJSON (ctx : LoginCtx) (payload language : option string)
  : M unit :=
  when (nonempty payload && differs payload (Some "Not modified"))
    (update_store (setEncryptedWalletData
       (match payload with Some d => d | None => "" end))) ;;
  lang <- read getLanguage ;;
  when (nonempty language && differs lang language)
    (update_store (setLanguage language)) ;;
  let callbacks := l_callbacks ctx in
  initializeWallet (l_password ctx) (cb_success callbacks)
    (cb_otherError callbacks) (cb_didDecrypt callbacks)
    (cb_didBuildHD callbacks).

(** [success] and [error] inside [tryToFetchWalletJSON].  The bare
    identifier [otherError] is bound nowhere in the file (the callback is
    [callbacks.otherError]), so calling it throws. *)
Definition walletJSON_success (ctx : LoginCtx) (obj : WalletJSON) : M unit :=
  let callbacks := l_callbacks ctx in
  call_if (cb_didFetch callbacks) [] ;;
  if negb (nonempty (j_guid obj)) then
    sendEvent "msg" (Some "Server returned null guid.") ;;
    throw (ReferenceError "otherError")
  else
    update_store (setGuid (j_guid obj)) ;;
    update_store (setRealAuthType (j_real_auth_type obj)) ;;
    update_store (setSyncPubKeys (j_sync_pubkeys obj)) ;;
    if nonempty (j_payload obj) && differs (j_payload obj) (Some "Not modified")
    then didFetchWalletJSON ctx (j_payload obj) (j_language obj)
    else call (cb_needsTwoFactorCode callbacks) [ArgNum (j_auth_type obj)].

Definition walletJSON_error (ctx : LoginCtx) (e : FetchError) : M unit :=
  let callbacks := l_callbacks ctx in
  match e with
  | FetchErrorText raw =>
      console_log raw ;;
      throw (ExnExternal "SyntaxError: JSON.parse")
  | FetchErrorObject shown initial_error authorization_required =>
      console_log shown ;;
      if nonempty initial_error && negb authorization_required then
        call (cb_otherError callbacks)
          [ArgStr (match initial_error with Some m => m | None => "" end)]
      else
        sendEvent "did_fail_set_guid" None ;;
        match authorization_required, cb_authorizationRequired callbacks with
        | true, Some f =>
            emit (E_callback f [ArgContinue ctx]) ;;
            spawn (T_authorization ctx)
        | _, _ => ret tt
        end ;;
        when (nonempty initial_error) (sendEvent "msg" initial_error)
  end.

(** The closure given to [callbacks.authorizationRequired], when the
    caller invokes it. *)
Definition authorization_continue (ctx : LoginCtx) : M unit :=
  pollForSessionGUID (PollRetryFetch ctx).

(** [tryToFetchWalletWith2FA], up to the request. *)
Definition tryToFetchWalletWith2FA (ctx : LoginCtx) (two_factor_auth : TwoFactor)
  : M unit :=
  match tf_code two_factor_auth with
  | None =>
      (* otherError('Two Factor Authentication code this null') *)
      throw (ReferenceError "otherError")
  | Some code =>
      if (strlen code =? 0) || (255 <? strlen code) then
        (* otherError('You must enter a Two Factor Authentication code') *)
        throw (ReferenceError "otherError")
      else
        let two_factor_auth_key :=
          if (tf_type two_factor_auth =? 2) || (tf_type two_factor_auth =? 4)
             || (tf_type two_factor_auth =? 5)
          then toUpperCase X code else code in
        emit (E_request (ReqTwoFactor (l_guid ctx) two_factor_auth_key
                           (strlen two_factor_auth_key))) ;;
        spawn (T_twoFactor ctx)
  end.

(** [success] and [error] inside [tryToFetchWalletWith2FA]. *)
Definition twoFactor_success (ctx : LoginCtx) (data : option string) : M unit :=
  if negb (nonempty data) then
    (* otherError('Server Return Empty Wallet Data') *)
    throw (ReferenceError "otherError")
  else
    when (differs data (Some "Not modified"))
      (update_store (setEncryptedWalletData
         (match data with Some d => d | None => "" end))) ;;
    didFetchWalletJSON ctx None None.

Definition twoFactor_error (ctx : LoginCtx) (response : Arg) : M unit :=
  update_store (setRestoringWallet false) ;;
  call (cb_wrongTwoFactorCode (l_callbacks ctx)) [response].

(** [MyWallet.login].  [twoFactor] is [None] for [null]; the client time
    and API code sent along are left out of the request. *)
Definition login (guid password : string) (credentials_sharedKey : option string)
    (twoFactor : option TwoFactor) (callbacks : Callbacks) : M unit :=
  assert (cb_success callbacks) "Success callback required" ;;
  assert (cb_otherError callbacks) "Error callback required" ;;
  match twoFactor with
  | None => ret tt
  | Some tf =>
      if isPositiveInteger X (tf_type tf)
         && match tf_code tf with Some _ => true | None => false end
      then ret tt else throw (AssertionError "false == true")
  end ;;
  let ctx := mkLoginCtx guid password
    (if nonempty credentials_sharedKey then credentials_sharedKey else None)
    callbacks in
  match twoFactor with
  | None => tryToFetchWalletJSON ctx
  | Some tf =>
      g <- read getGuid ;;
      d <- read getEncryptedWalletData ;;
      if negb (differs (Some guid) g) && nonempty d then
        (* initializeWallet(inputedPassword, ...): [inputedPassword] is
           bound nowhere in this function *)
        throw (ReferenceError "inputedPassword")
      else tryToFetchWalletWith2FA ctx tf
  end.

(** *** Push *)

(** [panic] inside [syncWallet]. *)
Definition panic (e : string) : M unit :=
  console_log ("Panic " ++ e) ;;
  emit (E_navigate "replace /") ;;
  throw (ExnStr "Save disabled.").

(** [!sharedKey || sharedKey.length === 0 || sharedKey.length !== 36];
    a value that is not a string has no [length] of 36. *)
Definition sharedKey_rejected (w : Wallet) : bool :=
  match sharedKey w with
  | JStr k => negb (truthy (JStr k)) || (strlen k =? 0) || negb (strlen k =? 36)
  | _ => true
  end.

(** [_errorcallback] inside [syncWallet]. *)
Definition _errorcallback (errorcallback : option Cb) (e : Exn) : M unit :=
  sendEvent "on_backup_wallet_error" None ;;
  sendEvent "msg" (Some ("Error Saving Wallet: " ++ exn_message e)) ;;
  (* Re-fetch the wallet from server *)
  getWallet None None ;;
  call_if errorcallback [ArgExn e].

(** [data.active]: the active addresses and the labeled receiving
    addresses of every HD account, joined by a bar. *)
Definition active_list (w : Wallet) : string :=
  let hdAddresses :=
    match hdLabeledReceiving w with
    | Some accounts => List.concat accounts
    | None => []
    end in
  String.concat "|" (activeAddresses w ++ hdAddresses).

(** The body of the success callback given to
    [WalletCrypto.decryptWallet] in [syncWallet]: the upload. *)
Definition upload (w : Wallet) (crypted : string)
    (successcallback errorcallback : option Cb) : M unit :=
  oldChecksum <- read getPayloadChecksum ;;
  sendEvent "on_backup_wallet_start" None ;;
  update_store (setEncryptedWalletData crypted) ;;
  new_checksum <- read getPayloadChecksum ;;
  language <- read getLanguage ;;
  syncPubKeys <- read isSyncPubKeys ;;
  emit (E_request
          (ReqWalletUpdate crypted (strlen crypted) new_checksum
             (if isHex X oldChecksum then oldChecksum else None)
             (if syncPubKeys then Some (active_list w) else None)
             language)) ;;
  spawn (T_syncPost new_checksum successcallback errorcallback).

(** [syncWallet]: the synchronous part. *)
Definition syncWallet (successcallback errorcallback : option Cb) : M unit :=
  s <- get ;;
  match wallet s with
  | None => throw (TypeError "Cannot read property 'isEncryptionConsistent' of undefined")
  | Some w =>
      when (strict_eq (isEncryptionConsistent w) (JBool false))
        (panic "The wallet was not fully enc/decrypted") ;;
      when (sharedKey_rejected w)
        (throw (ExnStr "Cannot backup wallet now. Shared key is not set")) ;;
      update_store disableLogout ;;
      try_catch
        (emit E_stringify ;;
         data <- lift (stringify X w) ;;
         pw <- read getPassword ;;
         iterations <- read getPbkdf2Iterations ;;
         emit (E_encrypt data) ;;
         crypted <- lift (encryptWallet X data pw iterations
                            (if truthy (isUpgradedToHD w) then 3 else 2)) ;;
         when (strlen crypted =? 0)
           (throw (ExnStr "Error encrypting the JSON output")) ;;
         (* Now Decrypt the it again to double check for any possible
            corruption *)
         pw' <- read getPassword ;;
         emit (E_decrypt crypted pw') ;;
         match decryptWallet X crypted pw' with
         | inr _ =>
             try_catch (upload w crypted successcallback errorcallback)
               (fun e =>
                  _errorcallback errorcallback e ;;
                  update_store enableLogout)
         | inl e =>
             console_log e ;;
             throw (ExnStr "Decryption failed")
         end)
        (fun e =>
           _errorcallback errorcallback e ;;
           update_store enableLogout)
  end.

(** The two callbacks of the upload request. *)
Definition syncPost_success (new_checksum : option string)
    (successcallback errorcallback : option Cb) : M unit :=
  emit (E_request (ReqCheckChecksum new_checksum)) ;;
  spawn (T_checkChecksum successcallback errorcallback).

Definition syncPost_error (errorcallback : option Cb) (e : Exn) : M unit :=
  update_store enableLogout ;;
  _errorcallback errorcallback e.

(** The two callbacks of [WalletNetwork.checkWalletChecksum]. *)
Definition checkChecksum_success (successcallback : option Cb) : M unit :=
  update_store (setIsSynchronizedWithServer true) ;;
  update_store enableLogout ;;
  sendEvent "on_backup_wallet_success" None ;;
  call_if successcallback [].

Definition checkChecksum_error (errorcallback : option Cb) : M unit :=
  _errorcallback errorcallback (ExnStr "Checksum Did Not Match Expected Value") ;;
  update_store enableLogout.

(** *** The push channel *)

(** A frame after [JSON.parse]: text that does not parse, or an object
    seen through its [op]. *)
Inductive Frame : Type :=
| FrameMalformed (raw : string)
| FrameOnChange (checksum : string)
| FrameUtx
| FrameBlock (x : string)
| FramePong
| FrameOther (op : string).

Definition with_latestBlock (x : option string) (w : Wallet) : Wallet :=
  mkWallet (w_guid w) (sharedKey w) (isEncryptionConsistent w)
    (isUpgradedToHD w) (activeAddresses w) (hdLabeledReceiving w)
    (activeXpubs w) x.

(** [MyWallet.wallet.getHistory().then(sendEvent.bind(null, event))]. *)
Definition getHistory_then (event : string) : M unit :=
  getHistory ;;
  spawn (T_history event).

(** [onMessage] of [socketConnect]. *)
Definition onMessage (message : Frame) : M unit :=
  match message with
  | FrameMalformed raw =>
      console_log ("Websocket error: could not parse message data as JSON: " ++ raw)
  | FrameOnChange new_checksum =>
      old_checksum <- read generatePayloadChecksum ;;
      s <- get ;;
      if differs (last_on_change s) (Some new_checksum)
         && differs (Some old_checksum) (Some new_checksum)
      then
        modify (with_last_on_change (Some new_checksum)) ;;
        getWallet None None
      else ret tt
  | FrameUtx =>
      sendEvent "on_tx_received" None ;;
      getHistory_then "on_tx"
  | FrameBlock x =>
      getHistory_then "on_block" ;;
      modify (fun s => with_wallet (option_map (with_latestBlock (Some x)) (wallet s)) s)
  | FramePong => emit E_clearTimeout
  | FrameOther _ => ret tt
  end.

(** [onOpen] and [onClose] of [socketConnect]. *)
Definition onOpen : M unit :=
  sendEvent "ws_on_open" None ;;
  s <- get ;;
  match wallet s with
  | None => throw (TypeError "Cannot read property 'hdwallet' of undefined")
  | Some w => emit (E_wsSend (w_guid w))
  end.

Definition onClose : M unit := sendEvent "ws_on_close" None.

(** *** The environment: responses and calls *)

(** A pending task together with the response the environment gives it. *)
Inductive Delivery : Type :=
| GetWallet_ok (success error : option Cb) (payload : option string)
| GetWallet_error (success error : option Cb)
| WalletJSON_ok (ctx : LoginCtx) (obj : WalletJSON)
| WalletJSON_error (ctx : LoginCtx) (e : FetchError)
| Authorization_invoked (ctx : LoginCtx)
| TwoFactor_ok (ctx : LoginCtx) (data : option string)
| TwoFactor_error (ctx : LoginCtx) (response : string)
| Poll_ok (k : PollCont) (guid : option string)
| Poll_error (k : PollCont)
| PollTimer_fired (k : PollCont)
| SyncPost_ok (new_checksum : option string) (successcallback errorcallback : option Cb)
| SyncPost_error (new_checksum : option string) (successcallback errorcallback : option Cb)
    (e : string)
| CheckChecksum_ok (successcallback errorcallback : option Cb)
| CheckChecksum_mismatch (successcallback errorcallback : option Cb)
| Logout_done
| History_done (event : string).

Definition task_of (d : Delivery) : Task :=
  match d with
  | GetWallet_ok success error _ | GetWallet_error success error =>
      T_getWallet success error
  | WalletJSON_ok ctx _ | WalletJSON_error ctx _ => T_walletJSON ctx
  | Authorization_invoked ctx => T_authorization ctx
  | TwoFactor_ok ctx _ | TwoFactor_error ctx _ => T_twoFactor ctx
  | Poll_ok k _ | Poll_error k => T_poll k
  | PollTimer_fired k => T_pollTimer k
  | SyncPost_ok c sc ec | SyncPost_error c sc ec _ => T_syncPost c sc ec
  | CheckChecksum_ok sc ec | CheckChecksum_mismatch sc ec => T_checkChecksum sc ec
  | Logout_done => T_logout
  | History_done event => T_history event
  end.

(** A response or a timer is consumed by its delivery; the closure handed
    to [authorizationRequired] can be invoked again. *)
Definition one_shot (t : Task) : bool :=
  match t with T_authorization _ => false | _ => true end.

(** The handler a delivery runs. *)
Definition handle (d : Delivery) : M unit :=
  match d with
  | GetWallet_ok success error payload => getWallet_response success error payload
  | GetWallet_error _ error => getWallet_failed error
  | WalletJSON_ok ctx obj =>
      then_catch (walletJSON_success ctx obj)
        (fun e => walletJSON_error ctx (fetch_error_of_exn e))
  | WalletJSON_error ctx e => walletJSON_error ctx e
  | Authorization_invoked ctx => authorization_continue ctx
  | TwoFactor_ok ctx data =>
      then_catch (twoFactor_success ctx data)
        (fun e => twoFactor_error ctx (ArgExn e))
  | TwoFactor_error ctx response => twoFactor_error ctx (ArgStr response)
  | Poll_ok k guid => then_catch (poll_success k guid) (fun _ => poll_error)
  | Poll_error _ => poll_error
  | PollTimer_fired k => poll_timer k
  | SyncPost_ok c sc ec => syncPost_success c sc ec
  | SyncPost_error _ _ ec e => syncPost_error ec (ExnExternal e)
  | CheckChecksum_ok sc _ => checkChecksum_success sc
  | CheckChecksum_mismatch _ ec => checkChecksum_error ec
  | Logout_done => logout_reload
  | History_done event => sendEvent event None
  end.

(** The entry points the host calls. *)
Inductive ApiCall : Type :=
| Call_login (guid password : string) (sharedKey : option string)
    (twoFactor : option TwoFactor) (callbacks : Callbacks)
| Call_getWallet (success error : option Cb)
| Call_initializeWallet (pw : string)
    (success other_error decrypt_success build_hd_success : option Cb)
| Call_pollForSessionGUID (cb : Cb)
| Call_syncWallet (successcallback errorcallback : option Cb)
| Call_logout (force : JsVal)
| Call_onMessage (message : Frame).

Definition invoke (c : ApiCall) : M unit :=
  match c with
  | Call_login g p k tf cbs => login g p k tf cbs
  | Call_getWallet s e => getWallet s e
  | Call_initializeWallet pw s e d b => initializeWallet pw s e d b
  | Call_pollForSessionGUID cb => pollForSessionGUID (PollCallback cb)
  | Call_syncWallet s e => syncWallet s e
  | Call_logout force => logout force
  | Call_onMessage m => onMessage m
  end.

(** Run a handler to its end; an exception nobody catches is reported and
    the state it left stays. *)
Definition run (m : M unit) (s : Session) : Session :=
  match m s with
  | (Ok _, s') => s'
  | (Throw e, s') => with_trace (trace s' ++ [E_uncaught e]) s'
  end.

(** Take the first pending task equal to [t] out of the list. *)
Definition Task_eq_dec : forall a b : Task, {a = b} + {a <> b}.
Proof.
  repeat decide equality.
Defined.

Fixpoint remove_first (t : Task) (l : list Task) : option (list Task) :=
  match l with
  | [] => None
  | x :: l' =>
      if Task_eq_dec t x then Some l'
      else option_map (cons x) (remove_first t l')
  end.

(** Deliver [d]: nothing happens unless its task is pending. *)
Definition deliver (d : Delivery) (s : Session) : Session :=
  match remove_first (task_of d) (pending s) with
  | None => s
  | Some rest =>
      run (handle d)
        (if one_shot (task_of d) then with_pending rest s else s)
  end.

(** One turn of the event loop. *)
Inductive Turn : Type :=
| Host (c : ApiCall)
| Env (d : Delivery).

Definition turn (t : Turn) (s : Session) : Session :=
  match t with
  | Host c => run (invoke c) s
  | Env d => deliver d s
  end.

Definition turns (ts : list Turn) (s : Session) : Session :=
  fold_left (fun s t => turn t s) ts s.

(** What one function added to the trace. *)
Definition added {A} (m : M A) (s : Session) : list Effect :=
  skipn (length (trace s)) (trace (snd (m s))).

Definition is_upload (e : Effect) : bool :=
  match e with E_request (ReqWalletUpdate _ _ _ _ _ _) => true | _ => false end.
Definition is_request (e : Effect) : bool :=
  match e with E_request _ => true | _ => false end.
Definition is_poll_request (e : Effect) : bool :=
  match e with E_request ReqPollSessionGuid => true | _ => false end.
Definition is_callback (e : Effect) : bool :=
  match e with E_callback _ _ => true | _ => false end.
Definition is_poll_task (t : Task) : bool :=
  match t with T_poll _ | T_pollTimer _ => true | _ => false end.

Definition is_push_task (t : Task) : bool :=
  match t with T_syncPost _ _ _ | T_checkChecksum _ _ => true | _ => false end.
(** Serialization, encryption, decryption and requests. *)
Definition is_work (e : Effect) : bool :=
  match e with
  | E_stringify | E_encrypt _ | E_decrypt _ _ | E_request _ => true
  | _ => false
  end.

(** *** One push, from the call to its last callback *)

(** How the remote store answers the upload and the checksum check. *)
Inductive PushOutcome : Type :=
| UploadFails (e : string)
| ChecksumMismatch
| ChecksumConfirmed.

Definition push_delivery (o : PushOutcome) (t : Task) : option Delivery :=
  match t with
  | T_syncPost c sc ec =>
      Some (match o with
            | UploadFails e => SyncPost_error c sc ec e
            | _ => SyncPost_ok c sc ec
            end)
  | T_checkChecksum sc ec =>
      Some (match o with
            | ChecksumMismatch => CheckChecksum_mismatch sc ec
            | _ => CheckChecksum_ok sc ec
            end)
  | _ => None
  end.

(** Answer the pending task [t] of a push. *)
Definition push_answer (o : PushOutcome) (t : Task) (s : Session) : Session :=
  match push_delivery o t with
  | Some d => deliver d s
  | None => s
  end.

(** The tasks a piece of code has left pending. *)
Definition spawned {A} (m : M A) (s : Session) : list Task :=
  skipn (length (pending s)) (pending (snd (m s))).

(** Turns that are no part of a push: any call but [syncWallet], any
    delivery but those of the upload and the checksum check. *)
Definition push_free (t : Turn) : bool :=
  match t with
  | Host (Call_syncWallet _ _) => false
  | Host _ => true
  | Env d => negb (is_push_task (task_of d))
  end.

(** Turns in which [syncWallet] is not called. *)
Definition no_push_call (t : Turn) : bool :=
  match t with
  | Host (Call_syncWallet _ _) => false
  | _ => true
  end.

(** [syncWallet]; the answer to the upload it has left pending, if it
    has; the answer to the checksum check, if the upload was
    acknowledged; with other turns [ts1] and [ts2] in between. *)
Definition push (successcallback errorcallback : option Cb) (o : PushOutcome)
    (ts1 ts2 : list Turn) (s : Session) : Session :=
  let s1 := run (syncWallet successcallback errorcallback) s in
  match find is_push_task (spawned (syncWallet successcallback errorcallback) s) with
  | None => turns ts2 (turns ts1 s1)
  | Some upload_task =>
      let s2 := push_answer o upload_task (turns ts1 s1) in
      match o with
      | UploadFails _ => turns ts2 s2
      | _ =>
          push_answer o (T_checkChecksum successcallback errorcallback)
            (turns ts2 s2)
      end
  end.

(** *** One device-authorization poll, from the call to its end *)

(** How the server answers one poll request. *)
Inductive PollAnswer : Type :=
| PollResolved (guid : option string)
| PollRejected.

Definition poll_delivery (a : PollAnswer) (t : Task) : option Delivery :=
  match t with
  | T_poll k =>
      Some (match a with
            | PollResolved guid => Poll_ok k guid
            | PollRejected => Poll_error k
            end)
  | T_pollTimer k => Some (PollTimer_fired k)
  | _ => None
  end.

(** Let the pending timer of the poll fire, or answer its pending
    request. *)
Definition poll_advance (a : PollAnswer) (s : Session) : Session :=
  match find is_poll_task (pending s) with
  | Some t =>
      match poll_delivery a t with
      | Some d => deliver d s
      | None => s
      end
  | None => s
  end.

(** Turns that are no part of a poll. *)
Definition poll_free (t : Turn) : bool :=
  match t with
  | Host (Call_pollForSessionGUID _) => false
  | Host _ => true
  | Env (Authorization_invoked _) => false
  | Env d => negb (is_poll_task (task_of d))
  end.

Definition count_poll_requests (s : Session) : Z :=
  Z.of_nat (length (filter is_poll_request (trace s))).

(** A schedule for one poll: the poll advances (its request is answered
    or its timer fires), or something else takes a turn. *)
Inductive PollStep : Type :=
| Advance (a : PollAnswer)
| Other (t : Turn).

Definition poll_step (p : PollStep) (s : Session) : Session :=
  match p with
  | Advance a => poll_advance a s
  | Other t => turn t s
  end.

Definition poll_steps (steps : list PollStep) (s : Session) : Session :=
  fold_left (fun s p => poll_step p s) steps s.

Definition other_poll_free (p : PollStep) : bool :=
  match p with
  | Advance _ => true
  | Other t => poll_free t
  end.

Definition advances (steps : list PollStep) : Z :=
  Z.of_nat (length (filter (fun p => match p with Advance _ => true | Other _ => false end)
                      steps)).

(** The poll has ended: the guard is down and nothing of it is pending. *)
Definition poll_ended (s : Session) : Prop :=
  isPolling (store s) = false /\ filter is_poll_task (pending s) = [].

(** At most one polling loop: at most one request or timer of a poll is
    pending, and none unless the guard is up. *)
Definition one_poll (s : Session) : Prop :=
  (length (filter is_poll_task (pending s)) <= 1)%nat /\
  (isPolling (store s) = false -> filter is_poll_task (pending s) = []).

(** A poll in good order: the counter within its bound, at most one
    task of the poll pending, and the guard up exactly while one is. *)
Definition poll_sound (s : Session) : Prop :=
  getCounter (store s) <= 600 /\ one_poll s /\
  (filter is_poll_task (pending s) = [] -> isPolling (store s) = false).

(** How many advances a running poll can still take, and how many
    requests it can still issue. *)
Definition poll_budget (s : Session) : Z :=
  match filter is_poll_task (pending s) with
  | T_poll _ :: _ => 1 + 2 * (600 - getCounter (store s))
  | T_pollTimer _ :: _ => 2 + 2 * (600 - getCounter (store s))
  | _ => 0
  end.

Definition poll_requests_left (s : Session) : Z :=
  match filter is_poll_task (pending s) with
  | T_poll _ :: _ => 600 - getCounter (store s)
  | T_pollTimer _ :: _ => 601 - getCounter (store s)
  | _ => 0
  end.

(** Why a poll ended: a session guid arrived, a request failed, or the
    counter stands at its bound. *)
Definition poll_cause (steps : list PollStep) (s : Session) : Prop :=
  (exists g, g <> "" /\ In (Advance (PollResolved (Some g))) steps) \/
  In (Advance PollRejected) steps \/
  getCounter (store s) = 600.

(** *** The push when a callback of the caller throws *)

Section Raising.

(** What a callback of the caller throws when it is called, if it
    throws. *)
Variable raises : Cb -> option Exn.

(** [cb && cb(args)] for such a callback. *)
Definition call_if_raising (cb : option Cb) (args : list Arg) : M unit :=
  match cb with
  | Some f =>
      match raises f with
      | None => emit (E_callback f args)
      | Some e => emit (E_callback f args) ;; throw e
      end
  | None => ret tt
  end.

(** [_errorcallback] inside [syncWallet]. *)
Definition _errorcallback_raising (errorcallback : option Cb) (e : Exn) : M unit :=
  sendEvent "on_backup_wallet_error" None ;;
  sendEvent "msg" (Some ("Error Saving Wallet: " ++ exn_message e)) ;;
  (* Re-fetch the wallet from server *)
  getWallet None None ;;
  call_if_raising errorcallback [ArgExn e].

(** [syncWallet]: the synchronous part.  Both [catch] blocks call
    [_errorcallback] first and [WalletStore.enableLogout] after it. *)
Definition syncWallet_raising (successcallback errorcallback : option Cb) : M unit :=
  s <- get ;;
  match wallet s with
  | None => throw (TypeError "Cannot read property 'isEncryptionConsistent' of undefined")
  | Some w =>
      when (strict_eq (isEncryptionConsistent w) (JBool false))
        (panic "The wallet was not fully enc/decrypted") ;;
      when (sharedKey_rejected w)
        (throw (ExnStr "Cannot backup wallet now. Shared key is not set")) ;;
      update_store disableLogout ;;
      try_catch
        (emit E_stringify ;;
         data <- lift (stringify X w) ;;
         pw <- read getPassword ;;
         iterations <- read getPbkdf2Iterations ;;
         emit (E_encrypt data) ;;
         crypted <- lift (encryptWallet X data pw iterations
                            (if truthy (isUpgradedToHD w) then 3 else 2)) ;;
         when (strlen crypted =? 0)
           (throw (ExnStr "Error encrypting the JSON output")) ;;
         pw' <- read getPassword ;;
         emit (E_decrypt crypted pw') ;;
         match decryptWallet X crypted pw' with
         | inr _ =>
             try_catch (upload w crypted successcallback errorcallback)
               (fun e =>
                  _errorcallback_raising errorcallback e ;;
                  update_store enableLogout)
         | inl e =>
             console_log e ;;
             throw (ExnStr "Decryption failed")
         end)
        (fun e =>
           _errorcallback_raising errorcallback e ;;
           update_store enableLogout)
  end.

(** The error callback of the upload request: logout is enabled first. *)
Definition syncPost_error_raising (errorcallback : option Cb) (e : Exn) : M unit :=
  update_store enableLogout ;;
  _errorcallback_raising errorcallback e.

(** The two callbacks of [WalletNetwork.checkWalletChecksum]: on a
    confirmed checksum logout is enabled before [successcallback] is
    called, on a mismatch after [_errorcallback] has returned. *)
Definition checkChecksum_success_raising (successcallback : option Cb) : M unit :=
  update_store (setIsSynchronizedWithServer true) ;;
  update_store enableLogout ;;
  sendEvent "on_backup_wallet_success" None ;;
  call_if_raising successcallback [].

Definition checkChecksum_error_raising (errorcallback : option Cb) : M unit :=
  _errorcallback_raising errorcallback
    (ExnStr "Checksum Did Not Match Expected Value") ;;
  update_store enableLogout.

(** The handler of a delivery that belongs to a push. *)
Definition handle_push_raising (d : Delivery) : option (M unit) :=
  match d with
  | SyncPost_ok c sc ec => Some (syncPost_success c sc ec)
  | SyncPost_error _ _ ec e => Some (syncPost_error_raising ec (ExnExternal e))
  | CheckChecksum_ok sc _ => Some (checkChecksum_success_raising sc)
  | CheckChecksum_mismatch _ ec => Some (checkChecksum_error_raising ec)
  | _ => None
  end.

(** Answer the pending task [t] of a push; an exception of the handler
    goes to the event loop, as in [run]. *)
Definition push_answer_raising (o : PushOutcome) (t : Task) (s : Session) : Session :=
  match push_delivery o t with
  | Some d =>
      match handle_push_raising d, remove_first (task_of d) (pending s) with
      | Some h, Some rest => run h (with_pending rest s)
      | _, _ => s
      end
  | None => s
  end.

(** One push from the call to its last callback: [syncWallet], the
    answer to the upload if one was sent, the answer to the checksum
    check if the upload was acknowledged. *)
Definition push_raising (successcallback errorcallback : option Cb)
    (o : PushOutcome) (s : Session) : Session :=
  let s1 := run (syncWallet_raising successcallback errorcallback) s in
  match find is_push_task
          (spawned (syncWallet_raising successcallback errorcallback) s) with
  | None => s1
  | Some upload_task =>
      let s2 := push_answer_raising o upload_task s1 in
      match o with
      | UploadFails _ => s2
      | _ => push_answer_raising o (T_checkChecksum successcallback errorcallback) s2
      end
  end.

End Raising.

End Session.

(** *** What a piece of code leaves alone *)

(** [m] keeps the observation [obs] of the session. *)
Definition keeps {T A : Type} (obs : Session -> T) (m : M A) : Prop :=
  forall s, obs (snd (m s)) = obs s.

(** The uploads sent so far. *)
Definition uploads (s : Session) : list Effect := filter is_upload (trace s).

(** What a push owns. *)
Definition push_state (s : Session) : bool * bool * list Task :=
  (isLogoutDisabled (store s), isSynchronizedWithServer (store s),
   filter is_push_task (pending s)).

(** What a poll owns, and the poll requests sent so far. *)
Definition poll_state (s : Session) : bool * Z * list Task * list Effect :=
  (isPolling (store s), getCounter (store s), filter is_poll_task (pending s),
   filter is_poll_request (trace s)).

(** *** What a piece of code can only move one way *)

(** From a state where [P] holds, every run of [m] ends in a state
    related to it by [R], where [P] holds again. *)
Definition grows {A : Type} (P : Session -> Prop)
    (R : Session -> Session -> Prop) (m : M A) : Prop :=
  forall s, P s -> R s (snd (m s)) /\ P (snd (m s)).

Definition any (s : Session) : Prop := True.
Definition has_wallet (s : Session) : Prop := wallet s <> None.

Definition is_wsConnect (e : Effect) : bool :=
  match e with E_wsConnect => true | _ => false end.
Definition is_setTimeout (e : Effect) : bool :=
  match e with E_setTimeout _ => true | _ => false end.

Definition count_in_trace (P : Effect -> bool) (s : Session) : Z :=
  Z.of_nat (length (filter P (trace s))).

Definition b2z (b : bool) : Z := if b then 1 else 0.

(** How a later state [s'] of the session relates to an earlier one:
    the latch and the wallet in memory stay; the latch closes only with
    a wallet in memory; the socket is connected when, and only when, the
    latch closes; a timer is set when, and only when, the polling
    counter goes up, and the counter does not pass 600. *)
Record progress (s s' : Session) : Prop := mkProgress {
  latch_stays : isInitialized s = true -> isInitialized s' = true;
  wallet_stays : wallet s <> None -> wallet s' <> None;
  latch_with_wallet :
    isInitialized s' = true -> isInitialized s = true \/ wallet s' <> None;
  connects_with_latch :
    count_in_trace is_wsConnect s' - count_in_trace is_wsConnect s
    = b2z (isInitialized s') - b2z (isInitialized s);
  timers_with_counter :
    count_in_trace is_setTimeout s' - count_in_trace is_setTimeout s
    = getCounter (store s') - getCounter (store s);
  counter_grows : getCounter (store s) <= getCounter (store s');
  counter_bounded : getCounter (store s) <= 600 -> getCounter (store s') <= 600
}.

(** A fresh process: nothing fetched, nobody logged in. *)
Definition initial_store : WalletStore :=
  mkStore false false 0 false false None None "" 0 None None 0 false.
Definition initial_session : Session :=
  mkSession initial_store false None None [] [].

End WalletJS.

(** ** Sample collaborators, to run the session on concrete inputs *)

Module Samples.
Import AddressJS WalletJS.

Definition helpers : Helpers :=
  {| isValidLabel := fun v => match v with JStr _ => true | _ => false end;
     isPositiveNumber := fun v => match v with JNum n => 0 <=? n | _ => false end;
     isBitcoinAddress := fun s => String.prefix "1" s;
     isBitcoinPrivateKey := fun s => String.prefix "5" s;
     fromWIF := fun s => ("1" ++ s, "k" ++ s);
     now := 1450000000000;
     APP_NAME := JStr "javascript_web";
     APP_VERSION := JStr "3.0" |}.

(** A watch-only Address, archived after its import. *)
Definition watch_only : Address :=
  with_tag (JNum 2)
    (with_tag (JNum 0)
       (with_label (JStr "savings")
          (new_Address
             (ArgObject
                [("addr", JStr "1abc"); ("priv", JNull);
                 ("created_time", JNum 1450000000000);
                 ("created_device_name", JStr "javascript_web");
                 ("created_device_version", JStr "3.0")])))).

(** A wallet upgraded to HD, with the shared key [key]. *)
Definition hd_wallet (key : string) : Wallet :=
  mkWallet "guid-1" (JStr key) (JBool true) (JBool true) ["1abc"]
    (Some [["1hd0"]; ["1hd1"]]) (Some ["xpub0"]) None.

Definition key36 : string := "0123456789abcdef0123456789abcdef0123".

(** Upper-casing of the letters a to z. *)
Definition upper_ascii (c : ascii) : ascii :=
  let n := nat_of_ascii c in
  if ((97 <=? n) && (n <=? 122))%nat then ascii_of_nat (n - 32) else c.
Fixpoint upper_text (s : string) : string :=
  match s with
  | EmptyString => EmptyString
  | String c r => String (upper_ascii c) (upper_text r)
  end.

(** A toy cipher: the ciphertext is the plaintext behind the password; a
    ciphertext that does not start with the password does not decrypt. *)
Definition collaborators : Collaborators :=
  {| sha256hex := fun c => "sum:" ++ c;
     stringify := fun _ => inr "{wallet}";
     encryptWallet := fun data pw _ _ => inr (pw ++ "|" ++ data);
     decryptWallet := fun c pw =>
       if String.prefix (pw ++ "|") c then inr (hd_wallet key36, Some 5000)
       else inl "Error decrypting wallet, please check that your password is correct";
     isHex := fun c => match c with Some _ => true | None => false end;
     isPositiveInteger := fun n => 0 <=? n;
     toUpperCase := upper_text |}.

(** A cipher whose output does not decrypt again. *)
Definition corrupting : Collaborators :=
  {| sha256hex := sha256hex collaborators;
     stringify := stringify collaborators;
     encryptWallet := fun data _ _ _ => inr ("garbled|" ++ data);
     decryptWallet := decryptWallet collaborators;
     isHex := isHex collaborators;
     isPositiveInteger := isPositiveInteger collaborators;
     toUpperCase := toUpperCase collaborators |}.

(** Toy key formats: a text starting with [6P] is BIP38 and opens with
    the passphrase ["open"], a text starting with [5] is a WIF key, and a
    key is encrypted when it starts with [enc:]. *)
Definition key_helpers : AddressOpsJS.KeyHelpers :=
  {| AddressOpsJS.isString := fun v => match v with JStr _ => true | _ => false end;
     AddressOpsJS.isBase64 :=
       fun v => match v with JStr t => String.prefix "enc:" t | _ => false end;
     AddressOpsJS.isBase58Key :=
       fun v => match v with JStr t => String.prefix "k" t | _ => false end;
     AddressOpsJS.detectPrivateKeyFormat :=
       fun t => if String.prefix "6P" t then Some "bip38"
                else if String.prefix "5" t then Some "sipa"
                else if String.prefix "x" t then Some "xpriv" else None;
     AddressOpsJS.privateKeyStringToKey :=
       fun v _ => match v with
                  | JStr t => inr (AddressOpsJS.mkECPair ("1" ++ t) ("k" ++ t) true)
                  | _ => inl (ExnExternal "Unsupported Key Format")
                  end;
     AddressOpsJS.parseBIP38toECPair :=
       fun t pass => if (pass =? "open")%string
                     then AddressOpsJS.Bip38Key ("1" ++ t) ("k" ++ t)
                     else AddressOpsJS.Bip38WrongPassword;
     AddressOpsJS.decryptSecretWithSecondPassword :=
       fun p pw _ _ => match p, pw with
                       | JStr t, JStr "second" => inr (JStr ("k" ++ t))
                       | _, _ => inl (ExnExternal "Decryption failed")
                       end;
     AddressOpsJS.sign := fun k _ => "signed-with:" ++ AddressOpsJS.d58 k |}.

(** An Address with an unencrypted key. *)
Definition spendable : AddressJS.Address :=
  AddressJS.new_Address
    (AddressJS.ArgObject [("addr", JStr "1kabc"); ("priv", JStr "kabc")]).

Definition callbacks : Callbacks :=
  mkCallbacks (Some "success") (Some "otherError") (Some "needsTwoFactorCode")
    (Some "wrongTwoFactorCode") (Some "authorizationRequired") None None None.

(** Callbacks of the caller: none throws; the error callback ["failed"]
    throws; every callback throws. *)
Definition none_throws : Cb -> option Exn := fun _ => None.
Definition failed_throws : Cb -> option Exn :=
  fun f => if (f =? "failed")%string
           then Some (ExnStr "error handler failed") else None.
Definition all_throw : Cb -> option Exn :=
  fun _ => Some (ExnStr "handler failed").

(** A session after a login: initialized, with the wallet in memory and
    its ciphertext stored under the password ["pw"]. *)
Definition logged_in (key : string) : Session :=
  mkSession
    (mkStore false false 0 false false (Some "pw|{wallet}")
       (Some "sum:pw|{wallet}") "pw" 5000 (Some "en") (Some "guid-1") 0 true)
    true (Some (hd_wallet key)) None [] [].

(** A session that has fetched the ciphertext and has not decrypted it
    yet. *)
Definition fetched : Session :=
  mkSession
    (mkStore false false 0 false false (Some "pw|{wallet}")
       (Some "sum:pw|{wallet}") "" 0 None (Some "guid-1") 0 true)
    false None None [] [].

End Samples.

(** * Properties *)

(** ** address.js *)

Module AddressFacts.
Import AddressJS.

Lemma js_or_settled (v : JsVal) : js_or (js_or v (JNum 0)) (JNum 0) = js_or v (JNum 0).
Proof.
  unfold js_or. destruct (truthy v) eqn:E.
  - now rewrite E.
  - reflexivity.
Qed.

(** Every Address this file produces has a tag that [|| 0] leaves alone. *)
Lemma constructed_tag_settled (H : Helpers) (a : Address) :
  constructed H a -> tag_settled a.
Proof.
  unfold tag_settled.
  induction 1 as [object | key lbl a E | str a a' calls _ IH E
                 | wallet_loaded v a _ IH | n a a' _ IH E | n a a' _ IH E
                 | n a a' _ IH E | c a a' _ IH E | c a a' _ IH E | a _ IH].
  - apply js_or_settled.
  - unfold import in E.
    destruct key as [k | addr p].
    + destruct (isBitcoinAddress H k); [now inversion E|].
      destruct (isBitcoinPrivateKey H k); [|discriminate].
      destruct (fromWIF H k). now inversion E.
    + now inversion E.
  - unfold set_label in E.
    destruct (isValidLabel H str || eq_null str); inversion E; subst; exact IH.
  - unfold set_archived.
    destruct v as [| |[|]| |], wallet_loaded; cbn; solve [reflexivity | exact IH].
  - unfold set_balance in E.
    destruct (isPositiveNumber H n); inversion E; subst; exact IH.
  - unfold set_totalSent in E.
    destruct (isPositiveNumber H n); inversion E; subst; exact IH.
  - unfold set_totalReceived in E.
    destruct (isPositiveNumber H n); inversion E; subst; exact IH.
  - unfold encrypt in E.
    destruct (negb (truthy (_priv a))); [inversion E; subst; exact IH|].
    destruct (negb _); inversion E; subst; exact IH.
  - unfold decrypt in E.
    destruct (negb (truthy (_priv a))); [inversion E; subst; exact IH|].
    destruct (negb _); inversion E; subst; exact IH.
  - unfold persist.
    destruct (_temporal_priv a) as [t|]; [|exact IH].
    destruct (negb (truthy t)); exact IH.
Qed.

(** Reading a key of an object without repeated keys is not disturbed by
    the JSON text, which only loses [undefined] values. *)
Lemma get_prop_absent (o : JsObject) (k : string) :
  ~ In k (map fst o) -> get_prop o k = JUndefined.
Proof.
  induction o as [|[k' v] o IH]; simpl; intros N; [reflexivity|].
  destruct (String.eqb_spec k' k) as [->|D].
  - exfalso. apply N. now left.
  - apply IH. intros I. apply N. now right.
Qed.

Lemma get_prop_JSON_roundtrip (o : JsObject) (k : string) :
  NoDup (map fst o) -> get_prop (JSON_roundtrip o) k = get_prop o k.
Proof.
  unfold JSON_roundtrip.
  induction o as [|[k' v] o IH]; simpl; intros ND; [reflexivity|].
  inversion ND as [|? ? Hnotin ND']; subst.
  destruct (is_undefined v) eqn:U; simpl.
  - destruct v; try discriminate.
    destruct (String.eqb_spec k' k) as [->|D].
    + rewrite IH by assumption. now apply get_prop_absent.
    + now apply IH.
  - destruct (String.eqb_spec k' k); [reflexivity | now apply IH].
Qed.

Lemma toJSON_keys_NoDup (a : Address) : NoDup (map fst (toJSON a)).
Proof.
  simpl.
  repeat (constructor; [simpl; intuition discriminate|]).
  constructor.
Qed.

(** C9.  For every Address the file produces, [toJSON] returns exactly the
    seven persisted fields (addr, priv, tag, label, created_time,
    created_device_name, created_device_version) holding the Address's own
    values, and building an Address again from that output, through the
    constructor directly or through [Address.reviver] over the JSON text,
    gives the same seven fields; a watch-only Address (priv [null] or
    absent) stays watch-only with the same priv. *)
Theorem toJSON_roundtrip (H : Helpers) (a : Address) :
  constructed H a ->
  map fst (toJSON a) = persisted_names /\
  map snd (toJSON a) = persisted a /\
  persisted (new_Address (ArgObject (toJSON a))) = persisted a /\
  exists a', fromJSON_text a = RevAddress a' /\
             persisted a' = persisted a /\
             isWatchOnly a' = isWatchOnly a.
Proof.
  intros C. pose proof (constructed_tag_settled H a C) as T.
  unfold tag_settled in T.
  repeat split.
  - unfold persisted, new_Address; simpl. unfold tag. now rewrite T.
  - exists (new_Address (ArgObject (JSON_roundtrip (toJSON a)))).
    split; [reflexivity|].
    assert (P : persisted (new_Address (ArgObject (JSON_roundtrip (toJSON a))))
                = persisted a).
    { unfold persisted, new_Address, arg_object.
      cbn [_addr _priv _tag _label _created_time _created_device_name
           _created_device_version].
      rewrite !get_prop_JSON_roundtrip by apply toJSON_keys_NoDup.
      simpl. unfold tag. now rewrite T. }
    split; [exact P|].
    unfold isWatchOnly. unfold persisted in P. now inversion P.
Qed.

Lemma toJSON_roundtrip_witness :
  constructed Samples.helpers Samples.watch_only /\
  isWatchOnly Samples.watch_only = true /\
  exists a', fromJSON_text Samples.watch_only = RevAddress a' /\
             persisted a' = persisted Samples.watch_only /\
             isWatchOnly a' = isWatchOnly Samples.watch_only.
Proof.
  assert (C : constructed Samples.helpers Samples.watch_only).
  { exact (made_archived Samples.helpers true (JBool true) _
             (made_import Samples.helpers (KeyString "1abc") (JStr "savings") _
                eq_refl)). }
  split; [exact C|]. split; [reflexivity|].
  exact (proj2 (proj2 (proj2 (toJSON_roundtrip Samples.helpers Samples.watch_only C)))).
Defined.

End AddressFacts.

(** ** wallet.js *)

Module WalletFacts.
Import WalletJS.

Lemma skipn_own_length {A} (l k : list A) : skipn (length l) (l ++ k) = k.
Proof. induction l; simpl; auto. Qed.

(** Unfold the monad and the store accessors, then compute. *)
Ltac js :=
  unfold added, run, when, call, call_if, assert, sendEvent, console_log, emit,
    spawn, update_store, read, modify, get, lift, then_catch, try_catch,
    bind, ret, throw in *;
  cbn in *.

Lemma differs_same_false (a b : option string) :
  differs a b = false <-> a = b.
Proof.
  destruct a as [x|], b as [y|]; simpl; split; intros E;
    try discriminate; try reflexivity.
  - apply negb_false_iff in E. apply String.eqb_eq in E. now subst.
  - inversion E; subst. now rewrite String.eqb_refl.
Qed.

Lemma differs_true (a b : option string) :
  differs a b = true <-> a <> b.
Proof.
  split.
  - intros D E. apply differs_same_false in E. congruence.
  - intros N. destruct (differs a b) eqn:D; [reflexivity|].
    apply differs_same_false in D. contradiction.
Qed.

(** C10.  [logout] without force ([force] falsy) changes nothing while
    [isLogoutDisabled] is set; [logout(true)] always announces the logout
    and sends the logout request, whatever the flag says.  So the forced
    logout of [getWallet], taken when a newly fetched payload does not
    decrypt, goes through even while a push holds [isLogoutDisabled]. *)
Theorem logout_force_bypasses_guard (X : Collaborators) (s : Session) :
  (forall force, truthy force = false ->
     isLogoutDisabled (store s) = true -> logout force s = (Ok tt, s)) /\
  (let s' := snd (logout (JBool true) s) in
   fst (logout (JBool true) s) = Ok tt /\
   trace s' = (trace s ++ [E_event "logging_out" None; E_request ReqLogout])%list /\
   pending s' = (pending s ++ [T_logout])%list /\
   store s' = store s) /\
  (forall success error data e,
     nonempty (Some data) = true ->
     differs (Some data) (Some "Not modified") = true ->
     decryptWallet X data (getPassword (store s)) = inl e ->
     isLogoutDisabled (store s) = true ->
     let s' := snd (getWallet_response X success error (Some data) s) in
     In (E_request ReqLogout) (added (getWallet_response X success error (Some data)) s) /\
     In T_logout (pending s') /\
     isLogoutDisabled (store s') = true).
Proof.
  split; [|split].
  - intros force F D. unfold logout. js. rewrite F, D. reflexivity.
  - unfold logout. js. rewrite <- app_assoc. auto.
  - intros success error data e NE NM DE LD.
    unfold getWallet_response, decryptAndInitializeWallet, apply_error, logout.
    rewrite NE, NM. cbn [negb orb].
    js. rewrite NE. cbn. rewrite DE. cbn.
    destruct error as [f|]; cbn; rewrite <- ?app_assoc, skipn_own_length;
      cbn; repeat split; auto using in_or_app, in_eq, in_cons.
    all: try (apply in_or_app; right; now left).
Qed.

Lemma logout_force_bypasses_guard_witness :
  let s := with_store disableLogout (Samples.logged_in Samples.key36) in
  logout (JBool false) s = (Ok tt, s) /\
  In (E_request ReqLogout)
     (added (getWallet_response Samples.collaborators None None (Some "other|x")) s).
Proof.
  pose (s := with_store disableLogout (Samples.logged_in Samples.key36)).
  destruct (logout_force_bypasses_guard Samples.collaborators s) as (A & _ & C).
  split.
  - apply A; reflexivity.
  - apply (C None None "other|x"
             "Error decrypting wallet, please check that your password is correct");
      reflexivity.
Defined.



(** C4.  A frame [on_change] with checksum [c] makes the reconciler fetch
    the wallet exactly when [c] differs from the last checksum it acted
    upon and from the checksum of the locally stored payload; when it
    fetches, [c] becomes the last checksum acted upon, and otherwise the
    session stays as it was. *)
Theorem on_change_suppression (X : Collaborators) (c : string) (s : Session) :
  let r := onMessage X (FrameOnChange c) s in
  let fetched := exists k, In (E_request (ReqWalletFetch k))
                             (added (onMessage X (FrameOnChange c)) s) in
  (fetched <->
   last_on_change s <> Some c /\ generatePayloadChecksum X (store s) <> c) /\
  (fetched ->
   last_on_change (snd r) = Some c /\
   pending (snd r) = (pending s ++ [T_getWallet None None])%list) /\
  (~ fetched -> r = (Ok tt, s)).
Proof.
  cbv zeta. unfold onMessage, getWallet. js.
  destruct (differs (last_on_change s) (Some c)) eqn:L;
    [destruct (String.eqb_spec (generatePayloadChecksum X (store s)) c) as [G|G]|];
    cbn.
  - rewrite skipn_all.
    split; [split|split].
    + intros [k []].
    + intros [_ N]. contradiction.
    + intros [k []].
    + reflexivity.
  - rewrite skipn_own_length. apply differs_true in L.
    split; [split|split].
    + intros _. split; assumption.
    + intros _. eexists. now left.
    + auto.
    + intros N. exfalso. apply N. eexists. now left.
  - rewrite skipn_all.
    apply differs_same_false in L.
    split; [split|split].
    + intros [k []].
    + intros [N _]. contradiction.
    + intros [k []].
    + reflexivity.
Qed.

Lemma on_change_suppression_witness :
  let s := Samples.logged_in Samples.key36 in
  (exists k, In (E_request (ReqWalletFetch k))
               (added (onMessage Samples.collaborators (FrameOnChange "sum:other")) s)) /\
  last_on_change (snd (onMessage Samples.collaborators (FrameOnChange "sum:other") s))
    = Some "sum:other".
Proof.
  pose (s := Samples.logged_in Samples.key36).
  destruct (on_change_suppression Samples.collaborators "sum:other" s)
    as (A & B & _).
  assert (F : exists k, In (E_request (ReqWalletFetch k))
               (added (onMessage Samples.collaborators (FrameOnChange "sum:other")) s)).
  { apply A. split; discriminate. }
  split; [exact F | exact (proj1 (B F))].
Defined.

(** C5.  In the response handler of [getWallet]: a response with no
    payload, or with the text 'Not modified', only calls the success
    callback (if there is one) and changes nothing else; a response with
    a new ciphertext that does not decrypt forces a logout (the event
    and the request of [logout(true)], with [isLogoutDisabled] ignored),
    tells the error callback, and asks for no further fetch. *)
Theorem getWallet_response_outcomes (X : Collaborators)
    (success error : option Cb) (s : Session) :
  (forall payload,
     nonempty payload = false \/ payload = Some "Not modified" ->
     let r := getWallet_response X success error payload s in
     fst r = Ok tt /\
     store (snd r) = store s /\ wallet (snd r) = wallet s /\
     isInitialized (snd r) = isInitialized s /\
     pending (snd r) = pending s /\
     added (getWallet_response X success error payload) s =
       match success with Some f => [E_callback f []] | None => [] end) /\
  (forall data e,
     data <> "" -> data <> "Not modified" ->
     decryptWallet X data (getPassword (store s)) = inl e ->
     let r := getWallet_response X success error (Some data) s in
     fst r = Ok tt /\
     added (getWallet_response X success error (Some data)) s =
       ([E_decrypt data (getPassword (store s));
         E_event "logging_out" None; E_request ReqLogout]
        ++ match error with Some f => [E_callback f []] | None => [] end)%list /\
     pending (snd r) = (pending s ++ [T_logout])%list /\
     wallet (snd r) = wallet s).
Proof.
  split.
  - intros payload P. cbv zeta. unfold getWallet_response.
    assert (B : negb (nonempty payload)
                || negb (differs payload (Some "Not modified")) = true).
    { destruct P as [-> | ->]; reflexivity. }
    rewrite B. js.
    destruct success; cbn; rewrite ?skipn_own_length; repeat split; auto.
    apply skipn_all.
  - intros data e NE NM DE. cbv zeta.
    assert (B1 : nonempty (Some data) = true).
    { cbn. apply negb_true_iff. now apply String.eqb_neq. }
    assert (B2 : differs (Some data) (Some "Not modified") = true).
    { apply differs_true. congruence. }
    unfold getWallet_response, decryptAndInitializeWallet, apply_error, logout.
    rewrite B1, B2. cbn [negb orb].
    js. cbn in B1. rewrite B1. cbn. rewrite DE. cbn.
    destruct error; cbn; rewrite <- ?app_assoc, skipn_own_length; auto.
Qed.

Lemma getWallet_response_outcomes_witness :
  let s := Samples.logged_in Samples.key36 in
  isInitialized s = true /\
  added (getWallet_response Samples.collaborators None (Some "error")
           (Some "other|x")) s =
    [E_decrypt "other|x" "pw"; E_event "logging_out" None; E_request ReqLogout;
     E_callback "error" []] /\
  added (getWallet_response Samples.collaborators (Some "success") None
           (Some "Not modified")) s = [E_callback "success" []].
Proof.
  pose (s := Samples.logged_in Samples.key36).
  split; [reflexivity|]. split.
  - destruct (getWallet_response_outcomes Samples.collaborators None (Some "error") s)
      as [_ B].
    apply (B "other|x"
             "Error decrypting wallet, please check that your password is correct");
      [discriminate | discriminate | reflexivity].
  - destruct (getWallet_response_outcomes Samples.collaborators (Some "success") None s)
      as [A _].
    apply (A (Some "Not modified")). now right.
Defined.

(** *** Frame rules: what a composite keeps, from what its parts keep *)

Section Keeps.
Context {T : Type} (obs : Session -> T).

Lemma keeps_ret {A} (a : A) : keeps obs (ret a).
Proof. intro s. reflexivity. Qed.

Lemma keeps_throw {A} (e : Exn) : keeps obs (@throw A e).
Proof. intro s. reflexivity. Qed.

Lemma keeps_get : keeps obs get.
Proof. intro s. reflexivity. Qed.

Lemma keeps_read {A} (f : WalletStore -> A) : keeps obs (read f).
Proof. intro s. reflexivity. Qed.

Lemma keeps_lift {A} (r : Exn + A) : keeps obs (lift r).
Proof. intro s. destruct r; reflexivity. Qed.

Lemma keeps_bind {A B} (m : M A) (k : A -> M B) :
  keeps obs m -> (forall a, keeps obs (k a)) -> keeps obs (bind m k).
Proof.
  intros Hm Hk s. unfold bind. specialize (Hm s).
  destruct (m s) as [[a|e] s1]; cbn in *.
  - now rewrite (Hk a s1).
  - exact Hm.
Qed.

Lemma keeps_try_catch {A} (m : M A) (h : Exn -> M A) :
  keeps obs m -> (forall e, keeps obs (h e)) -> keeps obs (try_catch m h).
Proof.
  intros Hm Hh s. unfold try_catch. specialize (Hm s).
  destruct (m s) as [[a|e] s1]; cbn in *.
  - exact Hm.
  - now rewrite (Hh e s1).
Qed.

Lemma keeps_modify (f : Session -> Session) :
  (forall s, obs (f s) = obs s) -> keeps obs (modify f).
Proof. intros Hf s. apply Hf. Qed.

Lemma keeps_emit (e : Effect) :
  (forall s, obs (with_trace (trace s ++ [e]) s) = obs s) -> keeps obs (emit e).
Proof. intros Hf s. apply Hf. Qed.

Lemma keeps_spawn (t : Task) :
  (forall s, obs (with_pending (pending s ++ [t]) s) = obs s) -> keeps obs (spawn t).
Proof. intros Hf s. apply Hf. Qed.

Lemma keeps_update_store (f : WalletStore -> WalletStore) :
  (forall s, obs (with_store f s) = obs s) -> keeps obs (update_store f).
Proof. intros Hf s. apply Hf. Qed.

(** An uncaught exception is reported in the trace only. *)
Lemma keeps_run (m : M unit) :
  keeps obs m ->
  (forall e s, obs (with_trace (trace s ++ [E_uncaught e]) s) = obs s) ->
  forall s, obs (run m s) = obs s.
Proof.
  intros Hm Hu s. unfold run. specialize (Hm s).
  destruct (m s) as [[a|e] s1]; cbn in *; [exact Hm|].
  now rewrite Hu.
Qed.

End Keeps.

(** Discharge what a primitive asks of one of the three observations. *)
Ltac prim :=
  intros; unfold uploads, push_state, poll_state; cbn;
  rewrite ?filter_app; cbn; rewrite ?app_nil_r; reflexivity.

Ltac open_fn :=
  progress unfold handle, invoke, getWallet_response, getWallet_failed,
    decryptAndInitializeWallet, apply_success, apply_error, didDecryptWallet,
    setIsInitialized, socketConnect, getWallet, logout, logout_reload,
    getHistory, getHistory_then, initializeWallet, walletJSON_success,
    walletJSON_error, didFetchWalletJSON, tryToFetchWalletJSON,
    tryToFetchWalletWith2FA, twoFactor_success, twoFactor_error, login,
    authorization_continue, pollForSessionGUID, poll_success, poll_error,
    poll_timer, run_PollCont, syncPost_success, syncPost_error,
    checkChecksum_success, checkChecksum_error, _errorcallback, onMessage,
    onOpen, onClose, panic, upload, syncWallet, then_catch, when, call, call_if,
    assert, sendEvent, console_log.

Ltac frame_step :=
  lazymatch goal with
  | |- keeps _ (bind _ _) => apply keeps_bind; [|intro]
  | |- keeps _ (try_catch _ _) => apply keeps_try_catch; [|intro]
  | |- keeps _ (ret _) => apply keeps_ret
  | |- keeps _ (throw _) => apply keeps_throw
  | |- keeps _ get => apply keeps_get
  | |- keeps _ (read _) => apply keeps_read
  | |- keeps _ (lift _) => apply keeps_lift
  | |- keeps _ (emit _) => apply keeps_emit; prim
  | |- keeps _ (spawn _) => apply keeps_spawn; prim
  | |- keeps _ (update_store _) => apply keeps_update_store; prim
  | |- keeps _ (modify _) => apply keeps_modify; prim
  | |- keeps _ (if ?b then _ else _) => destruct b
  | |- keeps _ (match ?x with _ => _ end) => destruct x
  | |- keeps _ _ => first [open_fn | progress cbv zeta | progress cbn beta]
  end.

Ltac frame := repeat frame_step.

(** Removing a task that an observation does not select. *)
Lemma remove_first_filter (P : Task -> bool) (t : Task) (l rest : list Task) :
  P t = false -> remove_first t l = Some rest -> filter P rest = filter P l.
Proof.
  intros Pt. revert rest.
  induction l as [|x l IH]; simpl; intros rest E; [discriminate|].
  destruct (Task_eq_dec t x) as [<-|D].
  - inversion E; subst. now rewrite Pt.
  - destruct (remove_first t l) as [r|]; [|discriminate].
    inversion E; subst. simpl. rewrite (IH r eq_refl). reflexivity.
Qed.

(** No response handler uploads the wallet. *)
Lemma handle_keeps_uploads (X : Collaborators) (d : Delivery) :
  keeps uploads (handle X d).
Proof. destruct d; frame. Qed.

(** No entry point but [syncWallet] uploads the wallet. *)
Lemma invoke_keeps_uploads (X : Collaborators) (c : ApiCall) :
  no_push_call (Host c) = true -> keeps uploads (invoke X c).
Proof. destruct c; intros P; try discriminate; frame. Qed.

Lemma deliver_keeps {T} (obs : Session -> T) (X : Collaborators) (d : Delivery) :
  keeps obs (handle X d) ->
  (forall e s, obs (with_trace (trace s ++ [E_uncaught e]) s) = obs s) ->
  (forall s rest, remove_first (task_of d) (pending s) = Some rest ->
                  obs (with_pending rest s) = obs s) ->
  forall s, obs (deliver X d s) = obs s.
Proof.
  intros Hh Hu Hp s. unfold deliver.
  destruct (remove_first (task_of d) (pending s)) as [rest|] eqn:E; [|reflexivity].
  rewrite (keeps_run obs _ Hh Hu).
  destruct (one_shot (task_of d)); [now apply Hp | reflexivity].
Qed.

Lemma turn_keeps_uploads (X : Collaborators) (t : Turn) (s : Session) :
  no_push_call t = true -> uploads (turn X t s) = uploads s.
Proof.
  destruct t as [c|d]; intros P; cbn.
  - apply keeps_run; [now apply invoke_keeps_uploads | prim].
  - apply deliver_keeps; [apply handle_keeps_uploads | prim | reflexivity].
Qed.

Lemma turns_keep {T} (obs : Session -> T) (X : Collaborators) (P : Turn -> bool) :
  (forall t s, P t = true -> obs (turn X t s) = obs s) ->
  forall ts s, forallb P ts = true -> obs (turns X ts s) = obs s.
Proof.
  intros H ts. unfold turns.
  induction ts as [|t ts IH]; intros s F; [reflexivity|].
  cbn in *. apply andb_true_iff in F as [Pt F].
  rewrite (IH _ F). now apply H.
Qed.

(** What is no part of a push keeps what the push owns. *)
Lemma handle_keeps_push_state (X : Collaborators) (d : Delivery) :
  is_push_task (task_of d) = false -> keeps push_state (handle X d).
Proof. destruct d; intros P; try discriminate; frame. Qed.

Lemma invoke_keeps_push_state (X : Collaborators) (c : ApiCall) :
  push_free (Host c) = true -> keeps push_state (invoke X c).
Proof. destruct c; intros P; try discriminate; frame. Qed.

Lemma turn_keeps_push_state (X : Collaborators) (t : Turn) (s : Session) :
  push_free t = true -> push_state (turn X t s) = push_state s.
Proof.
  destruct t as [c|d]; intros P; cbn.
  - apply keeps_run; [now apply invoke_keeps_push_state | prim].
  - cbn in P. apply negb_true_iff in P.
    apply deliver_keeps; [now apply handle_keeps_push_state | prim |].
    intros s0 rest E. unfold push_state. cbn.
    now rewrite (remove_first_filter is_push_task _ _ _ P E).
Qed.

(** What is no part of a poll keeps what the poll owns. *)
Lemma handle_keeps_poll_state (X : Collaborators) (d : Delivery) :
  poll_free (Env d) = true -> keeps poll_state (handle X d).
Proof. destruct d; intros P; try discriminate; frame. Qed.

Lemma invoke_keeps_poll_state (X : Collaborators) (c : ApiCall) :
  poll_free (Host c) = true -> keeps poll_state (invoke X c).
Proof. destruct c; intros P; try discriminate; frame. Qed.

Lemma turn_keeps_poll_state (X : Collaborators) (t : Turn) (s : Session) :
  poll_free t = true -> poll_state (turn X t s) = poll_state s.
Proof.
  destruct t as [c|d]; intros P; cbn.
  - apply keeps_run; [now apply invoke_keeps_poll_state | prim].
  - apply deliver_keeps; [now apply handle_keeps_poll_state | prim |].
    intros s0 rest E. unfold poll_state. cbn.
    assert (Q : is_poll_task (task_of d) = false) by (destruct d; cbn in *; congruence).
    now rewrite (remove_first_filter is_poll_task _ _ _ Q E).
Qed.

(** *** Push *)

Lemma strict_eq_false (v : JsVal) :
  strict_eq v (JBool false) = true <-> v = JBool false.
Proof.
  destruct v as [| |[|]| |]; cbn; split; intros E; try discriminate; reflexivity.
Qed.

(** The shared key passes exactly when it is a string of 36 characters. *)
Lemma sharedKey_accepted (w : Wallet) :
  sharedKey_rejected w = false <->
  exists k, sharedKey w = JStr k /\ String.length k = 36%nat.
Proof.
  unfold sharedKey_rejected, strlen.
  destruct (sharedKey w) as [| | | |k]; cbn;
    try (split; [discriminate | intros (k' & E & _); discriminate]).
  split.
  - intros E. exists k. split; [reflexivity|].
    apply orb_false_iff in E as [_ E]. apply negb_false_iff in E. lia.
  - intros (k' & E & L). inversion E; subst k'.
    rewrite L. destruct k; [discriminate | reflexivity].
Qed.

(** C1.  When the wallet's shared key is absent, empty or not exactly 36
    characters long, or when its encryption-consistency flag is [false],
    [syncWallet] throws at once: the store, the wallet and the pending
    tasks are as before (logout is not even disabled) and nothing was
    serialized, encrypted, decrypted or requested.  With the flag
    [false] it panics (logs, leaves the page, throws 'Save disabled.');
    otherwise it throws the shared-key message and touches nothing. *)
Theorem syncWallet_precondition_fails_first (X : Collaborators)
    (successcallback errorcallback : option Cb) (s : Session) (w : Wallet) :
  wallet s = Some w ->
  ~ (exists k, sharedKey w = JStr k /\ String.length k = 36%nat)
  \/ isEncryptionConsistent w = JBool false ->
  let r := syncWallet X successcallback errorcallback s in
  (exists msg, fst r = Throw (ExnStr msg)) /\
  store (snd r) = store s /\ wallet (snd r) = wallet s /\
  pending (snd r) = pending s /\
  existsb is_work (added (syncWallet X successcallback errorcallback) s) = false /\
  (isEncryptionConsistent w = JBool false ->
   fst r = Throw (ExnStr "Save disabled.") /\
   added (syncWallet X successcallback errorcallback) s =
     [E_log "Panic The wallet was not fully enc/decrypted";
      E_navigate "replace /"]) /\
  (isEncryptionConsistent w <> JBool false ->
   r = (Throw (ExnStr "Cannot backup wallet now. Shared key is not set"), s)).
Proof.
  intros W P. cbv zeta. unfold syncWallet, panic. js. rewrite W.
  destruct (strict_eq (isEncryptionConsistent w) (JBool false)) eqn:C; cbn.
  - apply strict_eq_false in C.
    rewrite <- app_assoc, skipn_own_length. cbn.
    repeat split; eauto; contradiction.
  - assert (N : isEncryptionConsistent w <> JBool false).
    { intros E. apply strict_eq_false in E. congruence. }
    destruct P as [P | P]; [|contradiction].
    destruct (sharedKey_rejected w) eqn:R.
    + cbn. rewrite skipn_all. cbn.
      repeat split; eauto; contradiction.
    + exfalso. apply P. now apply sharedKey_accepted.
Qed.

Lemma syncWallet_precondition_fails_first_witness :
  let s := Samples.logged_in "0123456789" in
  syncWallet Samples.collaborators (Some "saved") (Some "failed") s =
    (Throw (ExnStr "Cannot backup wallet now. Shared key is not set"), s).
Proof.
  pose (s := Samples.logged_in "0123456789").
  refine (proj2 (proj2 (proj2 (proj2 (proj2 (proj2
    (syncWallet_precondition_fails_first Samples.collaborators
       (Some "saved") (Some "failed") s (Samples.hd_wallet "0123456789")
       eq_refl _)))))) _).
  - left. intros (k & E & L). inversion E; subst k. discriminate.
  - discriminate.
Defined.

(** The synchronous part of [syncWallet] once its preconditions hold:
    either it uploads, holding logout disabled, or it fails, reports and
    enables logout again. *)
Lemma syncWallet_sync_part (X : Collaborators)
    (successcallback errorcallback : option Cb) (s : Session) (w : Wallet) :
  wallet s = Some w ->
  isEncryptionConsistent w <> JBool false ->
  sharedKey_rejected w = false ->
  let r := syncWallet X successcallback errorcallback s in
  let pw := getPassword (store s) in
  fst r = Ok tt /\
  isSynchronizedWithServer (store (snd r)) = isSynchronizedWithServer (store s) /\
  ((exists data crypted res,
      stringify X w = inr data /\
      encryptWallet X data pw (getPbkdf2Iterations (store s))
        (if truthy (isUpgradedToHD w) then 3 else 2) = inr crypted /\
      decryptWallet X crypted pw = inr res /\
      added (syncWallet X successcallback errorcallback) s =
        [E_stringify; E_encrypt data; E_decrypt crypted pw;
         E_event "on_backup_wallet_start" None;
         E_request
           (ReqWalletUpdate crypted (strlen crypted)
              (Some (sha256hex X crypted))
              (if isHex X (getPayloadChecksum (store s))
               then getPayloadChecksum (store s) else None)
              (if isSyncPubKeys (store s) then Some (active_list w) else None)
              (getLanguage (store s)))] /\
      pending (snd r) =
        (pending s ++ [T_syncPost (Some (sha256hex X crypted))
                         successcallback errorcallback])%list /\
      isLogoutDisabled (store (snd r)) = true)
   \/
   (existsb is_upload (added (syncWallet X successcallback errorcallback) s) = false /\
    pending (snd r) = (pending s ++ [T_getWallet None None])%list /\
    isLogoutDisabled (store (snd r)) = false)).
Proof.
  intros W C R. cbv zeta.
  assert (C' : strict_eq (isEncryptionConsistent w) (JBool false) = false).
  { destruct (strict_eq _ _) eqn:E; [|reflexivity].
    apply strict_eq_false in E. contradiction. }
  unfold syncWallet, upload, _errorcallback, getWallet. js.
  rewrite W, C', R. cbn.
  destruct (stringify X w) as [e|data] eqn:ES; cbn.
  { destruct errorcallback; cbn; rewrite <- ?app_assoc, skipn_own_length;
      cbn; (split; [|split; [|right; repeat split]]); reflexivity. }
  destruct (encryptWallet X data _ _ _) as [e|crypted] eqn:EE; cbn.
  { destruct errorcallback; cbn; rewrite <- ?app_assoc, skipn_own_length;
      cbn; (split; [|split; [|right; repeat split]]); reflexivity. }
  destruct (strlen crypted =? 0); cbn.
  { destruct errorcallback; cbn; rewrite <- ?app_assoc, skipn_own_length;
      cbn; (split; [|split; [|right; repeat split]]); reflexivity. }
  destruct (decryptWallet X crypted _) as [msg|res] eqn:D; cbn.
  { destruct errorcallback; cbn; rewrite <- ?app_assoc, skipn_own_length;
      cbn; (split; [|split; [|right; repeat split]]); reflexivity. }
  split; [reflexivity|]. split; [reflexivity|]. left.
  exists data, crypted, res.
  rewrite <- ?app_assoc, skipn_own_length. cbn.
  repeat split; solve [reflexivity | assumption].
Qed.

(** [syncWallet] only appends to the trace. *)
Lemma syncWallet_trace (X : Collaborators)
    (successcallback errorcallback : option Cb) (s : Session) :
  trace (snd (syncWallet X successcallback errorcallback s)) =
  (trace s ++ added (syncWallet X successcallback errorcallback) s)%list.
Proof.
  unfold syncWallet, upload, _errorcallback, getWallet, panic. js.
  destruct (wallet s) as [w|]; cbn; [|now rewrite skipn_all, app_nil_r].
  destruct (strict_eq (isEncryptionConsistent w) (JBool false)); cbn;
    [now rewrite <- ?app_assoc, skipn_own_length|].
  destruct (sharedKey_rejected w); cbn; [now rewrite skipn_all, app_nil_r|].
  destruct (stringify X w) as [e|data]; cbn;
    [destruct errorcallback; cbn; now rewrite <- ?app_assoc, skipn_own_length|].
  destruct (encryptWallet X data _ _ _) as [e|crypted]; cbn;
    [destruct errorcallback; cbn; now rewrite <- ?app_assoc, skipn_own_length|].
  destruct (strlen crypted =? 0); cbn;
    [destruct errorcallback; cbn; now rewrite <- ?app_assoc, skipn_own_length|].
  destruct (decryptWallet X crypted _) as [msg|res]; cbn;
    [destruct errorcallback; cbn; now rewrite <- ?app_assoc, skipn_own_length|].
  now rewrite <- ?app_assoc, skipn_own_length.
Qed.

(** Before its preconditions hold [syncWallet] does no work. *)
Lemma syncWallet_rejected (X : Collaborators)
    (successcallback errorcallback : option Cb) (s : Session) :
  match wallet s with
  | None => True
  | Some w => strict_eq (isEncryptionConsistent w) (JBool false) = true
              \/ sharedKey_rejected w = true
  end ->
  existsb is_work (added (syncWallet X successcallback errorcallback) s) = false /\
  pending (snd (syncWallet X successcallback errorcallback s)) = pending s /\
  store (snd (syncWallet X successcallback errorcallback s)) = store s.
Proof.
  unfold syncWallet, panic. js.
  destruct (wallet s) as [w|]; cbn; [|now rewrite skipn_all].
  destruct (strict_eq (isEncryptionConsistent w) (JBool false)); cbn.
  - intros _. now rewrite <- ?app_assoc, skipn_own_length.
  - intros [E|E]; [discriminate|]. rewrite E. cbn. now rewrite skipn_all.
Qed.

Lemma upload_is_work (u : Effect) : is_upload u = true -> is_work u = true.
Proof. destruct u as [| |r| | | | | | | | | |]; try discriminate. now destruct r. Qed.

Lemma existsb_false_forall {A} (f : A -> bool) (l : list A) (x : A) :
  existsb f l = false -> In x l -> f x = false.
Proof.
  intros E I. destruct (f x) eqn:F; [|reflexivity].
  assert (existsb f l = true) by (apply existsb_exists; eauto). congruence.
Qed.

Lemma no_work_no_upload (l : list Effect) :
  existsb is_work l = false -> existsb is_upload l = false.
Proof.
  induction l as [|e l IH]; cbn; [reflexivity|].
  intros E. apply orb_false_iff in E as [E1 E2].
  rewrite (IH E2), orb_false_r.
  destruct (is_upload e) eqn:U; [|reflexivity].
  apply upload_is_work in U. congruence.
Qed.

Lemma uploads_unchanged (s s' : Session) (l : list Effect) :
  trace s' = (trace s ++ l)%list -> existsb is_upload l = false ->
  uploads s' = uploads s.
Proof.
  intros E N. unfold uploads. rewrite E, filter_app.
  assert (F : filter is_upload l = []).
  { clear E. induction l as [|e l IH]; cbn in *; [reflexivity|].
    apply orb_false_iff in N as [N1 N2]. rewrite N1. now apply IH. }
  now rewrite F, app_nil_r.
Qed.

Lemma uploads_run (m : M unit) (s : Session) :
  uploads (snd (m s)) = uploads s -> uploads (run m s) = uploads s.
Proof.
  unfold run. destruct (m s) as [[a|e] s1]; cbn; [auto|].
  intros E. rewrite <- E. unfold uploads. cbn.
  now rewrite filter_app, app_nil_r.
Qed.

Lemma syncWallet_precondition_split (w : Wallet) :
  (strict_eq (isEncryptionConsistent w) (JBool false) = true
   \/ sharedKey_rejected w = true)
  \/ (isEncryptionConsistent w <> JBool false /\ sharedKey_rejected w = false).
Proof.
  destruct (strict_eq (isEncryptionConsistent w) (JBool false)) eqn:C; [auto|].
  destruct (sharedKey_rejected w); [auto|].
  right. split; [|reflexivity].
  intros E. apply strict_eq_false in E. congruence.
Qed.

(** C2.  In [syncWallet] every upload of the encrypted payload comes after
    [WalletCrypto.decryptWallet] was run on that very ciphertext with the
    stored password and succeeded.  If that decryption fails, the call
    uploads nothing and leaves no upload waiting, and whatever happens
    afterwards short of another [syncWallet] call sends no upload either. *)
Theorem syncWallet_uploads_only_verified (X : Collaborators)
    (successcallback errorcallback : option Cb) (s : Session) :
  let pw := getPassword (store s) in
  let sync := syncWallet X successcallback errorcallback in
  (forall u, In u (added sync s) -> is_upload u = true ->
     exists w data crypted res before after,
       wallet s = Some w /\ stringify X w = inr data /\
       encryptWallet X data pw (getPbkdf2Iterations (store s))
         (if truthy (isUpgradedToHD w) then 3 else 2) = inr crypted /\
       decryptWallet X crypted pw = inr res /\
       added sync s = (before ++ E_decrypt crypted pw :: after)%list /\
       In u after /\
       exists len ck old act lang,
         u = E_request (ReqWalletUpdate crypted len ck old act lang)) /\
  (forall w data crypted msg,
     wallet s = Some w -> stringify X w = inr data ->
     encryptWallet X data pw (getPbkdf2Iterations (store s))
       (if truthy (isUpgradedToHD w) then 3 else 2) = inr crypted ->
     decryptWallet X crypted pw = inl msg ->
     existsb is_upload (added sync s) = false /\
     filter is_push_task (pending (snd (sync s))) = filter is_push_task (pending s) /\
     forall ts, forallb no_push_call ts = true ->
       uploads (turns X ts (run sync s)) = uploads s).
Proof.
  cbv zeta. split.
  - intros u Hin U.
    pose proof (syncWallet_rejected X successcallback errorcallback s) as Rj.
    destruct (wallet s) as [w|] eqn:W.
    2:{ destruct (Rj Logic.I) as (N & _).
        apply no_work_no_upload in N.
        rewrite (existsb_false_forall _ _ _ N Hin) in U. discriminate. }
    destruct (syncWallet_precondition_split w) as [Bad | [C R]].
    { destruct (Rj Bad) as (N & _).
      apply no_work_no_upload in N.
      rewrite (existsb_false_forall _ _ _ N Hin) in U. discriminate. }
    destruct (syncWallet_sync_part X successcallback errorcallback s w W C R)
      as (_ & _ & [(data & crypted & res & ES & EE & D & A & _) | (N & _)]).
    + exists w, data, crypted, res, [E_stringify; E_encrypt data],
        [E_event "on_backup_wallet_start" None; u].
      rewrite A in Hin. cbn in Hin.
      destruct Hin as [<-|[<-|[<-|[<-|[<-|[]]]]]]; try discriminate.
      repeat split; try assumption.
      * right. now left.
      * repeat eexists.
    + rewrite (existsb_false_forall _ _ _ N Hin) in U. discriminate.
  - intros w data crypted msg W ES EE D.
    assert (F : existsb is_upload (added (syncWallet X successcallback errorcallback) s) = false
                /\ filter is_push_task (pending (snd (syncWallet X successcallback errorcallback s)))
                   = filter is_push_task (pending s)).
    { pose proof (syncWallet_rejected X successcallback errorcallback s) as Rj.
      rewrite W in Rj.
      destruct (syncWallet_precondition_split w) as [Bad | [C R]].
      { destruct (Rj Bad) as (N & P & _). rewrite P.
        split; [now apply no_work_no_upload | reflexivity]. }
      destruct (syncWallet_sync_part X successcallback errorcallback s w W C R)
        as (_ & _ & [(data' & crypted' & res & ES' & EE' & D' & _) | (N & P & _)]).
      - rewrite ES in ES'. inversion ES'; subst data'.
        rewrite EE in EE'. inversion EE'; subst crypted'. congruence.
      - split; [exact N|]. rewrite P, filter_app. cbn. apply app_nil_r. }
    destruct F as [N P]. split; [exact N|]. split; [exact P|].
    intros ts Fts.
    rewrite (turns_keep uploads X no_push_call
               (fun t s0 => turn_keeps_uploads X t s0) ts _ Fts).
    apply uploads_run.
    exact (uploads_unchanged _ _ _ (syncWallet_trace X _ _ s) N).
Qed.

Lemma syncWallet_uploads_only_verified_witness :
  let s := Samples.logged_in Samples.key36 in
  existsb is_upload (added (syncWallet Samples.corrupting (Some "saved") (Some "failed")) s)
    = false /\
  uploads (turns Samples.corrupting
             [Env (GetWallet_ok None None (Some "Not modified"));
              Host (Call_logout (JBool false))]
             (run (syncWallet Samples.corrupting (Some "saved") (Some "failed")) s))
    = uploads s /\
  existsb is_upload (added (syncWallet Samples.collaborators (Some "saved") (Some "failed")) s)
    = true.
Proof.
  pose (s := Samples.logged_in Samples.key36).
  destruct (syncWallet_uploads_only_verified Samples.corrupting
              (Some "saved") (Some "failed") s) as [_ B].
  destruct (B (Samples.hd_wallet Samples.key36) "{wallet}" "garbled|{wallet}"
              "Error decrypting wallet, please check that your password is correct"
              eq_refl eq_refl eq_refl eq_refl) as (N & _ & T).
  split; [exact N|]. split; [|reflexivity].
  apply T. reflexivity.
Defined.

(** The one task an observation selects is found and can be taken out. *)
Lemma find_of_filter (P : Task -> bool) (l : list Task) (t : Task) (more : list Task) :
  filter P l = t :: more -> find P l = Some t.
Proof.
  induction l as [|x l IH]; cbn; [discriminate|].
  destruct (P x); [now inversion 1 | exact IH].
Qed.

Lemma find_of_filter_nil (P : Task -> bool) (l : list Task) :
  filter P l = [] -> find P l = None.
Proof.
  induction l as [|x l IH]; cbn; [reflexivity|].
  destruct (P x); [discriminate | exact IH].
Qed.

Lemma remove_first_of_filter (P : Task -> bool) (l : list Task) (t : Task) :
  filter P l = [t] ->
  exists rest, remove_first t l = Some rest /\ filter P rest = [].
Proof.
  intros F.
  assert (Pt : P t = true).
  { assert (In t (filter P l)) as I by (rewrite F; now left).
    now apply filter_In in I. }
  revert F. induction l as [|x l IH]; cbn; [discriminate|].
  destruct (Task_eq_dec t x) as [<-|D].
  - rewrite Pt. intros F. inversion F. eauto.
  - destruct (P x) eqn:Px.
    + intros F. inversion F. congruence.
    + intros F. destruct (IH F) as (rest & -> & Fr).
      exists (x :: rest). cbn. now rewrite Px.
Qed.

Lemma remove_first_present (t : Task) (l : list Task) :
  In t l ->
  exists rest, remove_first t l = Some rest /\
    forall P : Task -> bool, P t = true ->
      length (filter P l) = S (length (filter P rest)).
Proof.
  induction l as [|x l IH]; [contradiction|]. cbn.
  destruct (Task_eq_dec t x) as [<-|D].
  - intros _. exists l. split; [reflexivity|].
    intros P Pt. now rewrite Pt.
  - intros [E|I0]; [congruence|].
    destruct (IH I0) as (rest & -> & Len).
    exists (x :: rest). split; [reflexivity|].
    intros P Pt. cbn. destruct (P x); cbn; now rewrite (Len P Pt).
Qed.

(** The answer to the upload: a failure enables logout and ends the push;
    an acknowledgement asks for the checksum check. *)
Lemma push_answer_upload (X : Collaborators) (o : PushOutcome) (s : Session)
    (c : option string) (sc ec : option Cb) :
  In (T_syncPost c sc ec) (pending s) ->
  exists rest,
    length (filter is_push_task (pending s))
      = S (length (filter is_push_task rest)) /\
    push_state (push_answer X o (T_syncPost c sc ec) s) =
      match o with
      | UploadFails _ =>
          (false, isSynchronizedWithServer (store s), filter is_push_task rest)
      | _ =>
          (isLogoutDisabled (store s), isSynchronizedWithServer (store s),
           (filter is_push_task rest ++ [T_checkChecksum sc ec])%list)
      end.
Proof.
  intros I0.
  destruct (remove_first_present _ _ I0) as (rest & Rm & Len).
  exists rest. split; [now apply Len|].
  unfold push_answer.
  destruct o; cbn; unfold deliver; cbn; rewrite Rm; cbn;
    unfold syncPost_error, syncPost_success, _errorcallback, getWallet; js;
    try (destruct ec; cbn); unfold push_state; cbn;
    rewrite ?filter_app; cbn; rewrite ?app_nil_r; reflexivity.
Qed.

(** The answer to the checksum check: both enable logout and end the
    push; only the confirmation sets [isSynchronizedWithServer]; the
    mismatch reaches the error callback. *)
Lemma push_answer_check (X : Collaborators) (o : PushOutcome) (s : Session)
    (sc ec : option Cb) :
  In (T_checkChecksum sc ec) (pending s) ->
  exists rest,
    length (filter is_push_task (pending s))
      = S (length (filter is_push_task rest)) /\
    push_state (push_answer X o (T_checkChecksum sc ec) s) =
      (false,
       match o with
       | ChecksumMismatch => isSynchronizedWithServer (store s)
       | _ => true
       end, filter is_push_task rest) /\
    (o = ChecksumMismatch -> forall f, ec = Some f ->
     In (E_callback f [ArgExn (ExnStr "Checksum Did Not Match Expected Value")])
        (trace (push_answer X o (T_checkChecksum sc ec) s))).
Proof.
  intros I0.
  destruct (remove_first_present _ _ I0) as (rest & Rm & Len).
  exists rest. split; [now apply Len|].
  unfold push_answer.
  destruct o; cbn; unfold deliver; cbn; rewrite Rm; cbn;
    unfold checkChecksum_error, checkChecksum_success, _errorcallback, getWallet; js.
  - destruct sc; cbn; unfold push_state; cbn; split;
      [reflexivity | discriminate | reflexivity | discriminate].
  - destruct ec; cbn; unfold push_state; cbn;
      rewrite ?filter_app; cbn; rewrite ?app_nil_r; split;
      try reflexivity; intros _ f E; inversion E; subst.
    apply in_or_app. right. now left.
  - destruct sc; cbn; unfold push_state; cbn; split;
      [reflexivity | discriminate | reflexivity | discriminate].
Qed.

Lemma run_ok (m : M unit) (s : Session) :
  fst (m s) = Ok tt -> run m s = snd (m s).
Proof. unfold run. destruct (m s) as [[[]|e] s1]; cbn; [reflexivity | discriminate]. Qed.

Lemma push_state_parts (s : Session) (d y : bool) (l : list Task) :
  push_state s = (d, y, l) ->
  isLogoutDisabled (store s) = d /\ isSynchronizedWithServer (store s) = y /\
  filter is_push_task (pending s) = l.
Proof. unfold push_state. intros E. inversion E. auto. Qed.

Lemma last_filtered_pending (P : Task -> bool) (s : Session) (l : list Task) (t : Task) :
  filter P (pending s) = (l ++ [t])%list -> In t (pending s).
Proof.
  intros F.
  assert (I0 : In t (filter P (pending s))).
  { rewrite F. apply in_or_app. right. now left. }
  now apply filter_In in I0.
Qed.

(** Each handler that ends a push enables logout, in any state. *)
Lemma push_handlers_enable_logout (successcallback errorcallback : option Cb)
    (e : Exn) (s : Session) :
  isLogoutDisabled (store (snd (checkChecksum_success successcallback s))) = false /\
  isLogoutDisabled (store (snd (checkChecksum_error errorcallback s))) = false /\
  isLogoutDisabled (store (snd (syncPost_error errorcallback e s))) = false.
Proof.
  unfold checkChecksum_success, checkChecksum_error, syncPost_error,
    _errorcallback, getWallet. js.
  destruct successcallback, errorcallback; cbn; auto.
Qed.

(** With callbacks of the caller that return normally, a push whose
    preconditions hold disables logout, and every way it can end enables
    logout again: an exception while serializing, encrypting or
    self-checking, a failed upload, a checksum mismatch, a confirmed
    checksum; whatever other turns come in between, and whatever else is
    pending.  Logout is disabled while the upload is awaited, and in the
    end nothing of the push is left pending.  On a mismatch the error
    callback receives 'Checksum Did Not Match Expected Value' and
    [isSynchronizedWithServer] is as it was before the push; only a
    confirmed checksum sets it. *)
Theorem push_reenables_logout (X : Collaborators)
    (successcallback errorcallback : option Cb) (o : PushOutcome)
    (ts1 ts2 : list Turn) (s : Session) (w : Wallet) :
  wallet s = Some w ->
  isEncryptionConsistent w <> JBool false ->
  sharedKey_rejected w = false ->
  forallb push_free ts1 = true ->
  forallb push_free ts2 = true ->
  let sync := syncWallet X successcallback errorcallback in
  let s' := push X successcallback errorcallback o ts1 ts2 s in
  let uploading := find is_push_task (spawned sync s) <> None in
  isLogoutDisabled (store s') = false /\
  length (filter is_push_task (pending s')) = length (filter is_push_task (pending s)) /\
  (uploading -> isLogoutDisabled (store (run sync s)) = true) /\
  (o <> ChecksumConfirmed \/ ~ uploading ->
   isSynchronizedWithServer (store s') = isSynchronizedWithServer (store s)) /\
  (o = ChecksumConfirmed -> uploading ->
   isSynchronizedWithServer (store s') = true) /\
  (o = ChecksumMismatch -> uploading ->
   forall f, errorcallback = Some f ->
   In (E_callback f [ArgExn (ExnStr "Checksum Did Not Match Expected Value")])
      (trace s')).
Proof.
  intros W C R F1 F2. cbv zeta. unfold push.
  destruct (syncWallet_sync_part X successcallback errorcallback s w W C R)
    as (Hok & Sy & Cases).
  rewrite (run_ok _ _ Hok).
  set (s1 := snd (syncWallet X successcallback errorcallback s)) in *.
  pose proof (turns_keep push_state X push_free
                (fun t s0 => turn_keeps_push_state X t s0)) as Keep.
  destruct Cases as [(data & crypted & res & _ & _ & _ & _ & P & L) | (_ & P & L)].
  - (* the upload is on its way *)
    set (up := T_syncPost (Some (sha256hex X crypted)) successcallback errorcallback) in *.
    assert (Sp : spawned (syncWallet X successcallback errorcallback) s = [up]).
    { unfold spawned. fold s1. rewrite P. apply skipn_own_length. }
    rewrite Sp. subst up. cbn [find is_push_task].
    pose proof (Keep ts1 s1 F1) as K1. apply push_state_parts in K1 as (D1 & Y1 & T1).
    rewrite P, filter_app in T1. cbn [filter is_push_task] in T1.
    pose proof (last_filtered_pending _ _ _ _ T1) as I1.
    destruct (push_answer_upload X o _ _ _ _ I1) as (rest & Len1 & A1).
    rewrite T1, length_app in Len1. cbn [Datatypes.length] in Len1.
    set (s2 := push_answer X o _ (turns X ts1 s1)) in *.
    pose proof (Keep ts2 s2 F2) as K2. rewrite A1 in K2.
    destruct o as [e| |].
    + apply push_state_parts in K2 as (D2 & Y2 & T2).
      split; [exact D2|]. split; [rewrite T2; lia|].
      repeat split; intros; congruence.
    + apply push_state_parts in K2 as (D2 & Y2 & T2).
      pose proof (last_filtered_pending _ _ _ _ T2) as I2.
      destruct (push_answer_check X ChecksumMismatch _ _ _ I2)
        as (rest2 & Len2 & A2 & M2).
      rewrite T2, length_app in Len2. cbn [Datatypes.length] in Len2.
      apply push_state_parts in A2 as (D3 & Y3 & T3).
      split; [exact D3|]. split; [rewrite T3; lia|].
      repeat split; intros; try congruence.
      now apply M2.
    + apply push_state_parts in K2 as (D2 & Y2 & T2).
      pose proof (last_filtered_pending _ _ _ _ T2) as I2.
      destruct (push_answer_check X ChecksumConfirmed _ _ _ I2)
        as (rest2 & Len2 & A2 & _).
      rewrite T2, length_app in Len2. cbn [Datatypes.length] in Len2.
      apply push_state_parts in A2 as (D3 & Y3 & T3).
      split; [exact D3|]. split; [rewrite T3; lia|].
      repeat split; intros; try congruence.
      match goal with N : _ \/ _ |- _ => destruct N as [N1|N2] end;
        [congruence | exfalso; apply N2; discriminate].
  - (* the push failed before the upload *)
    assert (Sp : spawned (syncWallet X successcallback errorcallback) s
                 = [T_getWallet None None]).
    { unfold spawned. fold s1. rewrite P. apply skipn_own_length. }
    rewrite Sp. cbn [find is_push_task].
    pose proof (Keep ts1 s1 F1) as K1. apply push_state_parts in K1 as (D1 & Y1 & T1).
    pose proof (Keep ts2 (turns X ts1 s1) F2) as K2.
    apply push_state_parts in K2 as (D2 & Y2 & T2).
    rewrite P, filter_app in T1. cbn [filter is_push_task] in T1.
    rewrite app_nil_r in T1.
    split; [congruence|]. split; [congruence|].
    repeat split; intros; try congruence; contradiction.
Qed.

Lemma push_reenables_logout_witness :
  let s := Samples.logged_in Samples.key36 in
  let sync := syncWallet Samples.collaborators (Some "saved") (Some "failed") in
  let s' := push Samples.collaborators (Some "saved") (Some "failed")
              ChecksumMismatch [Host (Call_onMessage FramePong)] [] s in
  isLogoutDisabled (store (run sync s)) = true /\
  isLogoutDisabled (store s') = false /\
  isSynchronizedWithServer (store s') = false /\
  In (E_callback "failed" [ArgExn (ExnStr "Checksum Did Not Match Expected Value")])
     (trace s').
Proof.
  pose (s := Samples.logged_in Samples.key36).
  assert (C : isEncryptionConsistent (Samples.hd_wallet Samples.key36) <> JBool false)
    by discriminate.
  destruct (push_reenables_logout Samples.collaborators (Some "saved") (Some "failed")
              ChecksumMismatch [Host (Call_onMessage FramePong)] [] s
              (Samples.hd_wallet Samples.key36)
              eq_refl C eq_refl eq_refl eq_refl)
    as (A & _ & H & Y & _ & E).
  assert (U : find is_push_task
                (spawned (syncWallet Samples.collaborators (Some "saved")
                            (Some "failed")) s) <> None) by discriminate.
  split; [exact (H U)|]. split; [exact A|]. split.
  - assert (N : ChecksumMismatch <> ChecksumConfirmed) by discriminate.
    exact (eq_trans (Y (or_introl N)) eq_refl).
  - exact (E eq_refl U "failed" eq_refl).
Defined.

(** With callbacks that return normally the second embedding of the push
    is the first one. *)
Lemma raising_none_is_push (X : Collaborators)
    (successcallback errorcallback : option Cb) :
  syncWallet_raising X (fun _ => None) successcallback errorcallback
    = syncWallet X successcallback errorcallback /\
  (forall e, syncPost_error_raising (fun _ => None) errorcallback e
             = syncPost_error errorcallback e) /\
  checkChecksum_success_raising (fun _ => None) successcallback
    = checkChecksum_success successcallback /\
  checkChecksum_error_raising (fun _ => None) errorcallback
    = checkChecksum_error errorcallback.
Proof. repeat split. Qed.

(** On a checksum mismatch an error callback that throws takes the
    handler out before [enableLogout]: the flag stays as the upload left
    it. *)
Lemma checkChecksum_error_raising_skips_enableLogout
    (raises : Cb -> option Exn) (f : Cb) (e : Exn) (s : Session) :
  raises f = Some e ->
  fst (checkChecksum_error_raising raises (Some f) s) = Throw e /\
  isLogoutDisabled (store (snd (checkChecksum_error_raising raises (Some f) s)))
    = isLogoutDisabled (store s).
Proof.
  intros R. unfold checkChecksum_error_raising, _errorcallback_raising,
    call_if_raising, getWallet. rewrite R. js. auto.
Qed.

(** On a confirmed checksum and on a failed upload logout is enabled
    before the callback is called, whatever the callback does. *)
Lemma sibling_handlers_enable_logout_first
    (raises : Cb -> option Exn) (successcallback errorcallback : option Cb)
    (e : Exn) (s : Session) :
  isLogoutDisabled
    (store (snd (checkChecksum_success_raising raises successcallback s))) = false /\
  isLogoutDisabled
    (store (snd (syncPost_error_raising raises errorcallback e s))) = false.
Proof.
  unfold checkChecksum_success_raising, syncPost_error_raising,
    _errorcallback_raising, call_if_raising, getWallet.
  destruct successcallback as [f|], errorcallback as [g|];
    try destruct (raises f); try destruct (raises g); js; auto.
Qed.

(** C3, where the code departs from it.  A push on a logged-in session
    whose error callback throws.  When the remote checksum does not
    match, the caller receives the checksum error, the push ends with
    nothing of it pending, and logout is still disabled: the mismatch
    handler calls [_errorcallback] before [WalletStore.enableLogout], and
    the exception of the callback skips the latter.  The same happens
    when the self-check of the ciphertext fails: [syncWallet] itself
    ends by that exception with logout disabled.  On a confirmed
    checksum and on a failed upload logout is enabled again even when
    every callback throws, and with callbacks that return normally the
    mismatch enables it as well. *)
Theorem push_leaves_logout_disabled_when_errorcallback_throws :
  let s := Samples.logged_in Samples.key36 in
  let push_with := fun X raises o =>
    push_raising X raises (Some "saved") (Some "failed") o s in
  let mismatch := push_with Samples.collaborators Samples.failed_throws
                    ChecksumMismatch in
  let self_check :=
    syncWallet_raising Samples.corrupting Samples.failed_throws
      (Some "saved") (Some "failed") s in
  isLogoutDisabled (store s) = false /\
  (isLogoutDisabled (store mismatch) = true /\
   filter is_push_task (pending mismatch) = [] /\
   isSynchronizedWithServer (store mismatch) = false /\
   In (E_callback "failed" [ArgExn (ExnStr "Checksum Did Not Match Expected Value")])
      (trace mismatch) /\
   last (trace mismatch) E_stringify
     = E_uncaught (ExnStr "error handler failed")) /\
  (fst self_check = Throw (ExnStr "error handler failed") /\
   isLogoutDisabled (store (snd self_check)) = true /\
   existsb is_upload (trace (snd self_check)) = false) /\
  isLogoutDisabled
    (store (push_with Samples.collaborators Samples.all_throw ChecksumConfirmed))
    = false /\
  isLogoutDisabled
    (store (push_with Samples.collaborators Samples.all_throw (UploadFails "timeout")))
    = false /\
  isLogoutDisabled
    (store (push_with Samples.collaborators Samples.none_throws ChecksumMismatch))
    = false.
Proof.
  cbv zeta.
  split; [reflexivity|]. split; [|split; [|split; [|split]]].
  - split; [reflexivity|]. split; [reflexivity|]. split; [reflexivity|].
    split; [|reflexivity]. cbn. auto 20.
  - split; [reflexivity|]. split; reflexivity.
  - reflexivity.
  - reflexivity.
  - reflexivity.
Qed.

(** *** Two-factor submission *)

(** *** Two-factor submission *)

(** What [tryToFetchWalletWith2FA] submits: for a code of 1 to 255
    characters, one request carrying the code, upper-cased for the types
    2, 4 and 5 and unchanged for every other type, with the length of
    what is submitted. *)
Lemma tryToFetchWalletWith2FA_submits (X : Collaborators) (ctx : LoginCtx)
    (type : Z) (code : string) (s : Session) :
  (0 < String.length code <= 255)%nat ->
  let submitted :=
    if (type =? 2) || (type =? 4) || (type =? 5)
    then toUpperCase X code else code in
  fst (tryToFetchWalletWith2FA X ctx (mkTwoFactor type (Some code)) s) = Ok tt /\
  added (tryToFetchWalletWith2FA X ctx (mkTwoFactor type (Some code))) s =
    [E_request (ReqTwoFactor (l_guid ctx) submitted (strlen submitted))] /\
  spawned (tryToFetchWalletWith2FA X ctx (mkTwoFactor type (Some code))) s
    = [T_twoFactor ctx] /\
  store (snd (tryToFetchWalletWith2FA X ctx (mkTwoFactor type (Some code)) s))
    = store s /\
  (type <> 2 -> type <> 4 -> type <> 5 -> submitted = code).
Proof.
  intros L. cbv zeta. unfold tryToFetchWalletWith2FA, spawned, strlen. js.
  assert (E1 : (Z.of_nat (String.length code) =? 0) = false) by (apply Z.eqb_neq; lia).
  assert (E2 : (255 <? Z.of_nat (String.length code)) = false) by (apply Z.ltb_ge; lia).
  rewrite E1, E2. cbn. rewrite !skipn_own_length.
  repeat split.
  intros N2 N4 N5.
  apply Z.eqb_neq in N2, N4, N5. now rewrite N2, N4, N5.
Qed.

(** A code the server rejects: the restoring flag is cleared, then the
    [wrongTwoFactorCode] callback is invoked. *)
Lemma twoFactor_error_clears_restoring (X : Collaborators) (ctx : LoginCtx)
    (response : string) (f : Cb) (s : Session) :
  cb_wrongTwoFactorCode (l_callbacks ctx) = Some f ->
  let r := handle X (TwoFactor_error ctx response) s in
  fst r = Ok tt /\
  isRestoringWallet (store (snd r)) = false /\
  added (handle X (TwoFactor_error ctx response)) s = [E_callback f [ArgStr response]].
Proof.
  intros E. cbv zeta. unfold handle, twoFactor_error. js. rewrite E. cbn.
  rewrite skipn_own_length. auto.
Qed.

(** A code that is [null], empty or longer than 255 characters is turned
    away before any request, but by the [ReferenceError] of calling the
    unbound [otherError]: no callback of the caller is invoked. *)
Lemma tryToFetchWalletWith2FA_rejects (X : Collaborators) (ctx : LoginCtx)
    (two_factor_auth : TwoFactor) (s : Session) :
  match tf_code two_factor_auth with
  | None => True
  | Some code => String.length code = 0%nat \/ (255 < String.length code)%nat
  end ->
  tryToFetchWalletWith2FA X ctx two_factor_auth s
  = (Throw (ReferenceError "otherError"), s).
Proof.
  unfold tryToFetchWalletWith2FA, strlen. js.
  destruct (tf_code two_factor_auth) as [code|]; [|reflexivity].
  intros [L|L].
  - rewrite L. reflexivity.
  - destruct (Z.of_nat (String.length code) =? 0); [reflexivity|].
    assert (E2 : (255 <? Z.of_nat (String.length code)) = true) by (apply Z.ltb_lt; lia).
    now rewrite E2.
Qed.

(** C6, at the input where the code departs from it.  A login with the
    empty two-factor code [""] (type 5) on a fresh session makes no
    request, but it does not reach the error callback either: the call
    throws the [ReferenceError] of the unbound identifier [otherError]
    and leaves the session as it was, so [callbacks.otherError] is never
    invoked. *)
Theorem login_empty_code_throws_ReferenceError :
  let r := login Samples.collaborators "guid-1" "pw" None
             (Some (mkTwoFactor 5 (Some ""))) Samples.callbacks initial_session in
  r = (Throw (ReferenceError "otherError"), initial_session) /\
  existsb is_callback (trace (snd r)) = false /\
  existsb is_request (trace (snd r)) = false.
Proof. repeat split. Qed.

(** *** Device-authorization polling *)

Lemma poll_advance_idle (X : Collaborators) (a : PollAnswer) (s : Session) :
  filter is_poll_task (pending s) = [] -> poll_advance X a s = s.
Proof.
  intros F. unfold poll_advance. now rewrite (find_of_filter_nil _ _ F).
Qed.

(** The answer to the poll request in flight. *)
Lemma poll_advance_request (X : Collaborators) (a : PollAnswer) (s : Session)
    (k : PollCont) :
  filter is_poll_task (pending s) = [T_poll k] ->
  poll_state (poll_advance X a s) =
    match a with
    | PollRejected =>
        (false, getCounter (store s), [], filter is_poll_request (trace s))
    | PollResolved guid =>
        if nonempty guid then
          (false, getCounter (store s), [], filter is_poll_request (trace s))
        else if getCounter (store s) <? 600 then
          (isPolling (store s), getCounter (store s) + 1, [T_pollTimer k],
           filter is_poll_request (trace s))
        else
          (false, getCounter (store s), [], filter is_poll_request (trace s))
    end.
Proof.
  intros F. unfold poll_advance. rewrite (find_of_filter _ _ _ _ F).
  destruct (remove_first_of_filter _ _ _ F) as (rest & Rm & Fr).
  destruct a as [guid|]; cbn; unfold deliver; cbn; rewrite Rm; cbn;
    unfold poll_success, poll_error, run_PollCont, tryToFetchWalletJSON; js.
  - destruct (nonempty guid); cbn.
    + destruct k; cbn; unfold poll_state; cbn;
        rewrite ?filter_app, Fr; cbn; now rewrite ?app_nil_r.
    + destruct (getCounter (store s) <? 600); cbn; unfold poll_state; cbn;
        rewrite ?filter_app, Fr; cbn; now rewrite ?app_nil_r.
  - unfold poll_state; cbn. now rewrite Fr.
Qed.

(** The timer of a poll fires: the next request leaves. *)
Lemma poll_advance_timer (X : Collaborators) (a : PollAnswer) (s : Session)
    (k : PollCont) :
  filter is_poll_task (pending s) = [T_pollTimer k] ->
  poll_state (poll_advance X a s) =
    (isPolling (store s), getCounter (store s), [T_poll k],
     (filter is_poll_request (trace s) ++ [E_request ReqPollSessionGuid])%list).
Proof.
  intros F. unfold poll_advance. rewrite (find_of_filter _ _ _ _ F).
  destruct (remove_first_of_filter _ _ _ F) as (rest & Rm & Fr).
  cbn. unfold deliver. cbn. rewrite Rm. cbn. unfold poll_timer. js.
  unfold poll_state. cbn. now rewrite !filter_app, Fr.
Qed.

(** A guid that arrives reaches the success callback. *)
Lemma poll_advance_guid_calls_back (X : Collaborators) (s : Session) (cb : Cb)
    (guid : string) :
  filter is_poll_task (pending s) = [T_poll (PollCallback cb)] ->
  guid <> "" ->
  In (E_callback cb []) (trace (poll_advance X (PollResolved (Some guid)) s)).
Proof.
  intros F G. unfold poll_advance. rewrite (find_of_filter _ _ _ _ F).
  destruct (remove_first_of_filter _ _ _ F) as (rest & Rm & Fr).
  cbn. unfold deliver. cbn. rewrite Rm. cbn.
  unfold poll_success, run_PollCont. js.
  apply String.eqb_neq in G. rewrite G. cbn.
  apply in_or_app. right. now left.
Qed.

Lemma poll_state_parts (s : Session) (g : bool) (c : Z) (l : list Task)
    (r : list Effect) :
  poll_state s = (g, c, l, r) ->
  isPolling (store s) = g /\ getCounter (store s) = c /\
  filter is_poll_task (pending s) = l /\ filter is_poll_request (trace s) = r.
Proof. unfold poll_state. intros E. inversion E. auto. Qed.

Lemma one_poll_cases (s : Session) :
  one_poll s ->
  filter is_poll_task (pending s) = [] \/
  (isPolling (store s) = true /\
   exists k, filter is_poll_task (pending s) = [T_poll k]
             \/ filter is_poll_task (pending s) = [T_pollTimer k]).
Proof.
  intros [L G].
  destruct (filter is_poll_task (pending s)) as [|t [|t' more]] eqn:F.
  - now left.
  - right. split.
    + destruct (isPolling (store s)); [reflexivity|]. now specialize (G eq_refl).
    + assert (P : is_poll_task t = true).
      { assert (In t (filter is_poll_task (pending s))) as I0 by (rewrite F; now left).
        now apply filter_In in I0. }
      destruct t; try discriminate; eauto.
  - cbn in L. lia.
Qed.

Ltac poll_facts :=
  unfold poll_sound, one_poll, poll_ended, count_poll_requests,
    poll_requests_left, poll_budget, poll_cause in *.

(** One step of a schedule keeps the poll in good order, raises the sum
    of requests sent and requests still possible by nothing, and, when
    it is an advance, uses up budget. *)
Lemma poll_step_progress (X : Collaborators) (p : PollStep) (s : Session) :
  other_poll_free p = true ->
  poll_sound s ->
  let s' := poll_step X p s in
  poll_sound s' /\
  count_poll_requests s' + poll_requests_left s'
    <= count_poll_requests s + poll_requests_left s /\
  poll_budget s'
    <= Z.max 0 (poll_budget s - match p with Advance _ => 1 | Other _ => 0 end) /\
  (poll_ended s -> poll_ended s' /\ getCounter (store s') = getCounter (store s)) /\
  (poll_ended s' -> poll_ended s \/ poll_cause [p] s').
Proof.
  intros Free (Cn & One & Up). cbv zeta.
  destruct p as [a|t]; cbn [poll_step].
  - destruct (one_poll_cases s One) as [F | (G & k & [F|F])].
    + rewrite (poll_advance_idle X a s F).
      poll_facts. rewrite F. repeat split; auto; try lia; tauto.
    + pose proof (poll_advance_request X a s k F) as A.
      destruct a as [guid|].
      * destruct (nonempty guid) eqn:NE.
        -- apply poll_state_parts in A as (G' & C' & T' & R').
           poll_facts. rewrite G', C', T', R', F. cbv beta iota. cbn [Datatypes.length].
           repeat split; auto; try lia; try congruence.
           all: intros _; right; left.
           all: destruct guid as [g|]; [|discriminate].
           all: exists g; split; [|now left].
           all: intros ->; discriminate.
        -- destruct (getCounter (store s) <? 600) eqn:Lt.
           ++ apply Z.ltb_lt in Lt.
              apply poll_state_parts in A as (G' & C' & T' & R').
              poll_facts. rewrite G', C', T', R', F. cbv beta iota. cbn [Datatypes.length].
              repeat split; auto; try lia; try congruence; try discriminate.
              all: intros; repeat match goal with H : _ /\ _ |- _ => destruct H end;
                try discriminate; congruence.
           ++ apply Z.ltb_ge in Lt.
              apply poll_state_parts in A as (G' & C' & T' & R').
              poll_facts. rewrite G', C', T', R', F. cbv beta iota. cbn [Datatypes.length].
              repeat split; auto; try lia; try congruence.
              all: intros _; right; right; right; lia.
      * apply poll_state_parts in A as (G' & C' & T' & R').
        poll_facts. rewrite G', C', T', R', F. cbv beta iota. cbn [Datatypes.length].
        repeat split; auto; try lia; try congruence.
        all: intros _; right; right; left; now left.
    + pose proof (poll_advance_timer X a s k F) as A.
      apply poll_state_parts in A as (G' & C' & T' & R').
      poll_facts. rewrite G', C', T', R', F, length_app. cbv beta iota. cbn [Datatypes.length].
      repeat split; auto; try lia; try congruence; try discriminate.
      all: intros; repeat match goal with H : _ /\ _ |- _ => destruct H end;
                try discriminate; congruence.
  - cbn in Free.
    pose proof (turn_keeps_poll_state X t s Free) as K.
    symmetry in K. apply poll_state_parts in K as (G' & C' & T' & R').
    poll_facts. rewrite <- G', <- C', <- T', <- R'.
    repeat split; auto; try lia; try tauto.
    all: destruct (filter is_poll_task (pending (turn X t s))) as [|[] ?]; lia.
Qed.

Lemma advances_snoc (l : list PollStep) (p : PollStep) :
  advances (l ++ [p]) = advances l + match p with Advance _ => 1 | Other _ => 0 end.
Proof.
  unfold advances. rewrite filter_app, length_app.
  destruct p; cbn [filter Datatypes.length]; lia.
Qed.

Lemma poll_cause_snoc (l : list PollStep) (p : PollStep) (s s' : Session) :
  getCounter (store s') = getCounter (store s) ->
  poll_cause l s -> poll_cause (l ++ [p]) s'.
Proof.
  intros E [(g & G & I0) | [I0 | C]].
  - left. exists g. split; [exact G | apply in_or_app; now left].
  - right. left. apply in_or_app. now left.
  - right. right. congruence.
Qed.

Lemma poll_cause_last (l : list PollStep) (p : PollStep) (s : Session) :
  poll_cause [p] s -> poll_cause (l ++ [p]) s.
Proof.
  intros [(g & G & I0) | [I0 | C]].
  - left. exists g. split; [exact G | apply in_or_app; now right].
  - right. left. apply in_or_app. now right.
  - right. right. exact C.
Qed.

(** A whole schedule. *)
Lemma poll_steps_progress (X : Collaborators) (steps : list PollStep) (s : Session) :
  forallb other_poll_free steps = true ->
  poll_sound s ->
  let s' := poll_steps X steps s in
  poll_sound s' /\
  count_poll_requests s' + poll_requests_left s'
    <= count_poll_requests s + poll_requests_left s /\
  poll_budget s' <= Z.max 0 (poll_budget s - advances steps) /\
  (poll_ended s' -> poll_ended s \/ poll_cause steps s').
Proof.
  cbv zeta. induction steps as [|p l IH] using rev_ind; intros Free Sound.
  - cbn. repeat split; try apply Sound; try lia; auto.
  - rewrite forallb_app in Free. apply andb_true_iff in Free as [Fl Fp].
    cbn in Fp. rewrite andb_true_r in Fp.
    destruct (IH Fl Sound) as (S1 & N1 & B1 & E1).
    unfold poll_steps in *. rewrite fold_left_app. cbn [fold_left].
    set (mid := fold_left (fun s0 p0 => poll_step X p0 s0) l s) in *.
    destruct (poll_step_progress X p mid Fp S1) as (S2 & N2 & B2 & K2 & E2).
    rewrite advances_snoc.
    split; [exact S2|]. split; [lia|]. split; [destruct p; lia|].
    intros End. destruct (E2 End) as [Emid | Cause].
    + destruct (K2 Emid) as [_ Same].
      destruct (E1 Emid) as [E0 | C0]; [now left|].
      right. now apply (poll_cause_snoc l p mid).
    + right. now apply poll_cause_last.
Qed.

(** The call that starts a poll. *)
Lemma pollForSessionGUID_starts (k : PollCont) (s : Session) :
  isPolling (store s) = false ->
  poll_sound s ->
  let s0 := run (pollForSessionGUID k) s in
  poll_sound s0 /\ isPolling (store s0) = true /\
  filter is_poll_task (pending s0) = [T_poll k] /\
  getCounter (store s0) = getCounter (store s) /\
  count_poll_requests s0 = count_poll_requests s + 1.
Proof.
  intros G (Cn & (Len & Dn) & Up). cbv zeta.
  specialize (Dn G).
  unfold pollForSessionGUID. js. rewrite G. cbn.
  poll_facts. cbn.
  rewrite !filter_app, Dn. cbn [filter is_poll_task is_poll_request
    app Datatypes.length]. rewrite ?length_app. cbn [Datatypes.length].
  repeat split; auto; try lia.
  all: intros; discriminate.
Qed.

Lemma remove_first_In (t : Task) (l rest : list Task) :
  remove_first t l = Some rest -> In t l.
Proof.
  revert rest. induction l as [|x l IH]; cbn; intros rest E; [discriminate|].
  destruct (Task_eq_dec t x) as [<-|D]; [now left|].
  destruct (remove_first t l) as [r|]; [|discriminate].
  right. now apply (IH r).
Qed.

Lemma single_filter (P : Task -> bool) (t : Task) (l : list Task) :
  In t l -> P t = true -> (length (filter P l) <= 1)%nat -> filter P l = [t].
Proof.
  intros I0 Pt L.
  assert (F : In t (filter P l)) by (apply filter_In; auto).
  destruct (filter P l) as [|x [|y more]]; cbn in *.
  - contradiction.
  - destruct F as [->|[]]. reflexivity.
  - lia.
Qed.

Lemma one_poll_of_state (s : Session) (g : bool) (c : Z) (l : list Task)
    (r : list Effect) :
  poll_state s = (g, c, l, r) ->
  (length l <= 1)%nat -> (g = false -> l = []) -> one_poll s.
Proof.
  intros E L G. apply poll_state_parts in E as (<- & _ & <- & _).
  split; assumption.
Qed.

(** Calling [pollForSessionGUID] never puts a second poll in flight. *)
Lemma pollForSessionGUID_one_poll (k : PollCont) (s : Session) :
  one_poll s -> one_poll (run (pollForSessionGUID k) s).
Proof.
  intros [L G]. unfold pollForSessionGUID. js.
  destruct (isPolling (store s)) eqn:P; cbn.
  - split; [exact L | rewrite P; discriminate].
  - specialize (G eq_refl). unfold one_poll. cbn.
    rewrite filter_app, G. cbn. split; [lia | discriminate].
Qed.

(** Whatever takes a turn, at most one polling loop is in flight. *)
Lemma turn_keeps_one_poll (X : Collaborators) (t : Turn) (s : Session) :
  one_poll s -> one_poll (turn X t s).
Proof.
  intros One.
  destruct (poll_free t) eqn:Free.
  { pose proof (turn_keeps_poll_state X t s Free) as K.
    unfold poll_state in K. inversion K as [[G C T R]].
    unfold one_poll in *. now rewrite G, T. }
  destruct t as [c|d].
  - destruct c; try discriminate. cbn.
    now apply pollForSessionGUID_one_poll.
  - cbn. unfold deliver.
    destruct (remove_first (task_of d) (pending s)) as [rest|] eqn:Rm; [|exact One].
    pose proof (remove_first_In _ _ _ Rm) as I0.
    destruct d; try discriminate; cbn [task_of one_shot handle] in *.
    + (* the closure of authorizationRequired *)
      now apply pollForSessionGUID_one_poll.
    + (* a poll request answered *)
      pose proof (single_filter is_poll_task _ _ I0 eq_refl (proj1 One)) as F.
      pose proof (poll_advance_request X (PollResolved guid) s k F) as A.
      unfold poll_advance in A. rewrite (find_of_filter _ _ _ _ F) in A.
      cbn in A. unfold deliver in A. cbn in A. rewrite Rm in A. cbn in A.
      destruct (nonempty guid);
        [|destruct (getCounter (store s) <? 600)];
        apply (one_poll_of_state _ _ _ _ _ A); cbn; auto; try lia.
      intros E. destruct One as [_ G]. rewrite (G E) in F. discriminate.
    + (* a poll request failed *)
      pose proof (single_filter is_poll_task _ _ I0 eq_refl (proj1 One)) as F.
      pose proof (poll_advance_request X PollRejected s k F) as A.
      unfold poll_advance in A. rewrite (find_of_filter _ _ _ _ F) in A.
      cbn in A. unfold deliver in A. cbn in A. rewrite Rm in A. cbn in A.
      apply (one_poll_of_state _ _ _ _ _ A); cbn; auto.
    + (* the timer of a poll *)
      pose proof (single_filter is_poll_task _ _ I0 eq_refl (proj1 One)) as F.
      pose proof (poll_advance_timer X PollRejected s k F) as A.
      unfold poll_advance in A. rewrite (find_of_filter _ _ _ _ F) in A.
      cbn in A. unfold deliver in A. cbn in A. rewrite Rm in A. cbn in A.
      apply (one_poll_of_state _ _ _ _ _ A); cbn; auto.
      intros E. destruct One as [_ G]. rewrite (G E) in F. discriminate.
Qed.

(** A delivery to the one pending task of a poll is an advance of it. *)
Lemma deliver_is_advance (X : Collaborators) (d : Delivery) (a : PollAnswer)
    (s : Session) :
  poll_delivery a (task_of d) = Some d ->
  In (task_of d) (pending s) ->
  one_poll s ->
  deliver X d s = poll_advance X a s.
Proof.
  intros PD I0 [L _].
  assert (Pt : is_poll_task (task_of d) = true).
  { destruct (task_of d); try discriminate; reflexivity. }
  pose proof (single_filter is_poll_task _ _ I0 Pt L) as F.
  unfold poll_advance. rewrite (find_of_filter _ _ _ _ F), PD. reflexivity.
Qed.

(** Every turn keeps the poll in good order, so every state a fresh
    process can reach has it in good order. *)
Lemma turn_keeps_poll_sound (X : Collaborators) (t : Turn) (s : Session) :
  poll_sound s -> poll_sound (turn X t s).
Proof.
  intros Sound.
  destruct (poll_free t) eqn:Free.
  { exact (proj1 (poll_step_progress X (Other t) s Free Sound)). }
  assert (Start : forall k, poll_sound (run (pollForSessionGUID k) s)).
  { intros k. destruct (isPolling (store s)) eqn:G.
    - unfold pollForSessionGUID. js. now rewrite G.
    - exact (proj1 (pollForSessionGUID_starts k s G Sound)). }
  destruct t as [c|d].
  - destruct c; try discriminate. cbn. apply Start.
  - cbn.
    destruct (remove_first (task_of d) (pending s)) as [rest|] eqn:Rm.
    2:{ unfold deliver. now rewrite Rm. }
    pose proof (remove_first_In _ _ _ Rm) as I0.
    destruct Sound as (Cn & One & Up).
    destruct d; try discriminate.
    + unfold deliver. rewrite Rm. cbn. apply Start.
    + rewrite (deliver_is_advance X (Poll_ok k guid) (PollResolved guid) s eq_refl I0 One).
      exact (proj1 (poll_step_progress X (Advance (PollResolved guid)) s eq_refl
                      (conj Cn (conj One Up)))).
    + rewrite (deliver_is_advance X (Poll_error k) PollRejected s eq_refl I0 One).
      exact (proj1 (poll_step_progress X (Advance PollRejected) s eq_refl
                      (conj Cn (conj One Up)))).
    + rewrite (deliver_is_advance X (PollTimer_fired k) PollRejected s eq_refl I0 One).
      exact (proj1 (poll_step_progress X (Advance PollRejected) s eq_refl
                      (conj Cn (conj One Up)))).
Qed.

Lemma reachable_poll_sound (X : Collaborators) (ts : list Turn) :
  poll_sound (turns X ts initial_session).
Proof.
  assert (G : forall s, poll_sound s -> poll_sound (turns X ts s)).
  { unfold turns. induction ts as [|t ts IH]; intros s S0; cbn; [exact S0|].
    apply IH. now apply turn_keeps_poll_sound. }
  apply G. unfold poll_sound, one_poll. cbn. repeat split; auto; lia.
Qed.

Lemma poll_budget_zero_ended (s : Session) :
  poll_sound s -> poll_budget s <= 0 -> poll_ended s.
Proof.
  intros (Cn & One & Up) B.
  destruct (one_poll_cases s One) as [F | (_ & k & [F|F])].
  - split; [now apply Up | exact F].
  - unfold poll_budget in B. rewrite F in B. lia.
  - unfold poll_budget in B. rewrite F in B. lia.
Qed.

(** C7, as the code has it.  [pollForSessionGUID] does nothing while a
    poll is in flight; whatever takes a turn, at most one request or timer
    of a poll is pending.  Started with the guard down and the counter at
    [c <= 600], the poll sends at most [601 - c] requests under every
    schedule, the counter never passes 600, and after [1 + 2 * (600 - c)]
    advances it has ended.  An answer without a guid below the bound
    raises the counter and sets a timer of 2000, which alone sends the
    next request.  It ends for one of three reasons: a session guid
    arrived (the success callback is invoked), a poll request failed, or
    the counter stands at 600. *)
Theorem pollForSessionGUID_bounded (X : Collaborators) (k : PollCont) (s : Session) :
  (isPolling (store s) = true -> pollForSessionGUID k s = (Ok tt, s)) /\
  (forall t, one_poll s -> one_poll (turn X t s)) /\
  (forall guid, nonempty guid = false -> getCounter (store s) < 600 ->
     let r := poll_success k guid s in
     added (poll_success k guid) s = [E_setTimeout 2000] /\
     pending (snd r) = (pending s ++ [T_pollTimer k])%list /\
     getCounter (store (snd r)) = getCounter (store s) + 1) /\
  (forall cb guid,
     filter is_poll_task (pending s) = [T_poll (PollCallback cb)] -> guid <> "" ->
     In (E_callback cb []) (trace (poll_advance X (PollResolved (Some guid)) s))) /\
  (isPolling (store s) = false -> poll_sound s ->
   forall steps, forallb other_poll_free steps = true ->
     let s' := poll_steps X steps (run (pollForSessionGUID k) s) in
     count_poll_requests s' <= count_poll_requests s + (601 - getCounter (store s)) /\
     getCounter (store s') <= 600 /\
     one_poll s' /\
     (1 + 2 * (600 - getCounter (store s)) <= advances steps -> poll_ended s') /\
     (poll_ended s' -> poll_cause steps s')).
Proof.
  split; [|split; [|split; [|split]]].
  - intros P. unfold pollForSessionGUID. js. now rewrite P.
  - intros t. apply turn_keeps_one_poll.
  - intros guid NE Lt. cbv zeta. unfold poll_success. js.
    rewrite NE. apply Z.ltb_lt in Lt. rewrite Lt. cbn.
    rewrite skipn_own_length. auto.
  - intros cb guid. apply poll_advance_guid_calls_back.
  - intros G Sound steps Free. cbv zeta.
    destruct (pollForSessionGUID_starts k s G Sound) as (S0 & G0 & T0 & C0 & N0).
    destruct (poll_steps_progress X steps _ Free S0) as (S1 & N1 & B1 & E1).
    assert (L0 : poll_requests_left (run (pollForSessionGUID k) s)
                 = 600 - getCounter (store s)).
    { unfold poll_requests_left. rewrite T0, C0. reflexivity. }
    assert (M0 : poll_budget (run (pollForSessionGUID k) s)
                 = 1 + 2 * (600 - getCounter (store s))).
    { unfold poll_budget. rewrite T0, C0. reflexivity. }
    assert (Lnn : 0 <= poll_requests_left
                         (poll_steps X steps (run (pollForSessionGUID k) s))).
    { destruct S1 as (Cn & _). unfold poll_requests_left.
      destruct (filter is_poll_task
                  (pending (poll_steps X steps (run (pollForSessionGUID k) s))))
        as [|[] ?]; lia. }
    split; [lia|]. split; [apply S1|]. split; [apply S1|]. split.
    + intros Enough. apply poll_budget_zero_ended; [exact S1 | lia].
    + intros End. destruct (E1 End) as [[Bad _] | Cause]; [congruence | exact Cause].
Qed.

Lemma pollForSessionGUID_bounded_witness :
  let s' := poll_steps Samples.collaborators
              [Advance (PollResolved None); Other (Host (Call_onMessage FramePong));
               Advance PollRejected; Advance (PollResolved (Some "session"))]
              (run (pollForSessionGUID (PollCallback "authorized")) initial_session) in
  count_poll_requests s' <= 601 /\ one_poll s' /\
  In (E_callback "authorized" []) (trace s').
Proof.
  destruct (pollForSessionGUID_bounded Samples.collaborators
              (PollCallback "authorized") initial_session)
    as (_ & _ & _ & _ & B).
  assert (Sound : poll_sound initial_session).
  { unfold poll_sound, one_poll. cbn. repeat split; auto; lia. }
  destruct (B eq_refl Sound
              [Advance (PollResolved None); Other (Host (Call_onMessage FramePong));
               Advance PollRejected; Advance (PollResolved (Some "session"))]
              eq_refl) as (N & _ & O & _).
  split; [exact N|]. split; [exact O|].
  cbn. auto 10.
Defined.

(** Against C7 as stated: a poll whose first request fails has ended,
    although no session guid arrived, the success callback was not
    invoked, and the counter is nowhere near its bound. *)
Lemma poll_ends_on_failed_request :
  ~ (forall steps,
       let s' := poll_steps Samples.collaborators steps
                   (run (pollForSessionGUID (PollCallback "authorized"))
                      initial_session) in
       poll_ended s' ->
       In (E_callback "authorized" []) (trace s') \/ 600 <= getCounter (store s')).
Proof.
  intros H. specialize (H [Advance PollRejected]). cbv zeta in H.
  assert (E : poll_ended
                (poll_steps Samples.collaborators [Advance PollRejected]
                   (run (pollForSessionGUID (PollCallback "authorized"))
                      initial_session))).
  { split; reflexivity. }
  destruct (H E) as [I0 | C].
  - cbn in I0. destruct I0 as [D|[]]. discriminate.
  - cbn in C. lia.
Qed.

End WalletFacts.

(** ** The model at work: logins from a fresh session *)

Module Scenarios.
Import WalletJS.

(** A login without two-factor code: the server returns the payload, the
    wallet decrypts, the session is initialized, the socket connects once
    and the success callback is called. *)
Example login_without_two_factor :
  let ctx := mkLoginCtx "guid-1" "pw" None Samples.callbacks in
  let s := turns Samples.collaborators
             [Host (Call_login "guid-1" "pw" None None Samples.callbacks);
              Env (WalletJSON_ok ctx
                     (mkWalletJSON (Some "guid-1") 0 true (Some "pw|{wallet}") 0
                        (Some "en")))]
             initial_session in
  isInitialized s = true /\
  trace s = [E_request (ReqWalletJSON "guid-1" None);
             E_decrypt "pw|{wallet}" "pw"; E_wsConnect;
             E_request (ReqWalletFetch (Some "sum:pw|{wallet}"));
             E_callback "success" []].
Proof. split; reflexivity. Qed.

(** A login that needs a code of type 5: the code ["abc123"] is submitted
    as ["ABC123"], the server accepts, the wallet decrypts. *)
Example login_with_two_factor :
  let ctx := mkLoginCtx "guid-1" "pw" None Samples.callbacks in
  let s := turns Samples.collaborators
             [Host (Call_login "guid-1" "pw" None None Samples.callbacks);
              Env (WalletJSON_ok ctx (mkWalletJSON (Some "guid-1") 5 true None 5 None));
              Host (Call_login "guid-1" "pw" None
                      (Some (mkTwoFactor 5 (Some "abc123"))) Samples.callbacks);
              Env (TwoFactor_ok ctx (Some "pw|{wallet}"))]
             initial_session in
  isInitialized s = true /\
  In (E_callback "needsTwoFactorCode" [ArgNum 5]) (trace s) /\
  In (E_request (ReqTwoFactor "guid-1" "ABC123" 6)) (trace s).
Proof. cbn. auto 10. Qed.

(** A new device: the fetch is refused until the device is authorized;
    the poll asks twice, 2000 time units apart, and on the guid fetches
    the wallet again. *)
Example login_from_new_device :
  let ctx := mkLoginCtx "guid-1" "pw" None Samples.callbacks in
  let s := turns Samples.collaborators
             [Host (Call_login "guid-1" "pw" None None Samples.callbacks);
              Env (WalletJSON_error ctx
                     (FetchErrorObject "authorization_required" None true));
              Env (Authorization_invoked ctx);
              Env (Poll_ok (PollRetryFetch ctx) None);
              Env (PollTimer_fired (PollRetryFetch ctx));
              Env (Poll_ok (PollRetryFetch ctx) (Some "guid-1"))]
             initial_session in
  skipn 4 (trace s) =
    [E_request ReqPollSessionGuid; E_setTimeout 2000;
     E_request ReqPollSessionGuid;
     E_event "msg" (Some "Authorization Successful");
     E_request (ReqWalletJSON "guid-1" None)] /\
  isPolling (store s) = false /\ getCounter (store s) = 1.
Proof. repeat split. Qed.

End Scenarios.

(** * Further properties of address.js *)

Module AddressExtras.
Import AddressJS AddressOpsJS.

(** X1.  Assigning a boolean to [archived] is read back by [archived]
    and, negated, by [active], and touches no other field, whether or
    not the setter then throws.  Archiving asks for a sync and needs no
    wallet.  Unarchiving asks for a history refresh and then a sync when
    a wallet is loaded; without one it throws a [TypeError] after the
    tag is written, and no sync is asked for.  Anything but a boolean is
    refused and leaves the Address as it was, while [active] takes any
    value by its truthiness. *)
Theorem archived_setter_getter (wallet_loaded : bool) (a : Address) :
  (forall b : bool,
     let r := set_archived wallet_loaded (JBool b) a in
     archived (after r) = b /\ active (after r) = negb b /\
     with_tag (_tag a) (after r) = a) /\
  (calls_made (set_archived wallet_loaded (JBool true) a) = [CallSyncWallet] /\
   thrown (set_archived wallet_loaded (JBool true) a) = None) /\
  (wallet_loaded = true ->
   calls_made (set_archived wallet_loaded (JBool false) a)
     = [CallGetHistory; CallSyncWallet] /\
   thrown (set_archived wallet_loaded (JBool false) a) = None) /\
  (wallet_loaded = false ->
   calls_made (set_archived wallet_loaded (JBool false) a) = [] /\
   thrown (set_archived wallet_loaded (JBool false) a)
     = Some (TypeError "Cannot read property 'getHistory' of undefined")) /\
  (forall v, (forall b, v <> JBool b) ->
     set_archived wallet_loaded v a
     = mkAssigned a [] (Some (ExnStr "Error: address.archived must be a boolean"))) /\
  (forall v,
     set_active wallet_loaded v a
       = set_archived wallet_loaded (JBool (negb (truthy v))) a /\
     active (after (set_active wallet_loaded v a)) = truthy v).
Proof.
  split; [|split; [|split; [|split; [|split]]]].
  - intros [|]; cbv zeta; destruct wallet_loaded; cbn;
      repeat split; now destruct a.
  - split; reflexivity.
  - intros ->. split; reflexivity.
  - intros ->. split; reflexivity.
  - intros v N. destruct v as [| |b| |]; try reflexivity.
    now specialize (N b).
  - intros v. split; [reflexivity|]. unfold set_active.
    destruct (truthy v), wallet_loaded; reflexivity.
Qed.

Lemma archived_setter_getter_witness :
  archived (after (set_archived false (JBool false) Samples.watch_only)) = false /\
  calls_made (set_archived false (JBool false) Samples.watch_only) = [] /\
  thrown (set_archived false (JBool false) Samples.watch_only)
    = Some (TypeError "Cannot read property 'getHistory' of undefined") /\
  calls_made (set_archived true (JBool false) Samples.watch_only)
    = [CallGetHistory; CallSyncWallet] /\
  set_archived true (JNum 1) Samples.watch_only
    = mkAssigned Samples.watch_only []
        (Some (ExnStr "Error: address.archived must be a boolean")).
Proof.
  destruct (archived_setter_getter false Samples.watch_only)
    as (A & _ & _ & F & _).
  destruct (archived_setter_getter true Samples.watch_only)
    as (_ & _ & T & _ & B & _).
  split; [exact (proj1 (A false))|].
  split; [exact (proj1 (F eq_refl))|].
  split; [exact (proj2 (F eq_refl))|].
  split; [exact (proj1 (T eq_refl))|].
  apply B. intros b. discriminate.
Defined.

(** X2.  The [label] setter accepts a valid label and [null] or
    [undefined], refuses everything else, and asks for one sync.  It never
    stores the empty string: [''] is stored as [undefined], so the JSON
    text of the Address then has no [label] at all; every other accepted
    value is stored as given; no other persisted field changes. *)
Theorem label_setter (H : Helpers) (str : JsVal) (a : Address) :
  (isValidLabel H str || eq_null str = true ->
   exists a', set_label H str a = inr (a', [CallSyncWallet]) /\
     label a' <> JStr "" /\
     (str <> JStr "" -> label a' = str) /\
     (str = JStr "" -> ~ In "label" (map fst (JSON_roundtrip (toJSON a')))) /\
     with_label (_label a) a' = a) /\
  (isValidLabel H str || eq_null str = false ->
   set_label H str a
   = inl (ExnStr "Error: address.label must be an alphanumeric string")).
Proof.
  unfold set_label. split; intros ->; [|reflexivity].
  eexists. split; [reflexivity|].
  destruct (strict_eq str (JStr "")) eqn:E.
  - assert (str = JStr "") as ->.
    { destruct str as [| | | |t]; try discriminate.
      cbn in E. apply String.eqb_eq in E. now subst. }
    repeat split; try discriminate; try congruence; try now destruct a.
    unfold JSON_roundtrip. cbn.
    repeat match goal with
           | |- context [is_undefined ?x] => destruct (is_undefined x)
           end; cbn; intuition discriminate.
  - assert (N : str <> JStr "").
    { intros ->. discriminate. }
    repeat split; try assumption; try contradiction; try now destruct a.
Qed.

Lemma label_setter_witness :
  exists a', set_label Samples.helpers (JStr "") Samples.watch_only
             = inr (a', [CallSyncWallet]) /\
             label a' = JUndefined.
Proof.
  destruct (proj1 (label_setter Samples.helpers (JStr "") Samples.watch_only) eq_refl)
    as (a' & E & _).
  exists a'. split; [exact E|].
  cbn in E. inversion E. reflexivity.
Defined.

(** X3.  Whatever [Address.import] returns is active (tag 0), carries the
    label given, the current time and the application's name and version,
    and has no balance yet; it is watch-only exactly when the input was a
    public address string.  The only input refused is a text that is
    neither an address nor a WIF key. *)
Theorem import_result (H : Helpers) (key : KeyInput) (lbl : JsVal) :
  (forall a, import H key lbl = inr a ->
     tag a = JNum 0 /\ active a = true /\ label a = lbl /\
     created_time a = JNum (now H) /\
     created_device_name a = APP_NAME H /\
     created_device_version a = APP_VERSION H /\
     _balance a = JNull /\
     (isWatchOnly a = true <->
      exists t, key = KeyString t /\ isBitcoinAddress H t = true)) /\
  ((exists e, import H key lbl = inl e) <->
   exists t, key = KeyString t /\ isBitcoinAddress H t = false /\
             isBitcoinPrivateKey H t = false).
Proof.
  unfold import. split.
  - intros a E.
    destruct key as [t|addr p].
    + destruct (isBitcoinAddress H t) eqn:A.
      * inversion E; subst. cbn. repeat split; eauto.
      * destruct (isBitcoinPrivateKey H t); [|discriminate].
        destruct (fromWIF H t) as [addr p]. inversion E; subst. cbn.
        repeat split; try discriminate.
        intros (t' & Et & A'). inversion Et; subst. congruence.
    + inversion E; subst. cbn. repeat split; try discriminate.
      intros (t' & Et & _). discriminate.
  - destruct key as [t|addr p].
    + destruct (isBitcoinAddress H t) eqn:A.
      * split; [intros [e E]; discriminate|].
        intros (t' & Et & A' & _). inversion Et; subst. congruence.
      * destruct (isBitcoinPrivateKey H t) eqn:PK.
        -- destruct (fromWIF H t). split; [intros [e E]; discriminate|].
           intros (t' & Et & _ & P'). inversion Et; subst. congruence.
        -- split; eauto.
    + split; [intros [e E]; discriminate | intros (t' & Et & _); discriminate].
Qed.

Lemma import_result_witness :
  exists a, import Samples.helpers (KeyString "1abc") (JStr "savings") = inr a /\
            isWatchOnly a = true /\ tag a = JNum 0.
Proof.
  eexists. split; [reflexivity|].
  destruct (proj1 (import_result Samples.helpers (KeyString "1abc") (JStr "savings"))
              _ eq_refl) as (T & _ & _ & _ & _ & _ & _ & W).
  split; [|exact T].
  apply W. exists "1abc". split; reflexivity.
Defined.

Lemma persisted_toJSON (a : Address) : map snd (toJSON a) = persisted a.
Proof. reflexivity. Qed.

(** X4.  [encrypt] and [decrypt] only stage the transformed key: what
    [toJSON] returns is unchanged until [persist], which puts the staged
    key in place of the old one and clears the staging field.  An
    Address without a key is left alone; a cipher that yields nothing
    throws.  Encrypting, persisting, decrypting with the inverse and
    persisting again gives back the seven persisted fields. *)
Theorem encrypt_stages_persist_commits (c d : JsVal -> JsVal) (a : Address) :
  (forall cipher a', encrypt cipher a = inr a' \/ decrypt cipher a = inr a' ->
     toJSON a' = toJSON a) /\
  (truthy (_priv a) = false ->
   forall cipher, encrypt cipher a = inr a /\ decrypt cipher a = inr a) /\
  (truthy (_priv a) = true -> truthy (c (_priv a)) = false ->
   encrypt (Some c) a = inl (ExnStr "Error Encoding key") /\
   decrypt (Some c) a = inl (ExnStr "Error Decoding key")) /\
  (truthy (_priv a) = true -> truthy (c (_priv a)) = true ->
   exists a1, encrypt (Some c) a = inr a1 /\
     _priv (persist a1) = c (_priv a) /\
     _temporal_priv (persist a1) = None /\
     persist (persist a1) = persist a1 /\
     (d (c (_priv a)) = _priv a ->
      exists a2, decrypt (Some d) (persist a1) = inr a2 /\
                 persisted (persist a2) = persisted a)).
Proof.
  split; [|split; [|split]].
  - intros cipher a' [E|E]; unfold encrypt, decrypt in E;
      destruct (negb (truthy (_priv a))); try (inversion E; subst; reflexivity);
      destruct (negb (truthy _)); try discriminate; inversion E; reflexivity.
  - intros T cipher. unfold encrypt, decrypt. rewrite T. auto.
  - intros T F. unfold encrypt, decrypt. rewrite T, F. auto.
  - intros T T'. unfold encrypt. rewrite T, T'. cbn.
    eexists. split; [reflexivity|].
    assert (P1 : persist (with_temporal_priv (Some (c (_priv a))) a)
                 = with_temporal_priv None
                     (with_priv (c (_priv a))
                        (with_temporal_priv (Some (c (_priv a))) a))).
    { unfold persist. cbn [_temporal_priv with_temporal_priv]. now rewrite T'. }
    rewrite P1. split; [reflexivity|]. split; [reflexivity|].
    split; [reflexivity|].
    intros Inv. unfold decrypt. cbn [_priv with_temporal_priv with_priv].
    rewrite T'. cbn [negb]. rewrite Inv, T. cbn [negb].
    eexists. split; [reflexivity|].
    unfold persist. cbn [_temporal_priv with_temporal_priv]. rewrite T.
    reflexivity.
Qed.

Lemma encrypt_stages_persist_commits_witness :
  let c := fun v => match v with JStr t => JStr ("enc:" ++ t) | _ => JNull end in
  let d := fun v => match v with JStr t => JStr (substring 4 (String.length t - 4) t)
                               | _ => JNull end in
  exists a1, encrypt (Some c) Samples.spendable = inr a1 /\
             _priv (persist a1) = JStr "enc:kabc" /\
             exists a2, decrypt (Some d) (persist a1) = inr a2 /\
                        persisted (persist a2) = persisted Samples.spendable.
Proof.
  intros c d.
  destruct (proj2 (proj2 (proj2
              (encrypt_stages_persist_commits c d Samples.spendable)))
              eq_refl eq_refl) as (a1 & E & P & _ & _ & R).
  exists a1. split; [exact E|]. split; [exact P|].
  apply R. reflexivity.
Defined.

(** X5.  The balance, total sent and total received are not saved: setting
    them never changes what [toJSON] returns, only a positive number is
    accepted, and an Address built again from the [toJSON] output starts
    with all three [null]. *)
Theorem unsaved_totals (H : Helpers) (n : JsVal) (a : Address) :
  (forall a', set_balance H n a = inr a' \/ set_totalSent H n a = inr a'
              \/ set_totalReceived H n a = inr a' ->
     isPositiveNumber H n = true /\ toJSON a' = toJSON a /\
     let b := new_Address (ArgObject (toJSON a')) in
     _balance b = JNull /\ _totalSent b = JNull /\ _totalReceived b = JNull) /\
  (isPositiveNumber H n = true ->
   exists a1 a2 a3,
     set_balance H n a = inr a1 /\ _balance a1 = n /\
     set_totalSent H n a = inr a2 /\ _totalSent a2 = n /\
     set_totalReceived H n a = inr a3 /\ _totalReceived a3 = n) /\
  (isPositiveNumber H n = false ->
   set_balance H n a
     = inl (ExnStr "Error: address.balance must be a positive number") /\
   set_totalSent H n a
     = inl (ExnStr "Error: address.totalSent must be a positive number") /\
   set_totalReceived H n a
     = inl (ExnStr "Error: address.totalReceived must be a positive number")).
Proof.
  unfold set_balance, set_totalSent, set_totalReceived.
  split; [|split].
  - intros a' E. destruct (isPositiveNumber H n).
    + destruct E as [E|[E|E]]; inversion E; subst; repeat split.
    + destruct E as [E|[E|E]]; discriminate.
  - intros ->. do 3 eexists. repeat split.
  - intros ->. auto.
Qed.

Lemma unsaved_totals_witness :
  exists a', set_balance Samples.helpers (JNum 5000) Samples.watch_only = inr a' /\
             _balance a' = JNum 5000 /\
             toJSON a' = toJSON Samples.watch_only.
Proof.
  destruct (unsaved_totals Samples.helpers (JNum 5000) Samples.watch_only)
    as (A & B & _).
  destruct (B eq_refl) as (a1 & _ & _ & E & V & _).
  exists a1. split; [exact E|]. split; [exact V|].
  exact (proj1 (proj2 (A a1 (or_introl E)))).
Defined.

Lemma resolve_import_pair (H : Helpers) (addr p : string) (lbl : JsVal) (a : Address) :
  resolve_import H (KeyPair addr p) lbl = Resolved a ->
  tag a = JNum 0 /\ label a = lbl /\ isWatchOnly a = false /\
  address a = JStr addr /\ priv a = JStr p.
Proof.
  unfold resolve_import, import. intros E. inversion E; subst. cbn. auto.
Qed.

(** X6.  Every Address [fromString] resolves to is active, carries the
    label given, and is watch-only exactly when the text was a public
    address, in which case no key parser is consulted.  A BIP38 key
    without a passphrase (absent or empty) is rejected with 'needsBip38'
    before the BIP38 parser is tried; with a passphrase the parser's
    wrong-password and error answers become 'wrongBipPass' and
    'importError'.  A format that is neither BIP38 nor one of the six
    accepted ones is rejected with 'unknown key format'. *)
Theorem fromString_outcomes (H : Helpers) (K : KeyHelpers) (keyOrAddr : string)
    (lbl : JsVal) (bipPass : option string) :
  let result := fromString H K keyOrAddr lbl bipPass in
  let format := detectPrivateKeyFormat K keyOrAddr in
  (forall a, result = Resolved a ->
     tag a = JNum 0 /\ label a = lbl /\
     (isWatchOnly a = true <-> isBitcoinAddress H keyOrAddr = true)) /\
  (isBitcoinAddress H keyOrAddr = true ->
   forall K', fromString H K' keyOrAddr lbl bipPass = result /\
              exists a, result = Resolved a /\ address a = JStr keyOrAddr) /\
  (isBitcoinAddress H keyOrAddr = false -> format = Some "bip38" ->
   (bipPass = None \/ bipPass = Some "" -> result = Rejected "needsBip38") /\
   (forall pass, bipPass = Some pass -> pass <> "" ->
      (parseBIP38toECPair K keyOrAddr pass = Bip38WrongPassword ->
       result = Rejected "wrongBipPass") /\
      (parseBIP38toECPair K keyOrAddr pass = Bip38Error ->
       result = Rejected "importError"))) /\
  (isBitcoinAddress H keyOrAddr = false ->
   (forall fmt, format = Some fmt -> fmt <> "bip38" /\ ~ In fmt okFormats) ->
   result = Rejected "unknown key format").
Proof.
  cbv zeta. unfold fromString.
  destruct (isBitcoinAddress H keyOrAddr) eqn:A.
  - split; [|split; [|split]]; try discriminate.
    + intros a E. unfold resolve_import, import in E. rewrite A in E.
      inversion E; subst. cbn. repeat split.
    + intros _ K'. split; [reflexivity|].
      unfold resolve_import, import. rewrite A. eexists. split; reflexivity.
  - split; [|split; [|split]]; try discriminate.
    + intros a E.
      assert (W : isWatchOnly a = false /\ tag a = JNum 0 /\ label a = lbl).
      { destruct (detectPrivateKeyFormat K keyOrAddr) as [fmt|]; [|discriminate].
        destruct (fmt =? "bip38")%string.
        - destruct bipPass as [pass|]; [|discriminate].
          destruct (pass =? "")%string; [discriminate|].
          destruct (parseBIP38toECPair K keyOrAddr pass); try discriminate.
          apply resolve_import_pair in E. tauto.
        - destruct (existsb (String.eqb fmt) okFormats); [|discriminate].
          destruct (privateKeyStringToKey K (JStr keyOrAddr) fmt); [discriminate|].
          apply resolve_import_pair in E. tauto. }
      destruct W as (W & T & L). repeat split; try assumption; congruence.
    + intros _ F. rewrite F. cbn [String.eqb Ascii.eqb Bool.eqb].
      split.
      * intros [-> | ->]; reflexivity.
      * intros pass -> NE. apply String.eqb_neq in NE. rewrite NE.
        split; intros ->; reflexivity.
    + intros _ U.
      destruct (detectPrivateKeyFormat K keyOrAddr) as [fmt|]; [|reflexivity].
      destruct (U fmt eq_refl) as [NB NI].
      apply String.eqb_neq in NB. rewrite NB.
      destruct (existsb (String.eqb fmt) okFormats) eqn:Ex; [|reflexivity].
      exfalso. apply existsb_exists in Ex as (x & I0 & Eq).
      apply String.eqb_eq in Eq. subst. contradiction.
Qed.

Lemma fromString_outcomes_witness :
  fromString Samples.helpers Samples.key_helpers "6Pabc" (JStr "cold") (Some "")
    = Rejected "needsBip38" /\
  fromString Samples.helpers Samples.key_helpers "6Pabc" (JStr "cold") (Some "shut")
    = Rejected "wrongBipPass" /\
  fromString Samples.helpers Samples.key_helpers "xabc" (JStr "cold") None
    = Rejected "unknown key format".
Proof.
  split; [|split].
  - apply (proj1 (proj1 (proj2 (proj2
             (fromString_outcomes Samples.helpers Samples.key_helpers "6Pabc"
                (JStr "cold") (Some "")))) eq_refl eq_refl)).
    now right.
  - apply (proj2 (proj1 (proj2 (proj2
             (fromString_outcomes Samples.helpers Samples.key_helpers "6Pabc"
                (JStr "cold") (Some "shut")))) eq_refl eq_refl) "shut" eq_refl).
    + discriminate.
    + reflexivity.
  - apply (proj2 (proj2 (proj2
             (fromString_outcomes Samples.helpers Samples.key_helpers "xabc"
                (JStr "cold") None))) eq_refl).
    intros fmt E. inversion E; subst. split; [discriminate|].
    cbn. intuition discriminate.
Defined.

(** X7.  [signMessage] signs only when the message is a string, the
    Address has a private key, a wallet is in the session, and, for an
    encrypted key, a second password was given; the three refusals come
    in that order, before any key is decrypted or parsed.  An encrypted
    key is decrypted first; and if the key's own address is not the
    Address's, the signature is made with the uncompressed key. *)
Theorem signMessage_guards (K : KeyHelpers) (session_wallet : option (JsVal * JsVal))
    (message secondPassword : JsVal) (a : Address) :
  let result := signMessage K session_wallet message secondPassword a in
  (forall signature, result = inr signature ->
     isString K message = true /\ isWatchOnly a = false /\
     session_wallet <> None /\
     (isEncrypted K a = true -> eq_null secondPassword = false) /\
     exists p keyPair,
       (if isEncrypted K a
        then exists sk it, session_wallet = Some (sk, it) /\
               decryptSecretWithSecondPassword K (priv a) secondPassword sk it = inr p
        else p = priv a) /\
       privateKeyStringToKey K p "base58" = inr keyPair /\
       signature =
         sign K (if strict_eq (JStr (getAddress keyPair)) (address a)
                 then keyPair
                 else mkECPair (getAddress keyPair) (d58 keyPair) false) message) /\
  (isString K message = false ->
   result = inl (ExnStr "Expected message to be a string")) /\
  (isString K message = true -> isWatchOnly a = true ->
   result = inl (ExnStr "Private key needed for message signing")) /\
  (isString K message = true -> isWatchOnly a = false ->
   isEncrypted K a = true -> eq_null secondPassword = true ->
   result = inl (ExnStr "Second password needed to decrypt key")).
Proof.
  cbv zeta. unfold signMessage.
  split; [|split; [|split]].
  - intros signature E.
    destruct (isString K message); [|discriminate].
    destruct (isWatchOnly a); [discriminate|].
    destruct (isEncrypted K a) eqn:En.
    + destruct (eq_null secondPassword); [discriminate|].
      cbn [andb] in E. cbv iota in E.
      destruct session_wallet as [[sk it]|]; [|discriminate].
      destruct (decryptSecretWithSecondPassword K _ _ _ _) as [e|p] eqn:D;
        [discriminate|].
      destruct (privateKeyStringToKey K p "base58") as [e|kp] eqn:P;
        [discriminate|].
      repeat split; try discriminate.
      exists p, kp. split; [eauto|]. split; [exact P|].
      destruct (strict_eq (JStr (getAddress kp)) (address a));
        cbn [negb] in E; cbv iota in E; inversion E; reflexivity.
    + cbn [andb] in E. cbv iota in E.
      destruct session_wallet as [[sk it]|]; [|discriminate].
      destruct (privateKeyStringToKey K (priv a) "base58") as [e|kp] eqn:P;
        [discriminate|].
      repeat split; try discriminate.
      exists (priv a), kp. split; [reflexivity|]. split; [exact P|].
      destruct (strict_eq (JStr (getAddress kp)) (address a));
        cbn [negb] in E; cbv iota in E; inversion E; reflexivity.
  - intros ->. reflexivity.
  - intros -> ->. reflexivity.
  - intros -> -> -> ->. reflexivity.
Qed.

Lemma signMessage_guards_witness :
  signMessage Samples.key_helpers (Some (JStr Samples.key36, JNum 5000))
    (JStr "hello") JNull Samples.watch_only
    = inl (ExnStr "Private key needed for message signing") /\
  signMessage Samples.key_helpers (Some (JStr Samples.key36, JNum 5000))
    (JStr "hello") JNull Samples.spendable
    = inr "signed-with:kkabc".
Proof.
  split.
  - apply (proj1 (proj2 (proj2
             (signMessage_guards Samples.key_helpers
                (Some (JStr Samples.key36, JNum 5000)) (JStr "hello") JNull
                Samples.watch_only)))); reflexivity.
  - reflexivity.
Defined.

End AddressExtras.

(** * Further properties of wallet.js *)

Module WalletExtras.
Import WalletJS WalletFacts.

Lemma nonempty_some (d : string) : d <> "" -> nonempty (Some d) = true.
Proof. intros N. cbn. apply negb_true_iff. now apply String.eqb_neq. Qed.



(** *** Login *)

(** X9.  [login] checks its arguments before anything else: without a
    [success] or an [otherError] callback, or with a two-factor
    descriptor whose type is not a positive integer or whose code is not
    a string, it throws an assertion error and leaves the session as it
    was: no request is made. *)
Theorem login_asserts (X : Collaborators) (guid password : string)
    (sharedKey : option string) (twoFactor : option TwoFactor)
    (callbacks : Callbacks) (s : Session) :
  cb_success callbacks = None \/ cb_otherError callbacks = None \/
  (exists tf, twoFactor = Some tf /\
     (isPositiveInteger X (tf_type tf) = false \/ tf_code tf = None)) ->
  exists msg,
    login X guid password sharedKey twoFactor callbacks s
    = (Throw (AssertionError msg), s).
Proof.
  intros Bad. unfold login. js.
  destruct (cb_success callbacks); cbn; [|eauto].
  destruct (cb_otherError callbacks); cbn; [|eauto].
  destruct Bad as [B|[B|(tf & -> & B)]]; try discriminate.
  destruct B as [B|B]; rewrite B; cbn; eauto.
  rewrite andb_false_r. cbn. eauto.
Qed.

Lemma login_asserts_witness :
  exists msg,
    login Samples.collaborators "guid-1" "pw" None
      (Some (mkTwoFactor 5 None)) Samples.callbacks initial_session
    = (Throw (AssertionError msg), initial_session).
Proof.
  apply login_asserts. right. right.
  exists (mkTwoFactor 5 None). split; [reflexivity|]. now right.
Defined.



(** X11.  An answer to the wallet request that carries no guid reaches
    no callback of the caller's error handling: the handler announces
    'Server returned null guid.', stumbles over the unbound [otherError],
    and the [catch] of the request only logs that and raises
    [did_fail_set_guid].  Nothing is stored and nothing is left
    pending. *)
Theorem null_guid_reaches_nobody (X : Collaborators) (ctx : LoginCtx)
    (obj : WalletJSON) (s : Session) :
  nonempty (j_guid obj) = false ->
  let h := handle X (WalletJSON_ok ctx obj) in
  fst (h s) = Ok tt /\
  store (snd (h s)) = store s /\
  pending (snd (h s)) = pending s /\
  added h s
    = (match cb_didFetch (l_callbacks ctx) with
       | Some f => [E_callback f []]
       | None => []
       end
       ++ [E_event "msg" (Some "Server returned null guid.");
           E_log "ReferenceError: otherError is not defined";
           E_event "did_fail_set_guid" None])%list.
Proof.
  intros G. cbv zeta.
  unfold handle, walletJSON_success, walletJSON_error. js. rewrite G.
  destruct (cb_didFetch (l_callbacks ctx)); cbn;
    rewrite <- ?app_assoc, skipn_own_length; auto.
Qed.

Lemma null_guid_reaches_nobody_witness :
  added (handle Samples.collaborators
           (WalletJSON_ok (mkLoginCtx "guid-1" "pw" None Samples.callbacks)
              (mkWalletJSON None 0 false (Some "pw|{wallet}") 0 None)))
    initial_session
  = [E_event "msg" (Some "Server returned null guid.");
     E_log "ReferenceError: otherError is not defined";
     E_event "did_fail_set_guid" None].
Proof.
  exact (proj2 (proj2 (proj2
           (null_guid_reaches_nobody Samples.collaborators
              (mkLoginCtx "guid-1" "pw" None Samples.callbacks)
              (mkWalletJSON None 0 false (Some "pw|{wallet}") 0 None)
              initial_session eq_refl)))).
Defined.

(** X12.  A login with a two-factor code.  When the wallet of this guid
    was fetched before (its ciphertext is in the store), the call stops
    at the unbound [inputedPassword]: it throws a [ReferenceError] and
    the session stays as it was.  Otherwise a code of 1 to 255 characters
    is submitted in one request: what [toUpperCase] makes of it for the
    types 2, 4 and 5, the code itself for every other type, together
    with the length of what is submitted; the store stays as it was. *)
Theorem login_two_factor (X : Collaborators) (guid password code : string)
    (sharedKey : option string) (tf : TwoFactor) (callbacks : Callbacks)
    (s : Session) (ok err : Cb) :
  cb_success callbacks = Some ok ->
  cb_otherError callbacks = Some err ->
  isPositiveInteger X (tf_type tf) = true ->
  tf_code tf = Some code ->
  let call := login X guid password sharedKey (Some tf) callbacks in
  let ctx := mkLoginCtx guid password
               (if nonempty sharedKey then sharedKey else None) callbacks in
  let submitted :=
    if (tf_type tf =? 2) || (tf_type tf =? 4) || (tf_type tf =? 5)
    then toUpperCase X code else code in
  (getGuid (store s) = Some guid ->
   nonempty (getEncryptedWalletData (store s)) = true ->
   call s = (Throw (ReferenceError "inputedPassword"), s)) /\
  (getGuid (store s) <> Some guid \/
   nonempty (getEncryptedWalletData (store s)) = false ->
   (0 < String.length code <= 255)%nat ->
   fst (call s) = Ok tt /\
   store (snd (call s)) = store s /\
   added call s = [E_request (ReqTwoFactor guid submitted (strlen submitted))] /\
   spawned call s = [T_twoFactor ctx] /\
   (tf_type tf <> 2 -> tf_type tf <> 4 -> tf_type tf <> 5 -> submitted = code)).
Proof.
  intros Cs Ce Pi Co. cbv zeta. split.
  - intros G D. unfold login. js. rewrite Cs, Ce. cbn. rewrite Pi, Co. cbn.
    rewrite G, D. cbn. now rewrite String.eqb_refl.
  - intros N L.
    assert (B : negb (differs (Some guid) (getGuid (store s)))
                && nonempty (getEncryptedWalletData (store s)) = false).
    { destruct N as [N| ->]; [|apply andb_false_r].
      assert (D : differs (Some guid) (getGuid (store s)) = true)
        by (apply differs_true; congruence).
      now rewrite D. }
    destruct tf as [type c]. cbn in Co, Pi |- *. subst c.
    destruct (tryToFetchWalletWith2FA_submits X
                (mkLoginCtx guid password
                   (if nonempty sharedKey then sharedKey else None) callbacks)
                type code s L) as (R1 & R2 & R3 & R4 & R5).
    assert (Eq : login X guid password sharedKey
                   (Some (mkTwoFactor type (Some code))) callbacks s
                 = tryToFetchWalletWith2FA X
                     (mkLoginCtx guid password
                        (if nonempty sharedKey then sharedKey else None) callbacks)
                     (mkTwoFactor type (Some code)) s).
    { unfold login, assert, read, bind, ret, throw. rewrite Cs, Ce.
      cbn [tf_type tf_code]. rewrite Pi. cbn [andb]. cbv iota beta.
      now rewrite B. }
    unfold spawned, added in *. rewrite Eq.
    split; [exact R1|]. split; [exact R4|]. split; [exact R2|].
    split; [exact R3 | exact R5].
Qed.

Lemma login_two_factor_witness :
  login Samples.collaborators "guid-1" "pw" None
    (Some (mkTwoFactor 5 (Some "abc123"))) Samples.callbacks Samples.fetched
  = (Throw (ReferenceError "inputedPassword"), Samples.fetched) /\
  added (login Samples.collaborators "guid-1" "pw" None
           (Some (mkTwoFactor 5 (Some "abc123"))) Samples.callbacks)
    initial_session
  = [E_request (ReqTwoFactor "guid-1" "ABC123" 6)].
Proof.
  pose proof (login_two_factor Samples.collaborators "guid-1" "pw" "abc123" None
                (mkTwoFactor 5 (Some "abc123")) Samples.callbacks) as T.
  split.
  - exact (proj1 (T Samples.fetched "success" "otherError"
                    eq_refl eq_refl eq_refl eq_refl) eq_refl eq_refl).
  - assert (N : getGuid (store initial_session) <> Some "guid-1"
                \/ nonempty (getEncryptedWalletData (store initial_session)) = false)
      by (now right).
    assert (L : (0 < String.length "abc123" <= 255)%nat) by (cbn; lia).
    exact (proj1 (proj2 (proj2
             (proj2 (T initial_session "success" "otherError"
                       eq_refl eq_refl eq_refl eq_refl) N L)))).
Defined.

(** X13.  How a failed wallet request is routed.  An error with an
    [initial_error] and no [authorization_required] goes to
    [callbacks.otherError] and nowhere else.  An error that asks for
    authorization raises [did_fail_set_guid] and hands
    [callbacks.authorizationRequired] a continuation; when the caller
    invokes it and no poll is running, the device-authorization poll
    starts.  An error with neither reaches no callback at all.  The
    store is left alone in every case. *)
Theorem walletJSON_error_routing (X : Collaborators) (ctx : LoginCtx)
    (shown : string) (initial_error : option string)
    (authorization_required : bool) (s : Session) (err : Cb) :
  cb_otherError (l_callbacks ctx) = Some err ->
  let h := handle X (WalletJSON_error ctx
                       (FetchErrorObject shown initial_error authorization_required)) in
  fst (h s) = Ok tt /\
  store (snd (h s)) = store s /\
  (nonempty initial_error = true -> authorization_required = false ->
   added h s = [E_log shown;
                E_callback err
                  [ArgStr match initial_error with Some m => m | None => "" end]] /\
   pending (snd (h s)) = pending s) /\
  (authorization_required = true ->
   forall f, cb_authorizationRequired (l_callbacks ctx) = Some f ->
     added h s = ([E_log shown; E_event "did_fail_set_guid" None;
                   E_callback f [ArgContinue ctx]]
                  ++ if nonempty initial_error
                     then [E_event "msg" initial_error] else [])%list /\
     pending (snd (h s)) = (pending s ++ [T_authorization ctx])%list /\
     forall t, isPolling (store t) = false ->
       let k := handle X (Authorization_invoked ctx) in
       isPolling (store (snd (k t))) = true /\
       added k t = [E_request ReqPollSessionGuid] /\
       spawned k t = [T_poll (PollRetryFetch ctx)]) /\
  (nonempty initial_error = false -> authorization_required = false ->
   added h s = [E_log shown; E_event "did_fail_set_guid" None] /\
   pending (snd (h s)) = pending s).
Proof.
  intros Ce. cbv zeta. unfold handle, walletJSON_error. js. rewrite Ce.
  destruct (nonempty initial_error) eqn:I, authorization_required; cbn;
    (destruct (cb_authorizationRequired (l_callbacks ctx)) as [g|] eqn:A; cbn);
    rewrite <- ?app_assoc, ?skipn_own_length; cbn;
    (split; [reflexivity|]); (split; [reflexivity|]);
    (split; [intros P Q; try discriminate; auto|]);
    (split; [|intros P Q; try discriminate; auto]);
    intros P f Ef; try discriminate; inversion Ef; subst f;
    (split; [reflexivity|]); (split; [reflexivity|]);
    intros t Pt; unfold authorization_continue, pollForSessionGUID, spawned; js;
    rewrite Pt; cbn; rewrite !skipn_own_length; auto.
Qed.

Lemma walletJSON_error_routing_witness :
  let ctx := mkLoginCtx "guid-1" "pw" None Samples.callbacks in
  added (handle Samples.collaborators
           (WalletJSON_error ctx
              (FetchErrorObject "Unknown Wallet Identifier"
                 (Some "Unknown Wallet Identifier") false)))
    initial_session
  = [E_log "Unknown Wallet Identifier";
     E_callback "otherError" [ArgStr "Unknown Wallet Identifier"]].
Proof.
  exact (proj1 (proj1 (proj2 (proj2
           (walletJSON_error_routing Samples.collaborators
              (mkLoginCtx "guid-1" "pw" None Samples.callbacks)
              "Unknown Wallet Identifier" (Some "Unknown Wallet Identifier")
              false initial_session "otherError" eq_refl))) eq_refl eq_refl)).
Defined.

(** *** Fetching and pushing *)

(** X14.  A fetched ciphertext that decrypts replaces the wallet in
    memory: the handler of [getWallet] stores the ciphertext with its
    checksum, decrypts it with the stored password, puts the new wallet
    in memory, closes the latch, asks for the history and then calls
    [success].  The socket is connected at this point exactly when the
    session was not initialized before. *)
Theorem getWallet_refresh (X : Collaborators) (success error : option Cb)
    (data : string) (w : Wallet) (root : option Z) (s : Session) :
  data <> "" -> data <> "Not modified" ->
  decryptWallet X data (getPassword (store s)) = inr (w, root) ->
  let h := handle X (GetWallet_ok success error (Some data)) in
  fst (h s) = Ok tt /\
  wallet (snd (h s)) = Some w /\
  isInitialized (snd (h s)) = true /\
  getEncryptedWalletData (store (snd (h s))) = Some data /\
  getPayloadChecksum (store (snd (h s))) = Some (sha256hex X data) /\
  getPbkdf2Iterations (store (snd (h s)))
    = match root with Some n => n | None => getPbkdf2Iterations (store s) end /\
  pending (snd (h s)) = pending s /\
  added h s
    = ([E_decrypt data (getPassword (store s))]
       ++ (if strict_eq (isUpgradedToHD w) (JBool false)
           then [E_event "hd_wallets_does_not_exist" None] else [])
       ++ (if isInitialized s then [] else [E_wsConnect])
       ++ [E_request ReqHistory]
       ++ match success with Some f => [E_callback f []] | None => [] end)%list.
Proof.
  intros NE NM DE. cbv zeta.
  assert (B1 : nonempty (Some data) = true) by now apply nonempty_some.
  assert (B2 : differs (Some data) (Some "Not modified") = true).
  { apply differs_true. congruence. }
  unfold handle, getWallet_response, decryptAndInitializeWallet, apply_success,
    setIsInitialized, socketConnect, getHistory.
  rewrite B1, B2. cbn [negb orb].
  destruct s as [st ini wl lo tr pd]. js. cbn in B1. rewrite B1. cbn.
  rewrite DE. cbn.
  destruct root as [n|]; cbn;
    (destruct (negb (sha256hex X data =? "")%string); cbn);
    (destruct (strict_eq (isUpgradedToHD w) (JBool false)); cbn);
    (destruct ini; cbn); (destruct success as [f|]; cbn);
    rewrite <- ?app_assoc, ?skipn_own_length; cbn; auto 10.
Qed.

Lemma getWallet_refresh_witness :
  let s := Samples.logged_in Samples.key36 in
  let h := handle Samples.collaborators
             (GetWallet_ok (Some "success") None (Some "pw|{newer}")) in
  getPayloadChecksum (store (snd (h s))) = Some "sum:pw|{newer}" /\
  added h s = [E_decrypt "pw|{newer}" "pw"; E_request ReqHistory;
               E_callback "success" []].
Proof.
  assert (N1 : "pw|{newer}" <> "") by discriminate.
  assert (N2 : "pw|{newer}" <> "Not modified") by discriminate.
  destruct (getWallet_refresh Samples.collaborators (Some "success") None
              "pw|{newer}" (Samples.hd_wallet Samples.key36) (Some 5000)
              (Samples.logged_in Samples.key36) N1 N2 eq_refl)
    as (_ & _ & _ & _ & C & _ & _ & T).
  split; [exact C | exact T].
Defined.

(** The state [syncWallet] leaves behind when it uploads: the store
    already holds the uploaded ciphertext and its checksum. *)
Lemma syncWallet_upload_state (X : Collaborators)
    (successcallback errorcallback : option Cb) (s : Session) (u : Effect) :
  In u (added (syncWallet X successcallback errorcallback) s) ->
  is_upload u = true ->
  exists w crypted,
    wallet s = Some w /\
    u = E_request
          (ReqWalletUpdate crypted (strlen crypted) (Some (sha256hex X crypted))
             (if isHex X (getPayloadChecksum (store s))
              then getPayloadChecksum (store s) else None)
             (if isSyncPubKeys (store s) then Some (active_list w) else None)
             (getLanguage (store s))) /\
    syncWallet X successcallback errorcallback s
    = (Ok tt,
       mkSession (setEncryptedWalletData X crypted (disableLogout (store s)))
         (isInitialized s) (wallet s) (last_on_change s)
         (trace s ++ added (syncWallet X successcallback errorcallback) s)
         (pending s ++ [T_syncPost (Some (sha256hex X crypted))
                          successcallback errorcallback])).
Proof.
  destruct s as [st ini wl lo tr pd].
  unfold syncWallet, upload, _errorcallback, getWallet, panic. js.
  destruct wl as [w|]; cbn; [|rewrite skipn_all; intros []].
  destruct (strict_eq (isEncryptionConsistent w) (JBool false)); cbn.
  { rewrite <- ?app_assoc, skipn_own_length.
    intros [<-|[<-|[]]]; discriminate. }
  destruct (sharedKey_rejected w); cbn; [rewrite skipn_all; intros []|].
  destruct (stringify X w) as [e|data]; cbn.
  { destruct errorcallback; cbn; rewrite <- ?app_assoc, skipn_own_length; cbn;
      intros Hin U; repeat (destruct Hin as [<-|Hin]; [discriminate U|]);
      destruct Hin. }
  destruct (encryptWallet X data _ _ _) as [e|crypted]; cbn.
  { destruct errorcallback; cbn; rewrite <- ?app_assoc, skipn_own_length; cbn;
      intros Hin U; repeat (destruct Hin as [<-|Hin]; [discriminate U|]);
      destruct Hin. }
  destruct (strlen crypted =? 0); cbn.
  { destruct errorcallback; cbn; rewrite <- ?app_assoc, skipn_own_length; cbn;
      intros Hin U; repeat (destruct Hin as [<-|Hin]; [discriminate U|]);
      destruct Hin. }
  destruct (decryptWallet X crypted _) as [msg|res]; cbn.
  { destruct errorcallback; cbn; rewrite <- ?app_assoc, skipn_own_length; cbn;
      intros Hin U; repeat (destruct Hin as [<-|Hin]; [discriminate U|]);
      destruct Hin. }
  rewrite <- ?app_assoc, skipn_own_length. cbn.
  intros Hin U. exists w, crypted.
  destruct Hin as [<-|[<-|[<-|[<-|[<-|[]]]]]]; try discriminate U.
  repeat split.
Qed.

(** X15.  The client ignores the echo of its own upload.  When
    [syncWallet] uploads a ciphertext, the request carries that
    ciphertext, its length and its hash as the checksum, the store
    already holds both, and a later [on_change] frame with that checksum
    changes nothing: no fetch is made. *)
Theorem own_upload_echo_ignored (X : Collaborators)
    (successcallback errorcallback : option Cb) (s : Session) (u : Effect) :
  let sync := syncWallet X successcallback errorcallback in
  In u (added sync s) ->
  is_upload u = true ->
  exists crypted old act lang,
    u = E_request (ReqWalletUpdate crypted (strlen crypted)
                     (Some (sha256hex X crypted)) old act lang) /\
    getEncryptedWalletData (store (snd (sync s))) = Some crypted /\
    getPayloadChecksum (store (snd (sync s))) = Some (sha256hex X crypted) /\
    onMessage X (FrameOnChange (sha256hex X crypted)) (snd (sync s))
    = (Ok tt, snd (sync s)).
Proof.
  cbv zeta. intros Hin U.
  destruct (syncWallet_upload_state X successcallback errorcallback s u Hin U)
    as (w & crypted & W & -> & E).
  exists crypted. do 3 eexists. split; [reflexivity|].
  rewrite E. cbn [snd store getEncryptedWalletData getPayloadChecksum
                  setEncryptedWalletData].
  split; [reflexivity|]. split; [reflexivity|].
  clear E Hin U.
  generalize (added (syncWallet X successcallback errorcallback) s) as sent.
  intros sent.
  unfold onMessage, generatePayloadChecksum. js.
  rewrite String.eqb_refl. cbn. rewrite andb_false_r. reflexivity.
Qed.

Lemma own_upload_echo_ignored_witness :
  let s := Samples.logged_in Samples.key36 in
  let s1 := snd (syncWallet Samples.collaborators None None s) in
  exists crypted old act lang,
    E_request (ReqWalletUpdate "pw|{wallet}" 11 (Some "sum:pw|{wallet}")
                 (Some "sum:pw|{wallet}") (Some "1abc|1hd0|1hd1") (Some "en"))
    = E_request (ReqWalletUpdate crypted (strlen crypted)
                   (Some (sha256hex Samples.collaborators crypted)) old act lang) /\
    getEncryptedWalletData (store s1) = Some crypted /\
    getPayloadChecksum (store s1) = Some (sha256hex Samples.collaborators crypted) /\
    onMessage Samples.collaborators
      (FrameOnChange (sha256hex Samples.collaborators crypted)) s1
    = (Ok tt, s1).
Proof.
  apply (own_upload_echo_ignored Samples.collaborators None None
           (Samples.logged_in Samples.key36)).
  - cbn. do 4 right. left. reflexivity.
  - reflexivity.
Defined.

(** X16.  An upload the server turns down.  The store keeps the
    ciphertext that was not saved, so the wallet is fetched again under
    the checksum of that ciphertext; the failure is announced, the error
    callback receives it, logout is enabled again and the wallet is not
    marked as synchronized. *)
Theorem failed_upload_refetches (X : Collaborators)
    (successcallback errorcallback : option Cb) (s : Session) (u : Effect)
    (e : string) :
  let sync := syncWallet X successcallback errorcallback in
  In u (added sync s) ->
  is_upload u = true ->
  exists crypted,
    spawned sync s
      = [T_syncPost (Some (sha256hex X crypted)) successcallback errorcallback] /\
    let h := handle X (SyncPost_error (Some (sha256hex X crypted))
                         successcallback errorcallback e) in
    let s2 := snd (h (snd (sync s))) in
    fst (h (snd (sync s))) = Ok tt /\
    getEncryptedWalletData (store s2) = Some crypted /\
    isLogoutDisabled (store s2) = false /\
    isSynchronizedWithServer (store s2) = isSynchronizedWithServer (store s) /\
    added h (snd (sync s))
      = ([E_event "on_backup_wallet_error" None;
          E_event "msg" (Some ("Error Saving Wallet: " ++ e)%string);
          E_request (ReqWalletFetch
                       (if nonempty (Some (sha256hex X crypted))
                        then Some (sha256hex X crypted) else None))]
         ++ match errorcallback with
            | Some f => [E_callback f [ArgExn (ExnExternal e)]]
            | None => []
            end)%list.
Proof.
  cbv zeta. intros Hin U.
  destruct (syncWallet_upload_state X successcallback errorcallback s u Hin U)
    as (w & crypted & W & -> & E).
  exists crypted. unfold spawned. rewrite E. cbn [snd pending].
  split; [apply skipn_own_length|].
  clear E Hin U.
  generalize (trace s ++ added (syncWallet X successcallback errorcallback) s)%list
    as sent.
  intros sent.
  unfold handle, syncPost_error, _errorcallback, getWallet. js.
  destruct errorcallback; cbn; rewrite <- ?app_assoc, skipn_own_length; auto 10.
Qed.

Lemma failed_upload_refetches_witness :
  let s := Samples.logged_in Samples.key36 in
  let sync := syncWallet Samples.collaborators None (Some "failed") in
  exists crypted,
    spawned sync s
      = [T_syncPost (Some (sha256hex Samples.collaborators crypted)) None
           (Some "failed")] /\
    added (handle Samples.collaborators
             (SyncPost_error (Some (sha256hex Samples.collaborators crypted))
                None (Some "failed") "timeout"))
      (snd (sync s))
    = ([E_event "on_backup_wallet_error" None;
        E_event "msg" (Some "Error Saving Wallet: timeout");
        E_request (ReqWalletFetch
                     (if nonempty (Some (sha256hex Samples.collaborators crypted))
                      then Some (sha256hex Samples.collaborators crypted)
                      else None))]
       ++ [E_callback "failed" [ArgExn (ExnExternal "timeout")]])%list.
Proof.
  assert (Hin : In (E_request
                      (ReqWalletUpdate "pw|{wallet}" 11 (Some "sum:pw|{wallet}")
                         (Some "sum:pw|{wallet}") (Some "1abc|1hd0|1hd1")
                         (Some "en")))
                  (added (syncWallet Samples.collaborators None (Some "failed"))
                     (Samples.logged_in Samples.key36))).
  { cbn. do 4 right. left. reflexivity. }
  destruct (failed_upload_refetches Samples.collaborators None (Some "failed")
              (Samples.logged_in Samples.key36) _ "timeout" Hin eq_refl)
    as (crypted & Sp & _ & _ & _ & _ & T).
  exists crypted. split; [exact Sp | exact T].
Defined.

(** *** What holds along every run of the session *)

Section Grows.
Context (P : Session -> Prop) (R : Session -> Session -> Prop).
Hypothesis R_refl : forall s, R s s.
Hypothesis R_trans : forall a b c, R a b -> R b c -> R a c.

Lemma grows_ret {A} (a : A) : grows P R (ret a).
Proof. intros s Ps. split; [apply R_refl | exact Ps]. Qed.

Lemma grows_throw {A} (e : Exn) : grows P R (@throw A e).
Proof. intros s Ps. split; [apply R_refl | exact Ps]. Qed.

Lemma grows_get : grows P R get.
Proof. intros s Ps. split; [apply R_refl | exact Ps]. Qed.

Lemma grows_read {A} (f : WalletStore -> A) : grows P R (read f).
Proof. intros s Ps. split; [apply R_refl | exact Ps]. Qed.

Lemma grows_lift {A} (r : Exn + A) : grows P R (lift r).
Proof. intros s Ps. destruct r; (split; [apply R_refl | exact Ps]). Qed.

Lemma grows_bind {A B} (m : M A) (k : A -> M B) :
  grows P R m -> (forall a, grows P R (k a)) -> grows P R (bind m k).
Proof.
  intros Hm Hk s Ps. unfold bind. destruct (Hm s Ps) as [R1 P1].
  destruct (m s) as [[a|e] s1]; cbn in *; [|auto].
  destruct (Hk a s1 P1) as [R2 P2]. split; [|exact P2].
  exact (R_trans _ _ _ R1 R2).
Qed.

Lemma grows_try_catch {A} (m : M A) (h : Exn -> M A) :
  grows P R m -> (forall e, grows P R (h e)) -> grows P R (try_catch m h).
Proof.
  intros Hm Hh s Ps. unfold try_catch. destruct (Hm s Ps) as [R1 P1].
  destruct (m s) as [[a|e] s1]; cbn in *; [auto|].
  destruct (Hh e s1 P1) as [R2 P2]. split; [|exact P2].
  exact (R_trans _ _ _ R1 R2).
Qed.

Lemma grows_modify (f : Session -> Session) :
  (forall s, P s -> R s (f s) /\ P (f s)) -> grows P R (modify f).
Proof. intros Hf s Ps. exact (Hf s Ps). Qed.

Lemma grows_emit (e : Effect) :
  (forall s, P s -> R s (with_trace (trace s ++ [e]) s)
                    /\ P (with_trace (trace s ++ [e]) s)) ->
  grows P R (emit e).
Proof. intros Hf s Ps. exact (Hf s Ps). Qed.

Lemma grows_spawn (t : Task) :
  (forall s, P s -> R s (with_pending (pending s ++ [t]) s)
                    /\ P (with_pending (pending s ++ [t]) s)) ->
  grows P R (spawn t).
Proof. intros Hf s Ps. exact (Hf s Ps). Qed.

Lemma grows_update_store (f : WalletStore -> WalletStore) :
  (forall s, P s -> R s (with_store f s) /\ P (with_store f s)) ->
  grows P R (update_store f).
Proof. intros Hf s Ps. exact (Hf s Ps). Qed.

(** Once [f] has established [Q], the rest may rely on it. *)
Lemma grows_install (Q : Session -> Prop) {B} (f : Session -> Session)
    (k : unit -> M B) :
  (forall s, P s) ->
  (forall s, R s (f s) /\ Q (f s)) ->
  (forall a, grows Q R (k a)) ->
  grows P R (bind (modify f) k).
Proof.
  intros Pall Hf Hk s _. unfold bind, modify.
  destruct (Hf s) as [R1 Q1]. destruct (Hk tt (f s) Q1) as [R2 _].
  split; [|apply Pall]. exact (R_trans _ _ _ R1 R2).
Qed.

End Grows.

Lemma progress_refl (s : Session) : progress s s.
Proof. constructor; auto; lia. Qed.

Lemma progress_trans (a b c : Session) : progress a b -> progress b c -> progress a c.
Proof.
  intros [L1 W1 Q1 C1 T1 G1 B1] [L2 W2 Q2 C2 T2 G2 B2].
  constructor; auto; try lia.
  intros I. destruct (Q2 I) as [I1|Wc]; [|now right].
  destruct (Q1 I1) as [Ia|Wb]; [now left | right; auto].
Qed.

(** Read a session after a primitive step. *)
Ltac settle :=
  unfold count_in_trace, has_wallet, any, with_store, with_trace, with_pending,
    with_wallet, with_isInitialized, with_last_on_change, setRestoringWallet,
    setIsPolling, disableLogout, enableLogout, setLogoutDisabled,
    setIsSynchronizedWithServer, setPayloadChecksum, unsafeSetPassword,
    setPbkdf2Iterations, setLanguage, setGuid, setRealAuthType, setSyncPubKeys,
    setEncryptedWalletData, incrementCounter in *;
  cbn [store isInitialized wallet last_on_change trace pending getCounter] in *;
  rewrite ?filter_app, ?length_app;
  cbn [filter is_wsConnect is_setTimeout Datatypes.length b2z];
  try tauto; try lia; try congruence.

Ltac step_done :=
  let s := fresh "s" in
  let Ps := fresh "Ps" in
  intros s Ps; split; [constructor|]; settle;
  try (destruct (wallet s); cbn; settle).

(** [setIsInitialized] closes the latch and connects the socket in one
    step; it is only reached with a wallet in memory. *)
Lemma setIsInitialized_grows : grows has_wallet progress setIsInitialized.
Proof.
  intros s Ps. unfold setIsInitialized, socketConnect. js.
  destruct (isInitialized s) eqn:I; cbn.
  - split; [apply progress_refl | exact Ps].
  - split; [constructor|]; settle; rewrite ?I; cbn [b2z]; try tauto; lia.
Qed.

(** A poll answer sets a timer exactly when it counts a retry. *)
Lemma poll_success_grows (k : PollCont) (guid : option string) :
  grows any progress (poll_success k guid).
Proof.
  intros s _. unfold poll_success, run_PollCont, tryToFetchWalletJSON. js.
  destruct (nonempty guid); cbn.
  - destruct k; cbn; (split; [constructor|]); settle.
  - destruct (getCounter (store s) <? 600) eqn:C; cbn;
      (split; [constructor|]); settle.
Qed.

Ltac grow_fn :=
  progress unfold handle, invoke, getWallet_response, getWallet_failed,
    decryptAndInitializeWallet, apply_success, apply_error, didDecryptWallet,
    getWallet, logout, logout_reload,
    getHistory, getHistory_then, initializeWallet, walletJSON_success,
    walletJSON_error, didFetchWalletJSON, tryToFetchWalletJSON,
    tryToFetchWalletWith2FA, twoFactor_success, twoFactor_error, login,
    authorization_continue, pollForSessionGUID, poll_error,
    poll_timer, syncPost_success, syncPost_error,
    checkChecksum_success, checkChecksum_error, _errorcallback, onMessage,
    onOpen, onClose, panic, upload, syncWallet, then_catch, when, call, call_if,
    assert, sendEvent, console_log.

Ltac grow_step :=
  lazymatch goal with
  | |- grows any _ (bind (modify (with_wallet (Some _))) _) =>
      apply (grows_install any progress progress_trans has_wallet);
      [exact (fun _ => Logic.I) | intros s; split; [constructor|]; settle | intro]
  | |- grows _ _ (bind _ _) =>
      apply (grows_bind _ _ progress_trans); [|intro]
  | |- grows _ _ (try_catch _ _) =>
      apply (grows_try_catch _ _ progress_trans); [|intro]
  | |- grows _ _ (ret _) => apply (grows_ret _ _ progress_refl)
  | |- grows _ _ (throw _) => apply (grows_throw _ _ progress_refl)
  | |- grows _ _ get => apply (grows_get _ _ progress_refl)
  | |- grows _ _ (read _) => apply (grows_read _ _ progress_refl)
  | |- grows _ _ (lift _) => apply (grows_lift _ _ progress_refl)
  | |- grows _ _ (emit _) => apply grows_emit; step_done
  | |- grows _ _ (spawn _) => apply grows_spawn; step_done
  | |- grows _ _ (update_store _) => apply grows_update_store; step_done
  | |- grows _ _ (modify _) => apply grows_modify; step_done
  | |- grows _ _ setIsInitialized => apply setIsInitialized_grows
  | |- grows _ _ (poll_success _ _) => apply poll_success_grows
  | |- grows _ _ (if ?b then _ else _) => destruct b
  | |- grows _ _ (match ?x with _ => _ end) => destruct x
  | |- grows _ _ _ => first [grow_fn | progress cbv zeta | progress cbn beta]
  end.

Ltac grow := repeat grow_step.

Lemma handle_grows (X : Collaborators) (d : Delivery) :
  grows any progress (handle X d).
Proof. destruct d; grow. Qed.

Lemma invoke_grows (X : Collaborators) (c : ApiCall) :
  grows any progress (invoke X c).
Proof. destruct c; grow. Qed.

Lemma run_progress (m : M unit) (s : Session) :
  grows any progress m -> progress s (run m s).
Proof.
  intros G. unfold run. destruct (G s Logic.I) as [R _].
  destruct (m s) as [[a|e] s1]; cbn in *; [exact R|].
  apply (progress_trans _ _ _ R). constructor; settle.
Qed.

Lemma turn_progress (X : Collaborators) (t : Turn) (s : Session) :
  progress s (turn X t s).
Proof.
  destruct t as [c|d]; cbn.
  - apply run_progress, invoke_grows.
  - unfold deliver.
    destruct (remove_first (task_of d) (pending s)) as [rest|];
      [|apply progress_refl].
    destruct (one_shot (task_of d)).
    + apply (progress_trans _ (with_pending rest s)).
      * constructor; settle.
      * apply run_progress, handle_grows.
    + apply run_progress, handle_grows.
Qed.

Lemma turns_progress (X : Collaborators) (ts : list Turn) (s : Session) :
  progress s (turns X ts s).
Proof.
  unfold turns. revert s.
  induction ts as [|t ts IH]; intros s; cbn; [apply progress_refl|].
  exact (progress_trans _ _ _ (turn_progress X t s) (IH _)).
Qed.

(** X17.  The latch.  Whatever calls and responses come, in whatever
    order: once the session is initialized it stays initialized and its
    wallet stays in memory.  In a session that started without the latch
    closed over an empty wallet (a fresh process does), being initialized
    means that a wallet is in memory, so no frame of the push channel and
    no opening of the socket can fail on a missing wallet. *)
Theorem initialized_session_has_wallet (X : Collaborators) (ts : list Turn)
    (s0 : Session) :
  (isInitialized s0 = true -> wallet s0 <> None) ->
  let s := turns X ts s0 in
  isInitialized s = true ->
  (exists w, wallet s = Some w) /\
  (forall m, fst (onMessage X m s) = Ok tt) /\
  fst (onOpen s) = Ok tt /\
  (forall more,
     isInitialized (turns X more s) = true /\ wallet (turns X more s) <> None).
Proof.
  intros Inv. cbv zeta. intros I.
  destruct (turns_progress X ts s0) as [_ Ws Q _ _ _ _].
  assert (W : wallet (turns X ts s0) <> None).
  { destruct (Q I) as [I0|W]; [apply Ws, Inv, I0 | exact W]. }
  set (s := turns X ts s0) in *.
  destruct (wallet s) as [w|] eqn:E; [clear W|contradiction].
  split; [now exists w|]. split; [|split].
  - intros m.
    destruct m; unfold onMessage, getHistory_then, getHistory, getWallet; js;
      rewrite ?E; cbn; try reflexivity.
    destruct (_ && _); reflexivity.
  - unfold onOpen. js. now rewrite E.
  - intros more. destruct (turns_progress X more s) as [L Ws' _ _ _ _ _].
    split; [exact (L I)|]. apply Ws'. congruence.
Qed.

Lemma initialized_session_has_wallet_witness :
  let ctx := mkLoginCtx "guid-1" "pw" None Samples.callbacks in
  let s := turns Samples.collaborators
             [Host (Call_login "guid-1" "pw" None None Samples.callbacks);
              Env (WalletJSON_ok ctx
                     (mkWalletJSON (Some "guid-1") 0 true (Some "pw|{wallet}") 0
                        (Some "en")))]
             initial_session in
  fst (onMessage Samples.collaborators FrameUtx s) = Ok tt /\
  isInitialized
    (turns Samples.collaborators [Host (Call_logout (JBool true)); Env Logout_done] s)
  = true.
Proof.
  cbv zeta.
  assert (Inv : isInitialized initial_session = true -> wallet initial_session <> None)
    by discriminate.
  destruct (initialized_session_has_wallet Samples.collaborators
              [Host (Call_login "guid-1" "pw" None None Samples.callbacks);
               Env (WalletJSON_ok (mkLoginCtx "guid-1" "pw" None Samples.callbacks)
                      (mkWalletJSON (Some "guid-1") 0 true (Some "pw|{wallet}") 0
                         (Some "en")))]
              initial_session Inv eq_refl) as (_ & F & _ & L).
  split; [exact (F FrameUtx)|].
  exact (proj1 (L [Host (Call_logout (JBool true)); Env Logout_done])).
Defined.

(** X18.  The socket is connected when, and only when, the latch
    closes: over any run, the connections made are as many as the latch
    moved.  In a process started fresh the socket has been connected
    once if the session is initialized and never if it is not. *)
Theorem socket_connects_once (X : Collaborators) (ts : list Turn) (s0 : Session) :
  count_in_trace is_wsConnect (turns X ts s0) - count_in_trace is_wsConnect s0
  = b2z (isInitialized (turns X ts s0)) - b2z (isInitialized s0) /\
  count_in_trace is_wsConnect (turns X ts initial_session)
  = (if isInitialized (turns X ts initial_session) then 1 else 0).
Proof.
  split.
  - apply (connects_with_latch _ _ (turns_progress X ts s0)).
  - pose proof (connects_with_latch _ _ (turns_progress X ts initial_session)) as C.
    unfold count_in_trace at 2 in C. cbn [initial_session trace isInitialized
      filter Datatypes.length b2z] in C.
    unfold b2z in C. change (Z.of_nat 0) with 0 in C. lia.
Qed.

(** X19.  The retries of the device-authorization poll are counted for
    the life of the process: a timer is set exactly when the polling
    counter goes up, and nothing ever takes the counter down or past
    600.  So all polls of a session together schedule at most 600
    retries, less what the counter already shows. *)
Theorem retries_bounded_for_life (X : Collaborators) (ts : list Turn)
    (s0 : Session) :
  getCounter (store s0) <= 600 ->
  let s := turns X ts s0 in
  count_in_trace is_setTimeout s - count_in_trace is_setTimeout s0
  = getCounter (store s) - getCounter (store s0) /\
  getCounter (store s0) <= getCounter (store s) <= 600 /\
  count_in_trace is_setTimeout s - count_in_trace is_setTimeout s0
  <= 600 - getCounter (store s0).
Proof.
  intros B. cbv zeta.
  destruct (turns_progress X ts s0) as [_ _ _ _ T G Bd].
  specialize (Bd B). lia.
Qed.

Lemma retries_bounded_for_life_witness :
  let s := turns Samples.collaborators
             [Host (Call_pollForSessionGUID "authorized");
              Env (Poll_ok (PollCallback "authorized") None);
              Env (PollTimer_fired (PollCallback "authorized"));
              Env (Poll_ok (PollCallback "authorized") None)]
             initial_session in
  count_in_trace is_setTimeout s - count_in_trace is_setTimeout initial_session
  = getCounter (store s) - getCounter (store initial_session) /\
  getCounter (store s) = 2.
Proof.
  cbv zeta.
  assert (B : getCounter (store initial_session) <= 600) by (cbn; lia).
  split; [|reflexivity].
  exact (proj1 (retries_bounded_for_life Samples.collaborators _ initial_session B)).
Defined.

(** *** A login from the first request to the last callback *)


(** X20.  The answer to a submitted two-factor code.  An empty answer
    is reported as a wrong code: the handler stumbles over the unbound
    [otherError], the [catch] of the request takes the exception for a
    rejection, clears the restoring flag and hands the exception to
    [callbacks.wrongTwoFactorCode].  An answer with a ciphertext stores
    it, also when the password then fails to decrypt it: in that case
    [callbacks.otherError] gets the message, the session stays
    uninitialized and [wrongTwoFactorCode] is not called. *)
Theorem twoFactor_response_outcomes (X : Collaborators) (ctx : LoginCtx)
    (s : Session) (ok err wrong : Cb) :
  cb_success (l_callbacks ctx) = Some ok ->
  cb_otherError (l_callbacks ctx) = Some err ->
  cb_wrongTwoFactorCode (l_callbacks ctx) = Some wrong ->
  (forall data, nonempty data = false ->
     let h := handle X (TwoFactor_ok ctx data) in
     fst (h s) = Ok tt /\
     isRestoringWallet (store (snd (h s))) = false /\
     getEncryptedWalletData (store (snd (h s))) = getEncryptedWalletData (store s) /\
     isInitialized (snd (h s)) = isInitialized s /\
     added h s = [E_callback wrong [ArgExn (ReferenceError "otherError")]]) /\
  (forall data e, data <> "" -> data <> "Not modified" ->
     isInitialized s = false -> isRestoringWallet (store s) = false ->
     decryptWallet X data (l_password ctx) = inl e ->
     let h := handle X (TwoFactor_ok ctx (Some data)) in
     fst (h s) = Ok tt /\
     getEncryptedWalletData (store (snd (h s))) = Some data /\
     getPassword (store (snd (h s))) = l_password ctx /\
     isRestoringWallet (store (snd (h s))) = false /\
     isInitialized (snd (h s)) = false /\
     added h s = [E_decrypt data (l_password ctx); E_event "msg" (Some e);
                  E_event "error_restoring_wallet" None;
                  E_callback err [ArgStr e]]).
Proof.
  intros Cs Ce Cw. split.
  - intros data D. cbv zeta.
    unfold handle, twoFactor_success, twoFactor_error. js. rewrite D. cbn.
    rewrite Cw. cbn. rewrite skipn_own_length. auto.
  - intros data e NE NM I R DE. cbv zeta.
    assert (B1 : nonempty (Some data) = true) by now apply nonempty_some.
    assert (B2 : differs (Some data) (Some "Not modified") = true).
    { apply differs_true. congruence. }
    destruct s as [st ini wl lo tr pd]. cbn in I, R. subst ini.
    unfold handle, twoFactor_success, twoFactor_error, didFetchWalletJSON,
      initializeWallet, decryptAndInitializeWallet, apply_error.
    rewrite B1, B2. cbn [negb]. js. rewrite Cs, Ce. cbn. rewrite R. cbn.
    cbn in B1. rewrite B1. cbn. rewrite DE. cbn.
    rewrite <- ?app_assoc, skipn_own_length. auto 10.
Qed.

Lemma twoFactor_response_outcomes_witness :
  added (handle Samples.collaborators
           (TwoFactor_ok (mkLoginCtx "guid-1" "pw" None Samples.callbacks) (Some "")))
    initial_session
  = [E_callback "wrongTwoFactorCode" [ArgExn (ReferenceError "otherError")]].
Proof.
  destruct (twoFactor_response_outcomes Samples.collaborators
              (mkLoginCtx "guid-1" "pw" None Samples.callbacks) initial_session
              "success" "otherError" "wrongTwoFactorCode" eq_refl eq_refl eq_refl)
    as [A _].
  exact (proj2 (proj2 (proj2 (proj2 (A (Some "") eq_refl))))).
Defined.



End WalletExtras.
